(** * Walk-in interview drive portal: entity store, pipeline rules,
      room/panel assignment and queue position

    A shallow embedding of [server/storage.ts] (class [MemStorage]),
    of the request handlers of [server/routes.ts] and of the queue
    position effect of [client/src/pages/PanelPage.tsx], followed by the
    properties of the specification that are about them.

    Conventions.
    - A JavaScript [Map<number, T>] is an association list in insertion
      order: [Map.set] on a present key replaces the value in place, on an
      absent key it appends; [Array.from(map.values())] is the list of
      values in that order.
    - Numbers that are identifiers, counts or epoch milliseconds are [Z];
      [new Date()] reads a clock that is passed as the argument [now].
    - A field of type [T | null] is [option T]; an optional property of an
      insert object or of a [Partial<T>] is an outer [option], [None] when
      the property is absent.
    - An [async] method is its synchronous body: a method that mutates the
      store returns the new store together with its result.
    - An object is read by key.  The order in which [JSON.stringify] writes
      the properties of a stored entity depends on which properties the
      request carried, and nothing below depends on it. *)

From Stdlib Require Import ZArith List String Ascii Bool Lia.
From Stdlib Require Import Sorted Permutation.
From Stdlib Require Import Decimal DecimalString DecimalNat.
Import ListNotations.

Local Open Scope string_scope.
Local Open Scope list_scope.
Local Open Scope Z_scope.

(** ** JavaScript helpers *)

(** [a || b] on strings: the empty string is falsy. *)
Definition truthy (s : string) : bool := negb (String.eqb s EmptyString).

(** [o ?? d]. *)
Definition nullish {A : Type} (o : option A) (d : A) : A :=
  match o with Some a => a | None => d end.

(** [o ?? null] on an optional property of nullable type. *)
Definition orNull {A : Type} (o : option (option A)) : option A :=
  match o with Some a => a | None => None end.

(** [s || d] on an optional string property. *)
Definition strOr (o : option string) (d : string) : string :=
  match o with
  | Some s => if truthy s then s else d
  | None => d
  end.

(** [Array.prototype.includes] on an array of numbers. *)
Definition includes (l : list Z) (x : Z) : bool := existsb (Z.eqb x) l.

(** ** [Map<number, V>] *)

Section JsMap.
Context {V : Type}.

Definition JsMap : Type := list (Z * V).

Fixpoint map_get (m : JsMap) (k : Z) : option V :=
  match m with
  | [] => None
  | (k', v) :: m' => if Z.eqb k' k then Some v else map_get m' k
  end.

Fixpoint map_set (m : JsMap) (k : Z) (v : V) : JsMap :=
  match m with
  | [] => [(k, v)]
  | (k', v') :: m' =>
      if Z.eqb k' k then (k, v) :: m' else (k', v') :: map_set m' k v
  end.

Definition map_has (m : JsMap) (k : Z) : bool :=
  match map_get m k with Some _ => true | None => false end.

(** [Map.delete] returns whether the key was present. *)
Definition map_delete (m : JsMap) (k : Z) : JsMap * bool :=
  (filter (fun e => negb (Z.eqb (fst e) k)) m, map_has m k).

Definition map_values (m : JsMap) : list V := map snd m.

Definition map_keys (m : JsMap) : list Z := map fst m.
End JsMap.

Arguments JsMap V : clear implicits.

(** ** Entities ([shared/schema.ts]) *)

Record User : Type := mkUser {
  u_id : Z;
  u_username : string;
  u_password : string;
  u_role : string;
  u_name : string;
  u_email : string;
  u_permissions : option (list string);
  u_isActive : bool;
  u_createdAt : Z
}.

Record InsertUser : Type := mkInsertUser {
  iu_username : string;
  iu_password : string;
  iu_role : option string;
  iu_name : string;
  iu_email : string;
  iu_permissions : option (option (list string));
  iu_isActive : option bool
}.

Record PartialUser : Type := mkPartialUser {
  pu_id : option Z;
  pu_username : option string;
  pu_password : option string;
  pu_role : option string;
  pu_name : option string;
  pu_email : option string;
  pu_permissions : option (option (list string));
  pu_isActive : option bool;
  pu_createdAt : option Z
}.

Record Candidate : Type := mkCandidate {
  c_id : Z;
  c_serialNo : string;
  c_name : string;
  c_email : string;
  c_position : string;
  c_timestamp : Z;
  c_status : string;
  c_currentRound : string;
  c_assignedPanel : option Z;
  c_roomNo : option string;
  c_qrCodeUrl : option string
}.

Record InsertCandidate : Type := mkInsertCandidate {
  ic_serialNo : string;
  ic_name : string;
  ic_email : string;
  ic_position : string;
  ic_timestamp : Z;
  ic_status : option string;
  ic_currentRound : option string;
  ic_assignedPanel : option (option Z);
  ic_roomNo : option (option string);
  ic_qrCodeUrl : option (option string)
}.

Record PartialCandidate : Type := mkPartialCandidate {
  pc_id : option Z;
  pc_serialNo : option string;
  pc_name : option string;
  pc_email : option string;
  pc_position : option string;
  pc_timestamp : option Z;
  pc_status : option string;
  pc_currentRound : option string;
  pc_assignedPanel : option (option Z);
  pc_roomNo : option (option string);
  pc_qrCodeUrl : option (option string)
}.

Record Panel : Type := mkPanel {
  p_id : Z;
  p_name : string;
  p_roomNo : string;
  p_isActive : bool;
  p_currentCandidate : option Z;
  p_panelMembers : list string
}.

Record InsertPanel : Type := mkInsertPanel {
  ip_name : string;
  ip_roomNo : string;
  ip_isActive : option bool;
  ip_currentCandidate : option (option Z);
  ip_panelMembers : list string
}.

Record PartialPanel : Type := mkPartialPanel {
  pp_id : option Z;
  pp_name : option string;
  pp_roomNo : option string;
  pp_isActive : option bool;
  pp_currentCandidate : option (option Z);
  pp_panelMembers : option (list string)
}.

Record Feedback : Type := mkFeedback {
  f_id : Z;
  f_candidateId : Z;
  f_panelId : Z;
  f_round : string;
  f_technicalSkills : string;
  f_communication : string;
  f_detailedFeedback : string;
  f_decision : string;
  f_nextRound : option string;
  f_createdAt : Z
}.

Record InsertFeedback : Type := mkInsertFeedback {
  if_candidateId : Z;
  if_panelId : Z;
  if_round : string;
  if_technicalSkills : string;
  if_communication : string;
  if_detailedFeedback : string;
  if_decision : string;
  if_nextRound : option (option string);
  if_createdAt : Z
}.

Record Room : Type := mkRoom {
  r_id : Z;
  r_roomNumber : string;
  r_capacity : Z;
  r_floor : string;
  r_type : string;
  r_isOccupied : bool;
  r_assignedPanels : option (list Z)
}.

Record InsertRoom : Type := mkInsertRoom {
  ir_roomNumber : string;
  ir_capacity : Z;
  ir_floor : string;
  ir_type : string;
  ir_isOccupied : option bool;
  ir_assignedPanels : option (option (list Z))
}.

Record PartialRoom : Type := mkPartialRoom {
  pr_id : option Z;
  pr_roomNumber : option string;
  pr_capacity : option Z;
  pr_floor : option string;
  pr_type : option string;
  pr_isOccupied : option bool;
  pr_assignedPanels : option (option (list Z))
}.

Record CandidateFeedback : Type := mkCandidateFeedback {
  cf_id : Z;
  cf_candidateId : Z;
  cf_overallExperience : Z;
  cf_interviewDifficulty : Z;
  cf_interviewFairness : Z;
  cf_interviewerProfessionalism : Z;
  cf_reasonsRating : option string;
  cf_improvementSuggestions : option string;
  cf_comparisonToOthers : option string;
  cf_additionalComments : option string;
  cf_submittedAt : Z;
  cf_anonymous : bool
}.

Record InsertCandidateFeedback : Type := mkInsertCandidateFeedback {
  icf_candidateId : Z;
  icf_overallExperience : Z;
  icf_interviewDifficulty : Z;
  icf_interviewFairness : Z;
  icf_interviewerProfessionalism : Z;
  icf_reasonsRating : option (option string);
  icf_improvementSuggestions : option (option string);
  icf_comparisonToOthers : option (option string);
  icf_additionalComments : option (option string);
  icf_anonymous : option bool
}.

Record RolePermission : Type := mkRolePermission {
  rp_id : Z;
  rp_role : string;
  rp_permissions : string;
  rp_description : option string;
  rp_createdAt : Z;
  rp_updatedAt : Z
}.

Record InsertRolePermission : Type := mkInsertRolePermission {
  irp_role : string;
  irp_permissions : string;
  irp_description : option (option string)
}.

Record PartialRolePermission : Type := mkPartialRolePermission {
  prp_id : option Z;
  prp_role : option string;
  prp_permissions : option string;
  prp_description : option (option string);
  prp_createdAt : option Z;
  prp_updatedAt : option Z
}.

(** ** The store ([MemStorage]) *)

Record MemStorage : Type := mkMemStorage {
  users : JsMap User;
  candidates : JsMap Candidate;
  panels : JsMap Panel;
  feedbacks : JsMap Feedback;
  rooms : JsMap Room;
  candidateFeedbacks : JsMap CandidateFeedback;
  rolePermissions : JsMap RolePermission;
  userCurrentId : Z;
  candidateCurrentId : Z;
  panelCurrentId : Z;
  feedbackCurrentId : Z;
  roomCurrentId : Z;
  candidateFeedbackCurrentId : Z;
  rolePermissionCurrentId : Z
}.

(** Functional updates of the fields of [this]. *)

Definition with_users (s : MemStorage) (m : JsMap User) : MemStorage :=
  mkMemStorage m (candidates s) (panels s) (feedbacks s) (rooms s)
    (candidateFeedbacks s) (rolePermissions s) (userCurrentId s)
    (candidateCurrentId s) (panelCurrentId s) (feedbackCurrentId s)
    (roomCurrentId s) (candidateFeedbackCurrentId s) (rolePermissionCurrentId s).

Definition with_candidates (s : MemStorage) (m : JsMap Candidate) : MemStorage :=
  mkMemStorage (users s) m (panels s) (feedbacks s) (rooms s)
    (candidateFeedbacks s) (rolePermissions s) (userCurrentId s)
    (candidateCurrentId s) (panelCurrentId s) (feedbackCurrentId s)
    (roomCurrentId s) (candidateFeedbackCurrentId s) (rolePermissionCurrentId s).

Definition with_panels (s : MemStorage) (m : JsMap Panel) : MemStorage :=
  mkMemStorage (users s) (candidates s) m (feedbacks s) (rooms s)
    (candidateFeedbacks s) (rolePermissions s) (userCurrentId s)
    (candidateCurrentId s) (panelCurrentId s) (feedbackCurrentId s)
    (roomCurrentId s) (candidateFeedbackCurrentId s) (rolePermissionCurrentId s).

Definition with_feedbacks (s : MemStorage) (m : JsMap Feedback) : MemStorage :=
  mkMemStorage (users s) (candidates s) (panels s) m (rooms s)
    (candidateFeedbacks s) (rolePermissions s) (userCurrentId s)
    (candidateCurrentId s) (panelCurrentId s) (feedbackCurrentId s)
    (roomCurrentId s) (candidateFeedbackCurrentId s) (rolePermissionCurrentId s).

Definition with_rooms (s : MemStorage) (m : JsMap Room) : MemStorage :=
  mkMemStorage (users s) (candidates s) (panels s) (feedbacks s) m
    (candidateFeedbacks s) (rolePermissions s) (userCurrentId s)
    (candidateCurrentId s) (panelCurrentId s) (feedbackCurrentId s)
    (roomCurrentId s) (candidateFeedbackCurrentId s) (rolePermissionCurrentId s).

Definition with_candidateFeedbacks (s : MemStorage)
    (m : JsMap CandidateFeedback) : MemStorage :=
  mkMemStorage (users s) (candidates s) (panels s) (feedbacks s) (rooms s)
    m (rolePermissions s) (userCurrentId s)
    (candidateCurrentId s) (panelCurrentId s) (feedbackCurrentId s)
    (roomCurrentId s) (candidateFeedbackCurrentId s) (rolePermissionCurrentId s).

Definition with_rolePermissions (s : MemStorage)
    (m : JsMap RolePermission) : MemStorage :=
  mkMemStorage (users s) (candidates s) (panels s) (feedbacks s) (rooms s)
    (candidateFeedbacks s) m (userCurrentId s)
    (candidateCurrentId s) (panelCurrentId s) (feedbackCurrentId s)
    (roomCurrentId s) (candidateFeedbackCurrentId s) (rolePermissionCurrentId s).

Definition with_userCurrentId (s : MemStorage) (n : Z) : MemStorage :=
  mkMemStorage (users s) (candidates s) (panels s) (feedbacks s) (rooms s)
    (candidateFeedbacks s) (rolePermissions s) n
    (candidateCurrentId s) (panelCurrentId s) (feedbackCurrentId s)
    (roomCurrentId s) (candidateFeedbackCurrentId s) (rolePermissionCurrentId s).

Definition with_candidateCurrentId (s : MemStorage) (n : Z) : MemStorage :=
  mkMemStorage (users s) (candidates s) (panels s) (feedbacks s) (rooms s)
    (candidateFeedbacks s) (rolePermissions s) (userCurrentId s)
    n (panelCurrentId s) (feedbackCurrentId s)
    (roomCurrentId s) (candidateFeedbackCurrentId s) (rolePermissionCurrentId s).

Definition with_panelCurrentId (s : MemStorage) (n : Z) : MemStorage :=
  mkMemStorage (users s) (candidates s) (panels s) (feedbacks s) (rooms s)
    (candidateFeedbacks s) (rolePermissions s) (userCurrentId s)
    (candidateCurrentId s) n (feedbackCurrentId s)
    (roomCurrentId s) (candidateFeedbackCurrentId s) (rolePermissionCurrentId s).

Definition with_feedbackCurrentId (s : MemStorage) (n : Z) : MemStorage :=
  mkMemStorage (users s) (candidates s) (panels s) (feedbacks s) (rooms s)
    (candidateFeedbacks s) (rolePermissions s) (userCurrentId s)
    (candidateCurrentId s) (panelCurrentId s) n
    (roomCurrentId s) (candidateFeedbackCurrentId s) (rolePermissionCurrentId s).

Definition with_roomCurrentId (s : MemStorage) (n : Z) : MemStorage :=
  mkMemStorage (users s) (candidates s) (panels s) (feedbacks s) (rooms s)
    (candidateFeedbacks s) (rolePermissions s) (userCurrentId s)
    (candidateCurrentId s) (panelCurrentId s) (feedbackCurrentId s)
    n (candidateFeedbackCurrentId s) (rolePermissionCurrentId s).

Definition with_candidateFeedbackCurrentId (s : MemStorage) (n : Z) : MemStorage :=
  mkMemStorage (users s) (candidates s) (panels s) (feedbacks s) (rooms s)
    (candidateFeedbacks s) (rolePermissions s) (userCurrentId s)
    (candidateCurrentId s) (panelCurrentId s) (feedbackCurrentId s)
    (roomCurrentId s) n (rolePermissionCurrentId s).

Definition with_rolePermissionCurrentId (s : MemStorage) (n : Z) : MemStorage :=
  mkMemStorage (users s) (candidates s) (panels s) (feedbacks s) (rooms s)
    (candidateFeedbacks s) (rolePermissions s) (userCurrentId s)
    (candidateCurrentId s) (panelCurrentId s) (feedbackCurrentId s)
    (roomCurrentId s) (candidateFeedbackCurrentId s) n.

(** The constructor before [initializeData]. *)
Definition emptyStorage : MemStorage :=
  mkMemStorage [] [] [] [] [] [] [] 1 1 1 1 1 1 1.

(** ** User methods *)

Definition getUser (s : MemStorage) (id : Z) : option User :=
  map_get (users s) id.

Definition getUserByUsername (s : MemStorage) (username : string) : option User :=
  find (fun user => String.eqb (u_username user) username) (map_values (users s)).

Definition getUsers (s : MemStorage) : list User := map_values (users s).

Definition createUser (now : Z) (s : MemStorage) (insertUser : InsertUser)
    : MemStorage * User :=
  let id := userCurrentId s in
  let s := with_userCurrentId s (id + 1) in
  let role := strOr (iu_role insertUser) "panel" in
  let permissions := nullish (orNull (iu_permissions insertUser)) [] in
  let isActive := nullish (iu_isActive insertUser) true in
  let createdAt := now in
  let user :=
    mkUser id (iu_username insertUser) (iu_password insertUser) role
      (iu_name insertUser) (iu_email insertUser) (Some permissions)
      isActive createdAt in
  (with_users s (map_set (users s) id user), user).

(** [{ ...existing, ...updates }] *)
Definition mergeUser (existing : User) (updates : PartialUser) : User :=
  mkUser
    (nullish (pu_id updates) (u_id existing))
    (nullish (pu_username updates) (u_username existing))
    (nullish (pu_password updates) (u_password existing))
    (nullish (pu_role updates) (u_role existing))
    (nullish (pu_name updates) (u_name existing))
    (nullish (pu_email updates) (u_email existing))
    (nullish (pu_permissions updates) (u_permissions existing))
    (nullish (pu_isActive updates) (u_isActive existing))
    (nullish (pu_createdAt updates) (u_createdAt existing)).

Definition updateUser (s : MemStorage) (id : Z) (updates : PartialUser)
    : MemStorage * option User :=
  match map_get (users s) id with
  | None => (s, None)
  | Some existing =>
      let updated := mergeUser existing updates in
      (with_users s (map_set (users s) id updated), Some updated)
  end.

Definition deleteUser (s : MemStorage) (id : Z) : MemStorage * bool :=
  let '(m, found) := map_delete (users s) id in
  (with_users s m, found).

(** ** Candidate methods *)

Definition getCandidates (s : MemStorage) : list Candidate :=
  map_values (candidates s).

Definition getCandidate (s : MemStorage) (id : Z) : option Candidate :=
  map_get (candidates s) id.

Definition getCandidateBySerialNo (s : MemStorage) (serialNo : string)
    : option Candidate :=
  find (fun candidate => String.eqb (c_serialNo candidate) serialNo)
    (map_values (candidates s)).

Definition getCandidateByEmail (s : MemStorage) (email : string)
    : option Candidate :=
  find (fun candidate => String.eqb (c_email candidate) email)
    (map_values (candidates s)).

Definition createCandidate (s : MemStorage) (insertCandidate : InsertCandidate)
    : MemStorage * Candidate :=
  let id := candidateCurrentId s in
  let s := with_candidateCurrentId s (id + 1) in
  let status := strOr (ic_status insertCandidate) "registered" in
  let currentRound := strOr (ic_currentRound insertCandidate) "gd" in
  let assignedPanel := orNull (ic_assignedPanel insertCandidate) in
  let roomNo := orNull (ic_roomNo insertCandidate) in
  let qrCodeUrl := orNull (ic_qrCodeUrl insertCandidate) in
  let candidate :=
    mkCandidate id (ic_serialNo insertCandidate) (ic_name insertCandidate)
      (ic_email insertCandidate) (ic_position insertCandidate)
      (ic_timestamp insertCandidate) status currentRound assignedPanel
      roomNo qrCodeUrl in
  (with_candidates s (map_set (candidates s) id candidate), candidate).

Definition mergeCandidate (existing : Candidate) (updates : PartialCandidate)
    : Candidate :=
  mkCandidate
    (nullish (pc_id updates) (c_id existing))
    (nullish (pc_serialNo updates) (c_serialNo existing))
    (nullish (pc_name updates) (c_name existing))
    (nullish (pc_email updates) (c_email existing))
    (nullish (pc_position updates) (c_position existing))
    (nullish (pc_timestamp updates) (c_timestamp existing))
    (nullish (pc_status updates) (c_status existing))
    (nullish (pc_currentRound updates) (c_currentRound existing))
    (nullish (pc_assignedPanel updates) (c_assignedPanel existing))
    (nullish (pc_roomNo updates) (c_roomNo existing))
    (nullish (pc_qrCodeUrl updates) (c_qrCodeUrl existing)).

Definition updateCandidate (s : MemStorage) (id : Z) (updates : PartialCandidate)
    : MemStorage * option Candidate :=
  match map_get (candidates s) id with
  | None => (s, None)
  | Some existing =>
      let updated := mergeCandidate existing updates in
      (with_candidates s (map_set (candidates s) id updated), Some updated)
  end.

(** ** Panel methods *)

Definition getPanels (s : MemStorage) : list Panel := map_values (panels s).

Definition getPanel (s : MemStorage) (id : Z) : option Panel :=
  map_get (panels s) id.

Definition createPanel (s : MemStorage) (insertPanel : InsertPanel)
    : MemStorage * Panel :=
  let id := panelCurrentId s in
  let s := with_panelCurrentId s (id + 1) in
  let isActive := nullish (ip_isActive insertPanel) true in
  let currentCandidate := orNull (ip_currentCandidate insertPanel) in
  let panel :=
    mkPanel id (ip_name insertPanel) (ip_roomNo insertPanel) isActive
      currentCandidate (ip_panelMembers insertPanel) in
  (with_panels s (map_set (panels s) id panel), panel).

Definition mergePanel (existing : Panel) (updates : PartialPanel) : Panel :=
  mkPanel
    (nullish (pp_id updates) (p_id existing))
    (nullish (pp_name updates) (p_name existing))
    (nullish (pp_roomNo updates) (p_roomNo existing))
    (nullish (pp_isActive updates) (p_isActive existing))
    (nullish (pp_currentCandidate updates) (p_currentCandidate existing))
    (nullish (pp_panelMembers updates) (p_panelMembers existing)).

Definition updatePanel (s : MemStorage) (id : Z) (updates : PartialPanel)
    : MemStorage * option Panel :=
  match map_get (panels s) id with
  | None => (s, None)
  | Some existing =>
      let updated := mergePanel existing updates in
      (with_panels s (map_set (panels s) id updated), Some updated)
  end.

(** The object literal [{ roomNo: x }]. *)
Definition onlyRoomNo (x : string) : PartialPanel :=
  mkPartialPanel None None (Some x) None None None.

(** ** Feedback methods *)

Definition getFeedback (s : MemStorage) (id : Z) : option Feedback :=
  map_get (feedbacks s) id.

Definition getFeedbackByCandidate (s : MemStorage) (candidateId : Z)
    : list Feedback :=
  filter (fun feedback => Z.eqb (f_candidateId feedback) candidateId)
    (map_values (feedbacks s)).

Definition createFeedback (s : MemStorage) (insertFeedback : InsertFeedback)
    : MemStorage * Feedback :=
  let id := feedbackCurrentId s in
  let s := with_feedbackCurrentId s (id + 1) in
  let nextRound := orNull (if_nextRound insertFeedback) in
  let feedback :=
    mkFeedback id (if_candidateId insertFeedback) (if_panelId insertFeedback)
      (if_round insertFeedback) (if_technicalSkills insertFeedback)
      (if_communication insertFeedback) (if_detailedFeedback insertFeedback)
      (if_decision insertFeedback) nextRound (if_createdAt insertFeedback) in
  (with_feedbacks s (map_set (feedbacks s) id feedback), feedback).

(** ** Room methods *)

Definition getRooms (s : MemStorage) : list Room := map_values (rooms s).

Definition getRoom (s : MemStorage) (id : Z) : option Room :=
  map_get (rooms s) id.

Definition getRoomByNumber (s : MemStorage) (roomNumber : string) : option Room :=
  find (fun room => String.eqb (r_roomNumber room) roomNumber)
    (map_values (rooms s)).

Definition createRoom (s : MemStorage) (insertRoom : InsertRoom)
    : MemStorage * Room :=
  let id := roomCurrentId s in
  let s := with_roomCurrentId s (id + 1) in
  let isOccupied := nullish (ir_isOccupied insertRoom) false in
  let assignedPanels := nullish (orNull (ir_assignedPanels insertRoom)) [] in
  let room :=
    mkRoom id (ir_roomNumber insertRoom) (ir_capacity insertRoom)
      (ir_floor insertRoom) (ir_type insertRoom) isOccupied
      (Some assignedPanels) in
  (with_rooms s (map_set (rooms s) id room), room).

Definition mergeRoom (existing : Room) (updates : PartialRoom) : Room :=
  mkRoom
    (nullish (pr_id updates) (r_id existing))
    (nullish (pr_roomNumber updates) (r_roomNumber existing))
    (nullish (pr_capacity updates) (r_capacity existing))
    (nullish (pr_floor updates) (r_floor existing))
    (nullish (pr_type updates) (r_type existing))
    (nullish (pr_isOccupied updates) (r_isOccupied existing))
    (nullish (pr_assignedPanels updates) (r_assignedPanels existing)).

Definition updateRoom (s : MemStorage) (id : Z) (updates : PartialRoom)
    : MemStorage * option Room :=
  match map_get (rooms s) id with
  | None => (s, None)
  | Some existing =>
      let updated := mergeRoom existing updates in
      (with_rooms s (map_set (rooms s) id updated), Some updated)
  end.

(** [{ ...room, assignedPanels, isOccupied }] *)
Definition withAssignment (room : Room) (assignedPanels : list Z)
    (isOccupied : bool) : Room :=
  mkRoom (r_id room) (r_roomNumber room) (r_capacity room) (r_floor room)
    (r_type room) isOccupied (Some assignedPanels).

Definition assignPanelToRoom (s : MemStorage) (roomId panelId : Z)
    : MemStorage * option Room :=
  match map_get (rooms s) roomId with
  | None => (s, None)
  | Some room =>
      match map_get (panels s) panelId with
      | None => (s, None)
      | Some panel =>
          let currentAssignedPanels := nullish (r_assignedPanels room) [] in
          if includes currentAssignedPanels panelId then (s, Some room)
          else
            let updatedAssignedPanels := currentAssignedPanels ++ [panelId] in
            let updated := withAssignment room updatedAssignedPanels true in
            let s := with_rooms s (map_set (rooms s) roomId updated) in
            let '(s, _) := updatePanel s panelId (onlyRoomNo (r_roomNumber room)) in
            (s, Some updated)
      end
  end.

Definition removePanelFromRoom (s : MemStorage) (roomId panelId : Z)
    : MemStorage * option Room :=
  match map_get (rooms s) roomId with
  | None => (s, None)
  | Some room =>
      let currentAssignedPanels := nullish (r_assignedPanels room) [] in
      if negb (includes currentAssignedPanels panelId) then (s, Some room)
      else
        let updatedAssignedPanels :=
          filter (fun id => negb (Z.eqb id panelId)) currentAssignedPanels in
        let updated :=
          withAssignment room updatedAssignedPanels
            (Nat.ltb 0 (List.length updatedAssignedPanels)) in
        let s := with_rooms s (map_set (rooms s) roomId updated) in
        let s :=
          match map_get (panels s) panelId with
          | Some panel =>
              if String.eqb (p_roomNo panel) (r_roomNumber room)
              then fst (updatePanel s panelId (onlyRoomNo EmptyString))
              else s
          | None => s
          end in
        (s, Some updated)
  end.

(** ** Candidate feedback methods *)


Definition getCandidateFeedback (s : MemStorage) (id : Z)
    : option CandidateFeedback :=
  map_get (candidateFeedbacks s) id.


Definition createCandidateFeedback (now : Z) (s : MemStorage)
    (insertFeedback : InsertCandidateFeedback) : MemStorage * CandidateFeedback :=
  let id := candidateFeedbackCurrentId s in
  let s := with_candidateFeedbackCurrentId s (id + 1) in
  let reasonsRating := orNull (icf_reasonsRating insertFeedback) in
  let improvementSuggestions := orNull (icf_improvementSuggestions insertFeedback) in
  let comparisonToOthers := orNull (icf_comparisonToOthers insertFeedback) in
  let additionalComments := orNull (icf_additionalComments insertFeedback) in
  let submittedAt := now in
  let feedback :=
    mkCandidateFeedback id (icf_candidateId insertFeedback)
      (icf_overallExperience insertFeedback)
      (icf_interviewDifficulty insertFeedback)
      (icf_interviewFairness insertFeedback)
      (icf_interviewerProfessionalism insertFeedback)
      reasonsRating improvementSuggestions comparisonToOthers
      additionalComments submittedAt
      (nullish (icf_anonymous insertFeedback) false) in
  (with_candidateFeedbacks s (map_set (candidateFeedbacks s) id feedback),
   feedback).

(** ** Role permission methods *)

Definition getRolePermissions (s : MemStorage) : list RolePermission :=
  map_values (rolePermissions s).

Definition getRolePermission (s : MemStorage) (id : Z) : option RolePermission :=
  map_get (rolePermissions s) id.

Definition getRolePermissionByRole (s : MemStorage) (role : string)
    : option RolePermission :=
  find (fun rolePermission => String.eqb (rp_role rolePermission) role)
    (map_values (rolePermissions s)).

Definition createRolePermission (now : Z) (s : MemStorage)
    (insertRolePermission : InsertRolePermission) : MemStorage * RolePermission :=
  let id := rolePermissionCurrentId s in
  let s := with_rolePermissionCurrentId s (id + 1) in
  let rolePermission :=
    mkRolePermission id (irp_role insertRolePermission)
      (irp_permissions insertRolePermission)
      (orNull (irp_description insertRolePermission)) now now in
  (with_rolePermissions s (map_set (rolePermissions s) id rolePermission),
   rolePermission).

(** [{ ...existing, ...updates, updatedAt: new Date() }] *)
Definition mergeRolePermission (now : Z) (existing : RolePermission)
    (updates : PartialRolePermission) : RolePermission :=
  mkRolePermission
    (nullish (prp_id updates) (rp_id existing))
    (nullish (prp_role updates) (rp_role existing))
    (nullish (prp_permissions updates) (rp_permissions existing))
    (nullish (prp_description updates) (rp_description existing))
    (nullish (prp_createdAt updates) (rp_createdAt existing))
    now.

Definition updateRolePermission (now : Z) (s : MemStorage) (id : Z)
    (updates : PartialRolePermission) : MemStorage * option RolePermission :=
  match map_get (rolePermissions s) id with
  | None => (s, None)
  | Some existing =>
      let updated := mergeRolePermission now existing updates in
      (with_rolePermissions s (map_set (rolePermissions s) id updated),
       Some updated)
  end.

Definition deleteRolePermission (s : MemStorage) (id : Z) : MemStorage * bool :=
  let '(m, found) := map_delete (rolePermissions s) id in
  (with_rolePermissions s m, found).

(** ** [initializeData] *)

(** [JSON.stringify] of the eleven capability flags, in declaration order. *)
Definition dquote : string := String (ascii_of_nat 34) EmptyString.

Definition flag (name : string) (b : bool) : string :=
  dquote ++ name ++ dquote ++ ":" ++ (if b then "true" else "false").

Definition stringifyPermissions (vc mc vp mp vr mr vf pf va mu mperm : bool)
    : string :=
  "{" ++ flag "viewCandidates" vc ++ "," ++ flag "manageCandidates" mc ++ ","
  ++ flag "viewPanels" vp ++ "," ++ flag "managePanels" mp ++ ","
  ++ flag "viewRooms" vr ++ "," ++ flag "manageRooms" mr ++ ","
  ++ flag "viewFeedback" vf ++ "," ++ flag "provideFeedback" pf ++ ","
  ++ flag "viewAnalytics" va ++ "," ++ flag "manageUsers" mu ++ ","
  ++ flag "managePermissions" mperm ++ "}".

Definition initializeData (now : Z) (s : MemStorage) : MemStorage :=
  let s := fst (createRolePermission now s
    (mkInsertRolePermission "admin"
       (stringifyPermissions true true true true true true true true true true true)
       (Some (Some "Full administrative access")))) in
  let s := fst (createRolePermission now s
    (mkInsertRolePermission "panel"
       (stringifyPermissions true false false false true false false true false false false)
       (Some (Some "Panel member with access to interview candidates")))) in
  let s := fst (createRolePermission now s
    (mkInsertRolePermission "operations_lead"
       (stringifyPermissions true true true true true true true false true false false)
       (Some (Some "Operations lead with access to manage panels and rooms")))) in
  let s := fst (createRolePermission now s
    (mkInsertRolePermission "hr"
       (stringifyPermissions true false true false true false true false true false false)
       (Some (Some "HR personnel with limited access")))) in
  let s := fst (createUser now s
    (mkInsertUser "admin" "admin123" (Some "admin") "Admin User"
       "admin@example.com" (Some (Some [])) (Some true))) in
  let s := fst (createUser now s
    (mkInsertUser "panel1" "panel123" (Some "panel") "Panel User"
       "panel@example.com" (Some (Some [])) (Some true))) in
  let s := fst (createUser now s
    (mkInsertUser "hr1" "hr123" (Some "hr") "HR User"
       "hr@example.com" (Some (Some ["view_all_feedback"])) (Some true))) in
  let s := fst (createUser now s
    (mkInsertUser "ops1" "ops123" (Some "operations_lead") "Operations Lead"
       "ops@example.com" (Some (Some [])) (Some true))) in
  let s := fst (createPanel s
    (mkInsertPanel "Panel 1" "101" (Some true) (Some None) ["Panel User"])) in
  let s := fst (createRoom s
    (mkInsertRoom "101" 5 "1st" "Technical" (Some true) (Some (Some [1])))) in
  let s := fst (createRoom s
    (mkInsertRoom "102" 3 "1st" "HR" (Some false) (Some (Some [])))) in
  let s := fst (createRoom s
    (mkInsertRoom "201" 8 "2nd" "Manager" (Some false) (Some (Some [])))) in
  s.

(** [new MemStorage()] *)
Definition newMemStorage (now : Z) : MemStorage := initializeData now emptyStorage.

(** ** Request handlers ([registerRoutes]) *)

(** What a handler sends: [res.status(code).json(body)], or
    [res.status(code).json({ message })] on the error paths. *)
Inductive Response (A : Type) : Type :=
| Json (status : Z) (body : A)
| Message (status : Z) (message : string).

Arguments Json {A} status body.
Arguments Message {A} status message.

(** *** Request bodies and the insert schemas ([shared/schema.ts])

    [req.body] as a handler finds it.  A number is an integer or
    [JFraction], any other number; no schema here accepts the latter.
    [JDate ms] is a [Date] object holding a valid time. *)
#[local] Set Warnings "-register-all".
Inductive Js : Type :=
| JNull
| JBool (b : bool)
| JInt (n : Z)
| JFraction
| JStr (s : string)
| JDate (ms : Z)
| JArr (items : list Js)
| JObj (props : list (string * Js)).
#[local] Set Warnings "register-all".

(** The bodies that arrive as JSON text: [JSON.parse] builds no [Date]
    object, and [JSON.stringify] writes one as a string. *)
Fixpoint isJSON (v : Js) : bool :=
  match v with
  | JDate _ => false
  | JArr items => forallb isJSON items
  | JObj props => forallb (fun kv => let '(_, x) := kv in isJSON x) props
  | _ => true
  end.

(** [body[key]]: [None] is [undefined], an absent property. *)
Fixpoint js_get (props : list (string * Js)) (key : string) : option Js :=
  match props with
  | [] => None
  | (k, v) :: props' => if String.eqb k key then Some v else js_get props' key
  end.

(** The zod schemas that [createInsertSchema] of drizzle-zod gives the
    columns: [z.string()] for [text], [z.number().int()] within the range
    of a 32-bit integer for [integer], [z.boolean()] for [boolean],
    [z.date()] for [timestamp] and [z.array(z.string())] for
    [text().array()].  Each takes the property as found in the body and
    returns the parsed value, or [None] where zod raises an issue. *)
Definition zString (v : option Js) : option string :=
  match v with Some (JStr s) => Some s | _ => None end.

Definition int32 (n : Z) : bool :=
  (-2147483648 <=? n) && (n <=? 2147483647).

Definition zInteger (v : option Js) : option Z :=
  match v with
  | Some (JInt n) => if int32 n then Some n else None
  | _ => None
  end.

Definition zBoolean (v : option Js) : option bool :=
  match v with Some (JBool b) => Some b | _ => None end.

Definition zDate (v : option Js) : option Z :=
  match v with Some (JDate ms) => Some ms | _ => None end.

Fixpoint strings (items : list Js) : option (list string) :=
  match items with
  | [] => Some []
  | JStr s :: items' => option_map (cons s) (strings items')
  | _ :: _ => None
  end.

Definition zStrings (v : option Js) : option (list string) :=
  match v with Some (JArr items) => strings items | _ => None end.

(** [schema.nullable()], for a column that is not [notNull()]. *)
Definition zNullable {A : Type} (schema : option Js -> option A)
    (v : option Js) : option (option A) :=
  match v with
  | Some JNull => Some None
  | _ => option_map Some (schema v)
  end.

(** [schema.optional()], for a column that is nullable or has a default. *)
Definition zOptional {A : Type} (schema : option Js -> option A)
    (v : option Js) : option (option A) :=
  match v with
  | None => Some None
  | Some _ => option_map Some (schema v)
  end.

(** [schema.parse] stops with a [ZodError] at a property that fails. *)
Notation "x <- e ;; k" :=
  (match e with Some x => k | None => None end)
  (at level 61, e at next level, right associativity, only parsing).

(** [insertFeedbackSchema.parse(req.body)]: [None] for a thrown
    [ZodError].  [createdAt] is [timestamp("created_at").notNull()]
    without a default, so it is required and must be a [Date] object.
    Properties that the schema does not pick are dropped. *)
Definition insertFeedbackSchema_parse (body : Js) : option InsertFeedback :=
  match body with
  | JObj props =>
      candidateId <- zInteger (js_get props "candidateId") ;;
      panelId <- zInteger (js_get props "panelId") ;;
      round <- zString (js_get props "round") ;;
      technicalSkills <- zString (js_get props "technicalSkills") ;;
      communication <- zString (js_get props "communication") ;;
      detailedFeedback <- zString (js_get props "detailedFeedback") ;;
      decision <- zString (js_get props "decision") ;;
      nextRound <- zOptional (zNullable zString) (js_get props "nextRound") ;;
      createdAt <- zDate (js_get props "createdAt") ;;
      Some (mkInsertFeedback candidateId panelId round technicalSkills
              communication detailedFeedback decision nextRound createdAt)
  | _ => None
  end.

(** What a handler sends that first parses the body with a schema: the
    answer of its try block for a body that passed, or
    [res.status(code).json({ message, errors: error.errors })] for a body
    that the schema rejected.  The issue list [error.errors] is zod's and
    is not modelled. *)
Inductive Checked (A : Type) : Type :=
| Accepted (r : Response A)
| Rejected (status : Z) (message : string).

Arguments Accepted {A} r.
Arguments Rejected {A} status message.

(** [insertUserSchema.parse(req.body)]: [role] and [isActive] have a
    default and are optional, [permissions] is nullable with a default. *)
Definition insertUserSchema_parse (body : Js) : option InsertUser :=
  match body with
  | JObj props =>
      username <- zString (js_get props "username") ;;
      password <- zString (js_get props "password") ;;
      role <- zOptional zString (js_get props "role") ;;
      name <- zString (js_get props "name") ;;
      email <- zString (js_get props "email") ;;
      permissions <-
        zOptional (zNullable zStrings) (js_get props "permissions") ;;
      isActive <- zOptional zBoolean (js_get props "isActive") ;;
      Some (mkInsertUser username password role name email permissions
              isActive)
  | _ => None
  end.

(** *** POST /api/feedback *)

(** The object literal
    [{ status, ...(currentRound && { currentRound }), assignedPanel: null }]. *)
Definition feedbackUpdates (status : string) (currentRound : option string)
    : PartialCandidate :=
  mkPartialCandidate None None None None None None (Some status)
    (match currentRound with
     | Some r => if truthy r then Some r else None
     | None => None
     end)
    (Some None) None None.

(** The try block from the parsed [feedbackData] to the update of the
    candidate: the store it leaves and [newFeedback]. *)
Definition recordFeedback (s : MemStorage) (feedbackData : InsertFeedback)
    : MemStorage * Feedback :=
  let '(s, newFeedback) := createFeedback s feedbackData in
  let s :=
    match getCandidate s (if_candidateId feedbackData) with
    | Some candidate =>
        let '(status, currentRound) :=
          if String.eqb (if_decision feedbackData) "next" then
            ("in_queue",
             match if_nextRound feedbackData with
             | Some None => None
             | Some (Some r) => Some r
             | None => None
             end)
          else if String.eqb (if_decision feedbackData) "reject" then
            ("rejected", None)
          else ("in_queue", None) in
        fst (updateCandidate s (c_id candidate)
               (feedbackUpdates status currentRound))
    | None => s
    end in
  (s, newFeedback).

(** The handler.  A body that the schema rejects is answered 400 before
    anything is stored.  The storage methods do not throw, so the last
    answer, 500, is sent only when [broadcastUpdate] or [res.json] throws,
    which is the argument [thrown]; the store is then already written. *)
Definition postFeedback (s : MemStorage) (body : Js) (thrown : bool)
    : MemStorage * Checked Feedback :=
  match insertFeedbackSchema_parse body with
  | None => (s, Rejected 400 "Invalid feedback data")
  | Some feedbackData =>
      let '(s, newFeedback) := recordFeedback s feedbackData in
      if thrown then (s, Accepted (Message 500 "Failed to create feedback"))
      else (s, Accepted (Json 201 newFeedback))
  end.

(** *** Serial numbers and QR-code URLs *)

(** [String.prototype.padStart(targetLength, "0")] *)
Fixpoint zeros (n : nat) : string :=
  match n with O => EmptyString | S n' => String "0" (zeros n') end.

Definition padStart (targetLength : nat) (s : string) : string :=
  (zeros (targetLength - String.length s)%nat ++ s)%string.

(** [Number.prototype.toString()] on a non-negative integer. *)
Definition toString (n : nat) : string :=
  NilEmpty.string_of_uint (Nat.to_uint n).

Definition serialNoFor (count : nat) : string :=
  ("WD-" ++ padStart 3 (toString (count + 1)%nat))%string.

Definition qrCodeUrlFor (serialNo : string) : string :=
  ("https://api.qrserver.com/v1/create-qr-code/?data=" ++ serialNo
   ++ "&size=150x150")%string.

(** *** POST /api/google-sheets/webhook *)

Record WebhookBody : Type := mkWebhookBody {
  wb_name : string;
  wb_email : string;
  wb_position : string;
  wb_timestamp : Z
}.

Definition registeredCandidate (serialNo name email position : string)
    (timestamp : Z) (status currentRound : string) (qrCodeUrl : string)
    : InsertCandidate :=
  mkInsertCandidate serialNo name email position timestamp (Some status)
    (Some currentRound) (Some None) (Some None) (Some (Some qrCodeUrl)).

Definition postWebhook (s : MemStorage) (body : WebhookBody)
    : MemStorage * Response Candidate :=
  let candidates := getCandidates s in
  let serialNo := serialNoFor (List.length candidates) in
  let qrCodeUrl := qrCodeUrlFor serialNo in
  let '(s, newCandidate) :=
    createCandidate s
      (registeredCandidate serialNo (wb_name body) (wb_email body)
         (wb_position body) (wb_timestamp body) "registered" "gd" qrCodeUrl) in
  (s, Json 201 newCandidate).

(** *** POST /api/candidates/manual *)

Record ManualBody : Type := mkManualBody {
  mb_name : option string;
  mb_email : option string;
  mb_position : option string
}.

(** [!x] on an optional string of the request body. *)
Definition missing (o : option string) : bool :=
  match o with Some x => negb (truthy x) | None => true end.

Definition postManual (now : Z) (s : MemStorage) (body : ManualBody)
    : MemStorage * Response Candidate :=
  if missing (mb_name body) || missing (mb_email body)
     || missing (mb_position body)
  then (s, Message 400 "Name, email, and position are required")
  else
    let name := nullish (mb_name body) EmptyString in
    let email := nullish (mb_email body) EmptyString in
    let position := nullish (mb_position body) EmptyString in
    let candidates := getCandidates s in
    let serialNo := serialNoFor (List.length candidates) in
    let qrCodeUrl := qrCodeUrlFor serialNo in
    let '(s, newCandidate) :=
      createCandidate s
        (registeredCandidate serialNo name email position now
           "registered" "gd" qrCodeUrl) in
    (s, Json 201 newCandidate).

(** *** POST /api/google-sheets/control *)

Record SyncCandidate : Type := mkSyncCandidate {
  sc_name : string;
  sc_email : string;
  sc_position : string;
  sc_timestamp : option Z;
  sc_status : option string;
  sc_currentRound : option string
}.

Record ControlBody : Type := mkControlBody {
  cb_action : string;
  (** [None] when [candidates] is not an array *)
  cb_candidates : option (list SyncCandidate)
}.

Definition ifTruthy (o : option string) : option string :=
  match o with
  | Some x => if truthy x then Some x else None
  | None => None
  end.

Definition syncOne (now : Z) (s : MemStorage) (candidateData : SyncCandidate)
    : MemStorage :=
  match getCandidateByEmail s (sc_email candidateData) with
  | Some existingCandidate =>
      fst (updateCandidate s (c_id existingCandidate)
             (mkPartialCandidate None None (Some (sc_name candidateData)) None
                (Some (sc_position candidateData)) None
                (ifTruthy (sc_status candidateData))
                (ifTruthy (sc_currentRound candidateData)) None None None))
  | None =>
      let allCandidates := getCandidates s in
      let serialNo := serialNoFor (List.length allCandidates) in
      let qrCodeUrl := qrCodeUrlFor serialNo in
      let timestamp :=
        match sc_timestamp candidateData with
        | Some t => if Z.eqb t 0 then now else t
        | None => now
        end in
      fst (createCandidate s
             (registeredCandidate serialNo (sc_name candidateData)
                (sc_email candidateData) (sc_position candidateData) timestamp
                (strOr (sc_status candidateData) "registered")
                (strOr (sc_currentRound candidateData) "gd") qrCodeUrl))
  end.

(** The body of the answer is its [success] flag. *)
Definition postControl (now : Z) (s : MemStorage) (body : ControlBody)
    : MemStorage * Response bool :=
  if String.eqb (cb_action body) "sync" then
    match cb_candidates body with
    | Some candidates =>
        (fold_left (syncOne now) candidates s, Json 200 true)
    | None => (s, Json 400 false)
    end
  else if String.eqb (cb_action body) "init" then (s, Json 200 true)
  else (s, Json 400 false).

(** *** Candidates, panels, rooms, candidate feedback *)

Definition postCandidate (s : MemStorage) (candidateData : InsertCandidate)
    : MemStorage * Response Candidate :=
  let '(s, newCandidate) := createCandidate s candidateData in
  (s, Json 201 newCandidate).

Definition patchCandidate (s : MemStorage) (id : Z)
    (candidateUpdates : PartialCandidate) : MemStorage * Response Candidate :=
  match updateCandidate s id candidateUpdates with
  | (s, None) => (s, Message 404 "Candidate not found")
  | (s, Some updatedCandidate) => (s, Json 200 updatedCandidate)
  end.

Definition postPanel (s : MemStorage) (panelData : InsertPanel)
    : MemStorage * Response Panel :=
  let '(s, newPanel) := createPanel s panelData in
  (s, Json 201 newPanel).

Definition patchPanel (s : MemStorage) (id : Z) (panelUpdates : PartialPanel)
    : MemStorage * Response Panel :=
  match updatePanel s id panelUpdates with
  | (s, None) => (s, Message 404 "Panel not found")
  | (s, Some updatedPanel) => (s, Json 200 updatedPanel)
  end.

Definition postRoom (s : MemStorage) (roomData : InsertRoom)
    : MemStorage * Response Room :=
  let '(s, newRoom) := createRoom s roomData in
  (s, Json 201 newRoom).

Definition patchRoom (s : MemStorage) (id : Z) (roomUpdates : PartialRoom)
    : MemStorage * Response Room :=
  match updateRoom s id roomUpdates with
  | (s, None) => (s, Message 404 "Room not found")
  | (s, Some updatedRoom) => (s, Json 200 updatedRoom)
  end.

Definition postCandidateFeedback (now : Z) (s : MemStorage)
    (feedbackData : InsertCandidateFeedback)
    : MemStorage * Response CandidateFeedback :=
  let '(s, newFeedback) := createCandidateFeedback now s feedbackData in
  (s, Json 201 newFeedback).

(** *** POST /api/rooms/:roomId/assign-panel/:panelId *)

(** [room.assignedPanels && room.assignedPanels.includes(panelId)
     && room.id !== roomId] *)
Definition assignedElsewhere (roomId panelId : Z) (room : Room) : bool :=
  match r_assignedPanels room with
  | Some l => includes l panelId && negb (Z.eqb (r_id room) roomId)
  | None => false
  end.

(** The loop [for (const room of panelAssignedRooms)]. *)
Definition detachFrom (panelId : Z) (s : MemStorage) (room : Room) : MemStorage :=
  fst (removePanelFromRoom s (r_id room) panelId).

Definition postAssignPanel (s : MemStorage) (roomId panelId : Z)
    : MemStorage * Response Room :=
  let rooms := getRooms s in
  let panelAssignedRooms := filter (assignedElsewhere roomId panelId) rooms in
  let s := fold_left (detachFrom panelId) panelAssignedRooms s in
  let s :=
    match getPanel s panelId with
    | Some panel =>
        match getRoom s roomId with
        | Some room => fst (updatePanel s panelId (onlyRoomNo (r_roomNumber room)))
        | None => s
        end
    | None => s
    end in
  match assignPanelToRoom s roomId panelId with
  | (s, None) => (s, Message 404 "Room or panel not found")
  | (s, Some updatedRoom) => (s, Json 200 updatedRoom)
  end.

(** *** POST /api/rooms/:roomId/remove-panel/:panelId *)

Definition postRemovePanel (s : MemStorage) (roomId panelId : Z)
    : MemStorage * Response Room :=
  let s :=
    match getPanel s panelId with
    | Some panel => fst (updatePanel s panelId (onlyRoomNo EmptyString))
    | None => s
    end in
  match removePanelFromRoom s roomId panelId with
  | (s, None) => (s, Message 404 "Room or panel not found")
  | (s, Some updatedRoom) => (s, Json 200 updatedRoom)
  end.

(** *** Role permissions *)

Definition postRolePermission (now : Z) (s : MemStorage)
    (rolePermissionData : InsertRolePermission)
    : MemStorage * Response RolePermission :=
  let '(s, newRolePermission) := createRolePermission now s rolePermissionData in
  (s, Json 201 newRolePermission).

Definition patchRolePermission (now : Z) (s : MemStorage) (id : Z)
    (rolePermissionUpdates : PartialRolePermission)
    : MemStorage * Response RolePermission :=
  match updateRolePermission now s id rolePermissionUpdates with
  | (s, None) => (s, Message 404 "Role permission not found")
  | (s, Some updated) => (s, Json 200 updated)
  end.

Definition deleteRolePermissionRoute (s : MemStorage) (id : Z)
    : MemStorage * Response bool :=
  match deleteRolePermission s id with
  | (s, false) => (s, Message 404 "Role permission not found")
  | (s, true) => (s, Json 200 true)
  end.

(** *** Users and login: what is serialised *)

(** The values that the properties of an entity hold; [VIssues] is the
    issue list [error.errors] of a [ZodError], which is zod's and is not
    modelled. *)
Inductive Value : Type :=
| VNull
| VBool (b : bool)
| VNum (z : Z)
| VStr (s : string)
| VDate (ms : Z)
| VStrs (l : list string)
| VNums (l : list Z)
| VIssues.

(** A property of type [T | null]. *)
Definition nullable {A : Type} (f : A -> Value) (o : option A) : Value :=
  match o with Some a => f a | None => VNull end.

(** [key in updates] *)
Definition present {A : Type} (o : option A) : bool :=
  match o with Some _ => true | None => false end.

(** An object as its own enumerable properties. *)
Definition JsObject : Type := list (string * Value).

Fixpoint obj_get (o : JsObject) (key : string) : option Value :=
  match o with
  | [] => None
  | (k, v) :: o' => if String.eqb k key then Some v else obj_get o' key
  end.

(** The rest pattern [const { key, ...rest } = o]. *)
Definition omit (key : string) (o : JsObject) : JsObject :=
  filter (fun kv => negb (String.eqb (fst kv) key)) o.

(** The properties of a stored [User], listed as [createUser]'s literal
    [{ ...insertUser, id, role, permissions, isActive, createdAt }] has
    them for a request that carries every property of the schema.  For a
    request that leaves out [role], [permissions] or [isActive] the
    property comes after [id] instead: the order is not a function of the
    stored user, and the object is only ever read by key. *)
Definition userObject (user : User) : JsObject :=
  [ ("username", VStr (u_username user));
    ("password", VStr (u_password user));
    ("role", VStr (u_role user));
    ("name", VStr (u_name user));
    ("email", VStr (u_email user));
    ("permissions", nullable VStrs (u_permissions user));
    ("isActive", VBool (u_isActive user));
    ("id", VNum (u_id user));
    ("createdAt", VDate (u_createdAt user)) ].

(** [const { password, ...safeUser } = user] *)
Definition safeUser (user : User) : JsObject := omit "password" (userObject user).

Definition messageObject (message : string) : JsObject :=
  [ ("message", VStr message) ].

(** A user handler answers with a status and a JSON payload: one object
    or an array of objects. *)
Inductive Payload : Type :=
| PObject (o : JsObject)
| PArray (l : list JsObject).

Record LoginBody : Type := mkLoginBody {
  lb_username : option string;
  lb_password : option string
}.

Definition postLogin (s : MemStorage) (body : LoginBody) : Z * Payload :=
  if missing (lb_username body) || missing (lb_password body)
  then (400, PObject (messageObject "Username and password are required"))
  else
    let username := nullish (lb_username body) EmptyString in
    let password := nullish (lb_password body) EmptyString in
    match getUserByUsername s username with
    | Some user =>
        if negb (String.eqb (u_password user) password)
        then (401, PObject (messageObject "Invalid credentials"))
        else
          (200, PObject
             [ ("id", VNum (u_id user));
               ("username", VStr (u_username user));
               ("name", VStr (u_name user));
               ("email", VStr (u_email user));
               ("role", VStr (u_role user)) ])
    | None => (401, PObject (messageObject "Invalid credentials"))
    end.

Definition getUsersRoute (s : MemStorage) : Z * Payload :=
  let users := getUsers s in
  let safeUsers := map safeUser users in
  (200, PArray safeUsers).

Definition getUserRoute (s : MemStorage) (id : Z) : Z * Payload :=
  match getUser s id with
  | None => (404, PObject (messageObject "User not found"))
  | Some user => (200, PObject (safeUser user))
  end.

(** [POST /api/users] from the parsed [userData] to the 201 answer. *)
Definition postUser (now : Z) (s : MemStorage) (userData : InsertUser)
    : MemStorage * (Z * Payload) :=
  let '(s, newUser) := createUser now s userData in
  (s, (201, PObject (safeUser newUser))).

(** [POST /api/users] from the request body: [postUser] after
    [insertUserSchema.parse], 400 with the issue list when the schema
    rejects the body, and 500 when [broadcastUpdate] or [res.json] throws
    ([thrown]), which is after the user is stored. *)
Definition postUserRoute (now : Z) (s : MemStorage) (body : Js)
    (thrown : bool) : MemStorage * (Z * Payload) :=
  match insertUserSchema_parse body with
  | None =>
      (s, (400, PObject [ ("message", VStr "Invalid user data");
                          ("errors", VIssues) ]))
  | Some userData =>
      let '(s, answer) := postUser now s userData in
      if thrown then (s, (500, PObject (messageObject "Failed to create user")))
      else (s, answer)
  end.

Definition patchUser (s : MemStorage) (id : Z) (userUpdates : PartialUser)
    : MemStorage * (Z * Payload) :=
  match updateUser s id userUpdates with
  | (s, None) => (s, (404, PObject (messageObject "User not found")))
  | (s, Some updatedUser) => (s, (200, PObject (safeUser updatedUser)))
  end.

Definition deleteUserRoute (s : MemStorage) (id : Z)
    : MemStorage * (Z * Payload) :=
  match deleteUser s id with
  | (s, false) => (s, (404, PObject (messageObject "User not found")))
  | (s, true) => (s, (200, PObject [ ("success", VBool true) ]))
  end.

(** ** The server as a transition system *)

(** The requests that write to the store. *)
Inductive Request : Type :=
| ReqPostCandidate (d : InsertCandidate)
| ReqPatchCandidate (id : Z) (p : PartialCandidate)
| ReqPostPanel (d : InsertPanel)
| ReqPatchPanel (id : Z) (p : PartialPanel)
| ReqPostFeedback (body : Js) (thrown : bool)
| ReqPostWebhook (b : WebhookBody)
| ReqPostControl (b : ControlBody)
| ReqPostManual (b : ManualBody)
| ReqPostRoom (d : InsertRoom)
| ReqPatchRoom (id : Z) (p : PartialRoom)
| ReqAssignPanel (roomId panelId : Z)
| ReqRemovePanel (roomId panelId : Z)
| ReqPostCandidateFeedback (d : InsertCandidateFeedback)
| ReqPostUser (d : InsertUser)
| ReqPatchUser (id : Z) (p : PartialUser)
| ReqDeleteUser (id : Z)
| ReqPostRolePermission (d : InsertRolePermission)
| ReqPatchRolePermission (id : Z) (p : PartialRolePermission)
| ReqDeleteRolePermission (id : Z).

(** The store after a request served at time [now]. *)
Definition handle (now : Z) (req : Request) (s : MemStorage) : MemStorage :=
  match req with
  | ReqPostCandidate d => fst (postCandidate s d)
  | ReqPatchCandidate id p => fst (patchCandidate s id p)
  | ReqPostPanel d => fst (postPanel s d)
  | ReqPatchPanel id p => fst (patchPanel s id p)
  | ReqPostFeedback body thrown => fst (postFeedback s body thrown)
  | ReqPostWebhook b => fst (postWebhook s b)
  | ReqPostControl b => fst (postControl now s b)
  | ReqPostManual b => fst (postManual now s b)
  | ReqPostRoom d => fst (postRoom s d)
  | ReqPatchRoom id p => fst (patchRoom s id p)
  | ReqAssignPanel roomId panelId => fst (postAssignPanel s roomId panelId)
  | ReqRemovePanel roomId panelId => fst (postRemovePanel s roomId panelId)
  | ReqPostCandidateFeedback d => fst (postCandidateFeedback now s d)
  | ReqPostUser d => fst (postUser now s d)
  | ReqPatchUser id p => fst (patchUser s id p)
  | ReqDeleteUser id => fst (deleteUserRoute s id)
  | ReqPostRolePermission d => fst (postRolePermission now s d)
  | ReqPatchRolePermission id p => fst (patchRolePermission now s id p)
  | ReqDeleteRolePermission id => fst (deleteRolePermissionRoute s id)
  end.

(** Requests served one after the other, each at its own time. *)
Fixpoint serve (reqs : list (Z * Request)) (s : MemStorage) : MemStorage :=
  match reqs with
  | [] => s
  | (now, req) :: rest => serve rest (handle now req s)
  end.

(** ** Queue position ([EmailQueuePage], client side) *)

(** [Array.prototype.sort(compare)]: a stable sort (ECMAScript 2019), here
    by insertion; [compare a b <= 0] keeps [a] before [b]. *)
Section Sort.
Context {A : Type} (compare : A -> A -> Z).

Fixpoint insertSorted (x : A) (l : list A) : list A :=
  match l with
  | [] => [x]
  | y :: l' =>
      if Z.leb (compare x y) 0 then x :: y :: l' else y :: insertSorted x l'
  end.

Fixpoint sort (l : list A) : list A :=
  match l with
  | [] => []
  | x :: l' => insertSorted x (sort l')
  end.
End Sort.

(** [Array.prototype.findIndex] *)
Fixpoint findIndex {A : Type} (f : A -> bool) (l : list A) : Z :=
  match l with
  | [] => -1
  | x :: l' =>
      if f x then 0
      else let i := findIndex f l' in if Z.eqb i (-1) then -1 else i + 1
  end.

(** [Array.prototype.filter((_, index) => ...)], the index starting at [i]. *)
Fixpoint filterIndexFrom {A : Type} (f : Z -> bool) (i : Z) (l : list A)
    : list A :=
  match l with
  | [] => []
  | x :: l' =>
      if f i then x :: filterIndexFrom f (i + 1) l'
      else filterIndexFrom f (i + 1) l'
  end.

Definition filterIndex {A : Type} (f : Z -> bool) (l : list A) : list A :=
  filterIndexFrom f 0 l.

(** [c.currentRound === candidate.currentRound
     && ["registered", "in_queue"].includes(c.status)] *)
Definition sameRoundWaiting (candidate c : Candidate) : bool :=
  String.eqb (c_currentRound c) (c_currentRound candidate)
  && existsb (String.eqb (c_status c)) ["registered"; "in_queue"].

(** [new Date(a.timestamp).getTime() - new Date(b.timestamp).getTime()] *)
Definition byTimestamp (a b : Candidate) : Z := c_timestamp a - c_timestamp b.

(** The component state [queuePosition], [candidatesAhead]. *)
Record QueueState : Type := mkQueueState {
  queuePosition : Z;
  candidatesAhead : list Candidate
}.

(** [useState(0)], [useState([])] *)
Definition initialQueueState : QueueState := mkQueueState 0 [].

(** The effect that computes the position; [candidate] is [None] while the
    query has no data. *)
Definition queueEffect (candidate : option Candidate)
    (allCandidates : list Candidate) (st : QueueState) : QueueState :=
  match candidate with
  | Some candidate =>
      if Nat.ltb 0 (List.length allCandidates) then
        let sameRoundCandidates :=
          filter (sameRoundWaiting candidate) allCandidates in
        let sortedCandidates := sort byTimestamp sameRoundCandidates in
        let position :=
          findIndex (fun c => String.eqb (c_email c) (c_email candidate))
            sortedCandidates in
        let ahead := filterIndex (fun index => Z.ltb index position)
                       sortedCandidates in
        mkQueueState (if negb (Z.eqb position (-1)) then position + 1 else 0)
          ahead
      else st
  | None => st
  end.

(** The candidates counted by the specification's formula: same round,
    waiting, registered strictly earlier. *)
Definition strictlyEarlier (candidate c : Candidate) : bool :=
  sameRoundWaiting candidate c && Z.ltb (c_timestamp c) (c_timestamp candidate).

(** Same round, waiting, registered at the same instant. *)
Definition sameInstant (candidate c : Candidate) : bool :=
  sameRoundWaiting candidate c && Z.eqb (c_timestamp c) (c_timestamp candidate).

(** ** Identifier counters *)

Inductive Kind : Type :=
| KUser | KCandidate | KPanel | KFeedback | KRoom | KCandidateFeedback
| KRolePermission.

Definition Kind_eqb (a b : Kind) : bool :=
  match a, b with
  | KUser, KUser | KCandidate, KCandidate | KPanel, KPanel
  | KFeedback, KFeedback | KRoom, KRoom
  | KCandidateFeedback, KCandidateFeedback
  | KRolePermission, KRolePermission => true
  | _, _ => false
  end.

Definition currentId (k : Kind) (s : MemStorage) : Z :=
  match k with
  | KUser => userCurrentId s
  | KCandidate => candidateCurrentId s
  | KPanel => panelCurrentId s
  | KFeedback => feedbackCurrentId s
  | KRoom => roomCurrentId s
  | KCandidateFeedback => candidateFeedbackCurrentId s
  | KRolePermission => rolePermissionCurrentId s
  end.

(** A call of a mutating method of [IStorage]. *)
Inductive StorageCall : Type :=
| CallCreateUser (now : Z) (d : InsertUser)
| CallUpdateUser (id : Z) (p : PartialUser)
| CallDeleteUser (id : Z)
| CallCreateCandidate (d : InsertCandidate)
| CallUpdateCandidate (id : Z) (p : PartialCandidate)
| CallCreatePanel (d : InsertPanel)
| CallUpdatePanel (id : Z) (p : PartialPanel)
| CallCreateFeedback (d : InsertFeedback)
| CallCreateRoom (d : InsertRoom)
| CallUpdateRoom (id : Z) (p : PartialRoom)
| CallAssignPanelToRoom (roomId panelId : Z)
| CallRemovePanelFromRoom (roomId panelId : Z)
| CallCreateCandidateFeedback (now : Z) (d : InsertCandidateFeedback)
| CallCreateRolePermission (now : Z) (d : InsertRolePermission)
| CallUpdateRolePermission (now : Z) (id : Z) (p : PartialRolePermission)
| CallDeleteRolePermission (id : Z).

(** The store after the call, and for a [create] the kind and the
    identifier of the entity it returned. *)
Definition call (c : StorageCall) (s : MemStorage)
    : MemStorage * option (Kind * Z) :=
  match c with
  | CallCreateUser now d =>
      let '(s, e) := createUser now s d in (s, Some (KUser, u_id e))
  | CallUpdateUser id p => (fst (updateUser s id p), None)
  | CallDeleteUser id => (fst (deleteUser s id), None)
  | CallCreateCandidate d =>
      let '(s, e) := createCandidate s d in (s, Some (KCandidate, c_id e))
  | CallUpdateCandidate id p => (fst (updateCandidate s id p), None)
  | CallCreatePanel d =>
      let '(s, e) := createPanel s d in (s, Some (KPanel, p_id e))
  | CallUpdatePanel id p => (fst (updatePanel s id p), None)
  | CallCreateFeedback d =>
      let '(s, e) := createFeedback s d in (s, Some (KFeedback, f_id e))
  | CallCreateRoom d =>
      let '(s, e) := createRoom s d in (s, Some (KRoom, r_id e))
  | CallUpdateRoom id p => (fst (updateRoom s id p), None)
  | CallAssignPanelToRoom roomId panelId =>
      (fst (assignPanelToRoom s roomId panelId), None)
  | CallRemovePanelFromRoom roomId panelId =>
      (fst (removePanelFromRoom s roomId panelId), None)
  | CallCreateCandidateFeedback now d =>
      let '(s, e) := createCandidateFeedback now s d in
      (s, Some (KCandidateFeedback, cf_id e))
  | CallCreateRolePermission now d =>
      let '(s, e) := createRolePermission now s d in
      (s, Some (KRolePermission, rp_id e))
  | CallUpdateRolePermission now id p =>
      (fst (updateRolePermission now s id p), None)
  | CallDeleteRolePermission id => (fst (deleteRolePermission s id), None)
  end.

(** The identifiers that the [create] calls of kind [k] return, in call
    order, along a sequence of calls. *)
Fixpoint createdIds (k : Kind) (calls : list StorageCall) (s : MemStorage)
    : list Z :=
  match calls with
  | [] => []
  | c :: rest =>
      let '(s', r) := call c s in
      match r with
      | Some (k', id) =>
          if Kind_eqb k' k then id :: createdIds k rest s'
          else createdIds k rest s'
      | None => createdIds k rest s'
      end
  end.

(** ** Properties of the entities that [update] merges *)

Inductive UserField : Type :=
| UId | UUsername | UPassword | URole | UName | UEmail | UPermissions
| UIsActive | UCreatedAt.

Definition userField (f : UserField) (e : User) : Value :=
  match f with
  | UId => VNum (u_id e)
  | UUsername => VStr (u_username e)
  | UPassword => VStr (u_password e)
  | URole => VStr (u_role e)
  | UName => VStr (u_name e)
  | UEmail => VStr (u_email e)
  | UPermissions => nullable VStrs (u_permissions e)
  | UIsActive => VBool (u_isActive e)
  | UCreatedAt => VDate (u_createdAt e)
  end.

Definition userUpdates (f : UserField) (p : PartialUser) : bool :=
  match f with
  | UId => present (pu_id p)
  | UUsername => present (pu_username p)
  | UPassword => present (pu_password p)
  | URole => present (pu_role p)
  | UName => present (pu_name p)
  | UEmail => present (pu_email p)
  | UPermissions => present (pu_permissions p)
  | UIsActive => present (pu_isActive p)
  | UCreatedAt => present (pu_createdAt p)
  end.

Inductive CandidateField : Type :=
| CId | CSerialNo | CName | CEmail | CPosition | CTimestamp | CStatus
| CCurrentRound | CAssignedPanel | CRoomNo | CQrCodeUrl.

Definition candidateField (f : CandidateField) (e : Candidate) : Value :=
  match f with
  | CId => VNum (c_id e)
  | CSerialNo => VStr (c_serialNo e)
  | CName => VStr (c_name e)
  | CEmail => VStr (c_email e)
  | CPosition => VStr (c_position e)
  | CTimestamp => VDate (c_timestamp e)
  | CStatus => VStr (c_status e)
  | CCurrentRound => VStr (c_currentRound e)
  | CAssignedPanel => nullable VNum (c_assignedPanel e)
  | CRoomNo => nullable VStr (c_roomNo e)
  | CQrCodeUrl => nullable VStr (c_qrCodeUrl e)
  end.

Definition candidateUpdates (f : CandidateField) (p : PartialCandidate) : bool :=
  match f with
  | CId => present (pc_id p)
  | CSerialNo => present (pc_serialNo p)
  | CName => present (pc_name p)
  | CEmail => present (pc_email p)
  | CPosition => present (pc_position p)
  | CTimestamp => present (pc_timestamp p)
  | CStatus => present (pc_status p)
  | CCurrentRound => present (pc_currentRound p)
  | CAssignedPanel => present (pc_assignedPanel p)
  | CRoomNo => present (pc_roomNo p)
  | CQrCodeUrl => present (pc_qrCodeUrl p)
  end.

Inductive PanelField : Type :=
| PId | PName | PRoomNo | PIsActive | PCurrentCandidate | PPanelMembers.

Definition panelField (f : PanelField) (e : Panel) : Value :=
  match f with
  | PId => VNum (p_id e)
  | PName => VStr (p_name e)
  | PRoomNo => VStr (p_roomNo e)
  | PIsActive => VBool (p_isActive e)
  | PCurrentCandidate => nullable VNum (p_currentCandidate e)
  | PPanelMembers => VStrs (p_panelMembers e)
  end.

Definition panelUpdates (f : PanelField) (p : PartialPanel) : bool :=
  match f with
  | PId => present (pp_id p)
  | PName => present (pp_name p)
  | PRoomNo => present (pp_roomNo p)
  | PIsActive => present (pp_isActive p)
  | PCurrentCandidate => present (pp_currentCandidate p)
  | PPanelMembers => present (pp_panelMembers p)
  end.

Inductive RoomField : Type :=
| RId | RRoomNumber | RCapacity | RFloor | RType | RIsOccupied
| RAssignedPanels.

Definition roomField (f : RoomField) (e : Room) : Value :=
  match f with
  | RId => VNum (r_id e)
  | RRoomNumber => VStr (r_roomNumber e)
  | RCapacity => VNum (r_capacity e)
  | RFloor => VStr (r_floor e)
  | RType => VStr (r_type e)
  | RIsOccupied => VBool (r_isOccupied e)
  | RAssignedPanels => nullable VNums (r_assignedPanels e)
  end.

Definition roomUpdates (f : RoomField) (p : PartialRoom) : bool :=
  match f with
  | RId => present (pr_id p)
  | RRoomNumber => present (pr_roomNumber p)
  | RCapacity => present (pr_capacity p)
  | RFloor => present (pr_floor p)
  | RType => present (pr_type p)
  | RIsOccupied => present (pr_isOccupied p)
  | RAssignedPanels => present (pr_assignedPanels p)
  end.

Inductive RolePermissionField : Type :=
| RPId | RPRole | RPPermissions | RPDescription | RPCreatedAt | RPUpdatedAt.

Definition rolePermissionField (f : RolePermissionField) (e : RolePermission)
    : Value :=
  match f with
  | RPId => VNum (rp_id e)
  | RPRole => VStr (rp_role e)
  | RPPermissions => VStr (rp_permissions e)
  | RPDescription => nullable VStr (rp_description e)
  | RPCreatedAt => VDate (rp_createdAt e)
  | RPUpdatedAt => VDate (rp_updatedAt e)
  end.

Definition rolePermissionUpdates (f : RolePermissionField)
    (p : PartialRolePermission) : bool :=
  match f with
  | RPId => present (prp_id p)
  | RPRole => present (prp_role p)
  | RPPermissions => present (prp_permissions p)
  | RPDescription => present (prp_description p)
  | RPCreatedAt => present (prp_createdAt p)
  | RPUpdatedAt => present (prp_updatedAt p)
  end.

(** The empty update [{}]. *)
Definition noRolePermissionUpdates : PartialRolePermission :=
  mkPartialRolePermission None None None None None None.

(** ** Room bookkeeping *)

(** [room.assignedPanels || []] *)
Definition panelsOf (room : Room) : list Z := nullish (r_assignedPanels room) [].

(** occupied == (assigned panel list non-empty) *)
Definition occupancyConsistent (room : Room) : Prop :=
  r_isOccupied room = Nat.ltb 0 (List.length (panelsOf room)).

(** The room map holds each key once and each room under its own id. *)
Definition roomsWellFormed (s : MemStorage) : Prop :=
  NoDup (map_keys (rooms s))
  /\ forall id room, getRoom s id = Some room -> r_id room = id.

(** A panel identifier is listed by at most one room. *)
Definition panelsExclusive (s : MemStorage) : Prop :=
  forall id1 id2 room1 room2 panelId,
    getRoom s id1 = Some room1 -> getRoom s id2 = Some room2 ->
    In panelId (panelsOf room1) -> In panelId (panelsOf room2) -> id1 = id2.

Definition roomInvariant (s : MemStorage) : Prop :=
  roomsWellFormed s
  /\ (forall id room, getRoom s id = Some room -> occupancyConsistent room)
  /\ panelsExclusive s.

(** What [removePanelFromRoom] makes of a room. *)
Definition detached (panelId : Z) (room : Room) : Room :=
  if includes (panelsOf room) panelId then
    let updatedAssignedPanels :=
      filter (fun id => negb (Z.eqb id panelId)) (panelsOf room) in
    withAssignment room updatedAssignedPanels
      (Nat.ltb 0 (List.length updatedAssignedPanels))
  else room.

(** The requests whose handlers write to the room map. *)
Definition writesRooms (req : Request) : bool :=
  match req with
  | ReqPostRoom _ | ReqPatchRoom _ _ | ReqAssignPanel _ _ | ReqRemovePanel _ _ =>
      true
  | _ => false
  end.

(** Whether the detach loop of the assign handler visits room [id]. *)
Definition visits (l : list Room) (id : Z) : bool :=
  existsb (fun room => Z.eqb (r_id room) id) l.

(** The rooms that the assign handler detaches the panel from. *)
Definition panelAssignedRooms (s : MemStorage) (roomId panelId : Z) : list Room :=
  filter (assignedElsewhere roomId panelId) (getRooms s).

(** What [assignPanelToRoom] makes of the target room. *)
Definition attached (panelId : Z) (room : Room) : Room :=
  if includes (panelsOf room) panelId then room
  else withAssignment room (panelsOf room ++ [panelId]) true.

(** The requests that leave the bookkeeping fields of rooms to the
    assignment handlers: a room is created empty and unoccupied, and a
    room update names neither [id], [isOccupied] nor [assignedPanels]. *)
Definition keepsBookkeeping (req : Request) : bool :=
  match req with
  | ReqPostRoom d =>
      negb (nullish (ir_isOccupied d) false)
      && match nullish (orNull (ir_assignedPanels d)) [] with
         | [] => true
         | _ :: _ => false
         end
  | ReqPatchRoom _ p =>
      negb (present (pr_id p)) && negb (present (pr_isOccupied p))
      && negb (present (pr_assignedPanels p))
  | _ => true
  end.

(** ** Registrations *)

(** The serial numbers handed out by the webhook and by manual creation
    along a sequence of requests, in order. *)
Definition registeredSerial (now : Z) (req : Request) (s : MemStorage)
    : list string :=
  match req with
  | ReqPostWebhook b =>
      match snd (postWebhook s b) with
      | Json _ c => [c_serialNo c]
      | Message _ _ => []
      end
  | ReqPostManual b =>
      match snd (postManual now s b) with
      | Json _ c => [c_serialNo c]
      | Message _ _ => []
      end
  | _ => []
  end.

Fixpoint registeredSerials (reqs : list (Z * Request)) (s : MemStorage)
    : list string :=
  match reqs with
  | [] => []
  | (now, req) :: rest =>
      registeredSerial now req s ++ registeredSerials rest (handle now req s)
  end.

(** Every stored candidate key is below the candidate counter. *)
Definition candidateIdsFresh (s : MemStorage) : Prop :=
  forall id, In id (map_keys (candidates s)) -> id < candidateCurrentId s.

(** The candidate map and its counter are the same in both stores. *)
Definition sameCandidates (s s' : MemStorage) : Prop :=
  candidates s' = candidates s /\ candidateCurrentId s' = candidateCurrentId s.

(** Reads a decimal numeral, leading zeros allowed. *)
Definition parseDecimal (digits : string) : option nat :=
  option_map Nat.of_uint (NilEmpty.uint_of_string digits).

(** The digits of a serial number, after the three characters "WD-". *)
Definition serialDigits (serialNo : string) : string :=
  match serialNo with
  | String _ (String _ (String _ digits)) => digits
  | _ => EmptyString
  end.

(** What a registration gives a candidate when the store holds [count]
    candidates: the serial number "WD-" followed by [count + 1] padded
    with zeros to three digits or more, the QR-code URL built around that
    serial number, status "registered" and round "gd". *)
Definition registeredWith (count : nat) (c : Candidate) : Prop :=
  c_serialNo c = ("WD-" ++ padStart 3 (toString (count + 1)))%string
  /\ (3 <= String.length (serialDigits (c_serialNo c)))%nat
  /\ parseDecimal (serialDigits (c_serialNo c)) = Some (count + 1)%nat
  /\ c_qrCodeUrl c
     = Some ("https://api.qrserver.com/v1/create-qr-code/?data="
             ++ c_serialNo c ++ "&size=150x150")%string
  /\ c_status c = "registered"
  /\ c_currentRound c = "gd".

(** ** Example stores and requests *)

(** A fresh server that has taken one registration from the webhook. *)
Definition oneRegistration : MemStorage :=
  fst (postWebhook (newMemStorage 0)
         (mkWebhookBody "Asha" "asha@example.com" "Engineer" 100)).

(** The body that the feedback form of [QRScanner.tsx] builds for
    [POST /api/feedback], with its [createdAt] as given. *)
Definition feedbackBody (candidateId : Z) (decision : string)
    (nextRound createdAt : Js) : Js :=
  JObj [ ("candidateId", JInt candidateId);
         ("panelId", JInt 1);
         ("round", JStr "gd");
         ("technicalSkills", JStr "good");
         ("communication", JStr "good");
         ("detailedFeedback", JStr "fine");
         ("decision", JStr decision);
         ("nextRound", nextRound);
         ("createdAt", createdAt) ].

(** That body as it arrives: the form sets [createdAt: new Date()], which
    [JSON.stringify] writes as a string. *)
Definition postedFeedback (candidateId : Z) (decision : string)
    (nextRound : Js) : Js :=
  feedbackBody candidateId decision nextRound
    (JStr "2024-05-01T10:00:00.000Z").

(** The candidate that [oneRegistration] holds under id 1. *)
Definition asha : Candidate :=
  mkCandidate 1 "WD-001" "Asha" "asha@example.com" "Engineer" 100
    "registered" "gd" None None
    (Some "https://api.qrserver.com/v1/create-qr-code/?data=WD-001&size=150x150").

(** The first role permission of a fresh server started at time 0. *)
Definition adminPermission : RolePermission :=
  mkRolePermission 1 "admin"
    (stringifyPermissions true true true true true true true true true true true)
    (Some "Full administrative access") 0 0.

(** The position that the specification's formula gives: one plus the
    number of same-round waiting candidates registered strictly earlier. *)
Definition specifiedPosition (candidate : Candidate)
    (allCandidates : list Candidate) : Z :=
  1 + Z.of_nat (List.length (filter (strictlyEarlier candidate) allCandidates)).

(** Three waiting candidates of round "gd"; the first and the third
    registered at the same instant. *)
Definition queueA : Candidate :=
  mkCandidate 1 "WD-001" "A" "a@example.com" "Engineer" 100 "registered" "gd"
    None None None.

Definition queueB : Candidate :=
  mkCandidate 2 "WD-002" "B" "b@example.com" "Engineer" 50 "registered" "gd"
    None None None.

Definition queueC : Candidate :=
  mkCandidate 3 "WD-003" "C" "c@example.com" "Engineer" 100 "in_queue" "gd"
    None None None.

(** Two registrations, one by the webhook and one by hand. *)
Definition twoRegistrations : list (Z * Request) :=
  [ (1, ReqPostWebhook (mkWebhookBody "Asha" "asha@example.com" "Engineer" 100));
    (2, ReqPostManual
          (mkManualBody (Some "Ben") (Some "ben@example.com") (Some "Analyst"))) ].

(** A fresh server after [PATCH /api/rooms/2] with
    [{ assignedPanels: [1] }]: rooms 1 and 2 both list panel 1, and room 2
    is still marked unoccupied. *)
Definition listedTwice : MemStorage :=
  serve [ (1, ReqPatchRoom 2
                (mkPartialRoom None None None None None None (Some (Some [1])))) ]
    (newMemStorage 0).

(** The rooms and the panel of a fresh server started at time 0. *)
Definition room101 : Room := mkRoom 1 "101" 5 "1st" "Technical" true (Some [1]).
Definition room102 : Room := mkRoom 2 "102" 3 "1st" "HR" false (Some []).
Definition room201 : Room := mkRoom 3 "201" 8 "2nd" "Manager" false (Some []).
Definition panel1 : Panel := mkPanel 1 "Panel 1" "101" true None ["Panel User"].

(** [POST /api/rooms] with [{ ..., isOccupied: true }] and no panels. *)
Definition occupiedEmptyRoom : Request :=
  ReqPostRoom (mkInsertRoom "301" 4 "3rd" "General" (Some true) None).

(** A creation with defaults, an assignment, a removal and a rename. *)
Definition roomTraffic : list (Z * Request) :=
  [ (1, ReqPostRoom (mkInsertRoom "301" 4 "3rd" "General" None None));
    (2, ReqAssignPanel 2 1);
    (3, ReqRemovePanel 2 1);
    (4, ReqPatchRoom 3
          (mkPartialRoom None (Some "202") None None None None None)) ].

(** Whether a payload carries a [password] property. *)
Definition exposesPassword (payload : Payload) : bool :=
  match payload with
  | PObject o => present (obj_get o "password")
  | PArray l => existsb (fun o => present (obj_get o "password")) l
  end.

(** ** Further definitions for the properties of the handlers *)

(** The status code of an answer. *)
Definition responseStatus {A : Type} (r : Response A) : Z :=
  match r with Json status _ => status | Message status _ => status end.

(** [DELETE /api/users/:id] and [DELETE /api/role-permissions/:id] answer
    with [{ success: true }] or a message; the status is what differs. *)
Definition payloadStatus (r : Z * Payload) : Z := fst r.

(** Every stored feedback key is below the feedback counter. *)
Definition feedbackIdsFresh (s : MemStorage) : Prop :=
  forall id, In id (map_keys (feedbacks s)) -> id < feedbackCurrentId s.


(** A manual registration and a candidate's feedback on the interview. *)
Definition ashaManual : ManualBody :=
  mkManualBody (Some "Asha") (Some "asha@example.com") (Some "Engineer").


(** No two stored candidates share an e-mail address. *)
Definition emailsDistinct (s : MemStorage) : Prop :=
  NoDup (map c_email (getCandidates s)).

(** [{ ...panel, roomNo }]: what [updatePanel] with [{ roomNo }] stores. *)
Definition withRoomNo (roomNo : string) (panel : Panel) : Panel :=
  mergePanel panel (onlyRoomNo roomNo).

(** What [removePanelFromRoom] makes of the panel it detaches from [room]. *)
Definition released (room : Room) (panel : Panel) : Panel :=
  if String.eqb (p_roomNo panel) (r_roomNumber room)
  then withRoomNo EmptyString panel else panel.

(** The store after the detach loop of the assign handler. *)
Definition afterDetach (s : MemStorage) (roomId panelId : Z) : MemStorage :=
  fold_left (detachFrom panelId) (panelAssignedRooms s roomId panelId) s.

(** The store after the handler has then written the target room's number
    to the panel. *)
Definition afterRoomNo (s : MemStorage) (roomId panelId : Z) : MemStorage :=
  let s1 := afterDetach s roomId panelId in
  match getPanel s1 panelId with
  | Some panel =>
      match getRoom s1 roomId with
      | Some room => fst (updatePanel s1 panelId (onlyRoomNo (r_roomNumber room)))
      | None => s1
      end
  | None => s1
  end.

(** The body [{ username, password }] of a login request. *)
Definition credentials (username password : string) : LoginBody :=
  mkLoginBody (Some username) (Some password).

(** A new account, for the examples. *)
Definition newAccount : InsertUser :=
  mkInsertUser "carol" "s3cret" None "Carol" "carol@example.com" None None.

(** A sync request for two sheet rows that share an e-mail address. *)
Definition sheetRows : ControlBody :=
  mkControlBody "sync"
    (Some [ mkSyncCandidate "Dev" "dev@example.com" "Engineer" (Some 300) None None;
            mkSyncCandidate "Dev P." "dev@example.com" "Lead" None
              (Some "in_queue") None ]).

(** Every candidate, panel, room and feedback id stored in [s] is still
    stored in [s']. *)
Definition keepsRecords (s s' : MemStorage) : Prop :=
  (forall id, present (getCandidate s id) = true ->
              present (getCandidate s' id) = true)
  /\ (forall id, present (getPanel s id) = true ->
                 present (getPanel s' id) = true)
  /\ (forall id, present (getRoom s id) = true ->
                 present (getRoom s' id) = true)
  /\ (forall id, present (getFeedback s id) = true ->
                 present (getFeedback s' id) = true).

(** No room lists a panel twice. *)
Definition panelListsDistinct (s : MemStorage) : Prop :=
  forall id room, getRoom s id = Some room -> NoDup (panelsOf room).

(** ** The panel dashboard ([PanelDashboard], client side) *)

(** [(c.status === "in_queue" || c.status === "registered")
     && (!c.assignedPanel || c.assignedPanel === userPanel?.id)];
    [userPanel] is [None] when no panel lists the user. *)
Definition inPanelQueue (userPanel : option Panel) (c : Candidate) : bool :=
  (String.eqb (c_status c) "in_queue" || String.eqb (c_status c) "registered")
  && (match c_assignedPanel c with
      | None => true
      | Some n => Z.eqb n 0
      end
      || match c_assignedPanel c, userPanel with
         | Some n, Some panel => Z.eqb n (p_id panel)
         | _, _ => false
         end).

Definition queueCandidates (userPanel : option Panel)
    (candidates : list Candidate) : list Candidate :=
  sort byTimestamp (filter (inPanelQueue userPanel) candidates).

(** Registered no later than. *)
Definition notLater (a b : Candidate) : Prop := c_timestamp a <= c_timestamp b.

(** [sameRoundCandidates] and [sortedCandidates] of the queue effect. *)
Definition waitingList (candidate : Candidate) (allCandidates : list Candidate)
    : list Candidate :=
  sort byTimestamp (filter (sameRoundWaiting candidate) allCandidates).

(** A candidate who is being interviewed, for the examples. *)
Definition queueD : Candidate :=
  mkCandidate 4 "WD-004" "D" "d@example.com" "Engineer" 70 "in_process" "gd"
    (Some 1) (Some "101") None.

(** ** Tactics *)

Ltac break_all :=
  repeat (match goal with
          | |- context [match ?x with _ => _ end] => destruct x eqn:?
          | H : context [match ?x with _ => _ end] |- _ => destruct x eqn:?
          | H : (_, _) = (_, _) |- _ => inversion H; subst; clear H
          end; simpl in *).

Ltac unfold_storage :=
  unfold createUser, updateUser, deleteUser, createCandidate, updateCandidate,
    createPanel, updatePanel, createFeedback, createRoom, updateRoom,
    assignPanelToRoom, removePanelFromRoom, createCandidateFeedback,
    createRolePermission, updateRolePermission, deleteRolePermission,
    map_delete in *.

Ltac keeps_step get_set :=
  unfold keepsRecords, getCandidate, getPanel, getRoom, getFeedback;
  repeat (progress unfold_storage; break_all);
  cbn; repeat split; intros id0 Hid0; rewrite ?get_set;
  try match goal with
      | |- context [Z.eqb ?a id0] => destruct (Z.eqb a id0)
      end;
  auto.

(** * Properties *)

(** ** [Map] *)

Section JsMapFacts.
Context {V : Type}.
Implicit Types (m : JsMap V) (k : Z) (v : V).

Lemma map_get_set_eq m k v : map_get (map_set m k v) k = Some v.
Proof.
  induction m as [|[k' v'] m IH]; simpl.
  - now rewrite Z.eqb_refl.
  - destruct (Z.eqb k' k) eqn:E; simpl.
    + now rewrite Z.eqb_refl.
    + now rewrite E.
Qed.

Lemma map_get_set_neq m k k' v :
  k <> k' -> map_get (map_set m k v) k' = map_get m k'.
Proof.
  intros Hne. induction m as [|[k0 v0] m IH]; simpl.
  - destruct (Z.eqb_spec k k'); [contradiction | reflexivity].
  - destruct (Z.eqb_spec k0 k) as [->|Hk]; simpl.
    + destruct (Z.eqb_spec k k'); [contradiction | reflexivity].
    + destruct (Z.eqb_spec k0 k'); [reflexivity | exact IH].
Qed.

Lemma map_get_set m k k' v :
  map_get (map_set m k v) k' = if Z.eqb k k' then Some v else map_get m k'.
Proof.
  destruct (Z.eqb_spec k k') as [->|Hne].
  - apply map_get_set_eq.
  - now apply map_get_set_neq.
Qed.

Lemma map_get_In m k v : map_get m k = Some v -> In (k, v) m.
Proof.
  induction m as [|[k' v'] m IH]; simpl; [discriminate|].
  destruct (Z.eqb_spec k' k) as [->|Hne].
  - intros [= ->]. now left.
  - intros H. right. auto.
Qed.

Lemma map_get_value m k v : map_get m k = Some v -> In v (map_values m).
Proof.
  intros H. apply map_get_In in H.
  change v with (snd (k, v)). now apply in_map.
Qed.

Lemma map_get_None m k : map_get m k = None <-> ~ In k (map_keys m).
Proof.
  induction m as [|[k' v'] m IH]; simpl.
  - split; [tauto | reflexivity].
  - destruct (Z.eqb_spec k' k) as [->|Hne].
    + split; [discriminate | intros H; exfalso; apply H; now left].
    + rewrite IH. split; [intros H [?|?]; tauto | tauto].
Qed.

Lemma In_map_get m k v :
  NoDup (map_keys m) -> In (k, v) m -> map_get m k = Some v.
Proof.
  induction m as [|[k' v'] m IH]; simpl; [tauto|].
  intros Hnd [Heq|Hin].
  - injection Heq as -> ->. now rewrite Z.eqb_refl.
  - inversion Hnd as [|? ? Hnotin Hnd']; subst.
    destruct (Z.eqb_spec k' k) as [->|Hne].
    + exfalso. apply Hnotin. change k with (fst (k, v)). now apply in_map.
    + auto.
Qed.

Lemma map_keys_set m k v :
  map_keys (map_set m k v)
  = if map_has m k then map_keys m else map_keys m ++ [k].
Proof.
  unfold map_has. induction m as [|[k' v'] m IH]; simpl; [reflexivity|].
  destruct (Z.eqb_spec k' k) as [->|Hne]; simpl; [reflexivity|].
  rewrite IH. now destruct (map_get m k).
Qed.

Lemma map_set_NoDup m k v :
  NoDup (map_keys m) -> NoDup (map_keys (map_set m k v)).
Proof.
  intros Hnd. rewrite map_keys_set. unfold map_has.
  destruct (map_get m k) eqn:E; [assumption|].
  apply map_get_None in E.
  apply NoDup_app; [assumption | repeat constructor; simpl; tauto |].
  intros x Hx [<-|[]]. contradiction.
Qed.

Lemma map_set_length m k v :
  List.length (map_set m k v)
  = if map_has m k then List.length m else S (List.length m).
Proof.
  unfold map_has. induction m as [|[k' v'] m IH]; simpl; [reflexivity|].
  destruct (Z.eqb_spec k' k) as [->|Hne]; simpl; [reflexivity|].
  rewrite IH. now destruct (map_get m k).
Qed.
End JsMapFacts.

(** ** Feedback and the candidate's status *)

Lemma createFeedback_candidates s d :
  candidates (fst (createFeedback s d)) = candidates s.
Proof. reflexivity. Qed.

Lemma updateCandidate_get s id p existing :
  getCandidate s id = Some existing ->
  getCandidate (fst (updateCandidate s id p)) id
  = Some (mergeCandidate existing p).
Proof.
  unfold getCandidate, updateCandidate. intros ->. simpl.
  apply map_get_set_eq.
Qed.

Lemma recordFeedback_candidate s fb c :
  getCandidate s (if_candidateId fb) = Some c ->
  c_id c = if_candidateId fb ->
  exists status currentRound,
    getCandidate (fst (recordFeedback s fb)) (if_candidateId fb)
    = Some (mergeCandidate c (feedbackUpdates status currentRound))
    /\ (status, currentRound)
       = if String.eqb (if_decision fb) "next" then
           ("in_queue", orNull (if_nextRound fb))
         else if String.eqb (if_decision fb) "reject" then ("rejected", None)
         else ("in_queue", None).
Proof.
  intros Hget Hid. unfold recordFeedback.
  destruct (createFeedback s fb) as [s1 newFeedback] eqn:Hc.
  assert (Hs1 : getCandidate s1 (if_candidateId fb) = Some c).
  { unfold getCandidate. replace s1 with (fst (createFeedback s fb)) by now rewrite Hc.
    rewrite createFeedback_candidates. exact Hget. }
  rewrite Hs1, Hid.
  destruct (String.eqb (if_decision fb) "next");
    [|destruct (String.eqb (if_decision fb) "reject")];
    eexists _, _; (split; [simpl; apply updateCandidate_get; exact Hs1|]);
    try reflexivity.
  now destruct (if_nextRound fb) as [[r|]|].
Qed.

(** What the try block does once a body has passed the schema.  For a
    candidate stored under its own id it sets [assignedPanel] to null in
    all cases; decision "next" sets the status to "in_queue" and the round
    to [nextRound] when that is a non-empty string, and leaves the round
    unchanged when it is absent, null or the empty string; "reject" sets
    the status to "rejected" and "hold" to "in_queue", both with the round
    unchanged. *)
Lemma recordFeedback_transition s fb c :
  getCandidate s (if_candidateId fb) = Some c ->
  c_id c = if_candidateId fb ->
  exists c',
    getCandidate (fst (recordFeedback s fb)) (if_candidateId fb) = Some c'
    /\ c_assignedPanel c' = None
    /\ (if_decision fb = "next" ->
        c_status c' = "in_queue"
        /\ c_currentRound c'
           = match if_nextRound fb with
             | Some (Some r) => if truthy r then r else c_currentRound c
             | _ => c_currentRound c
             end)
    /\ (if_decision fb = "reject" ->
        c_status c' = "rejected" /\ c_currentRound c' = c_currentRound c)
    /\ (if_decision fb = "hold" ->
        c_status c' = "in_queue" /\ c_currentRound c' = c_currentRound c).
Proof.
  intros Hget Hid.
  destruct (recordFeedback_candidate s fb c Hget Hid)
    as (status & currentRound & Hc' & Hdec).
  eexists. split; [exact Hc'|]. split; [reflexivity|].
  split; [|split]; intros Hd; rewrite Hd in Hdec; simpl in Hdec;
    injection Hdec as -> ->; simpl; try (split; reflexivity).
  split; [reflexivity|].
  destruct (if_nextRound fb) as [[r|]|]; simpl; try reflexivity.
  now destruct (truthy r).
Qed.

(** For a [candidateId] that names no stored candidate the try block
    stores the feedback record and leaves the candidate map as it was. *)
Lemma recordFeedback_unknown_candidate s fb :
  getCandidate s (if_candidateId fb) = None ->
  let '(s', newFeedback) := recordFeedback s fb in
  newFeedback = snd (createFeedback s fb)
  /\ getFeedback s' (f_id newFeedback) = Some newFeedback
  /\ candidates s' = candidates s.
Proof.
  intros Hnone. unfold recordFeedback.
  destruct (createFeedback s fb) as [s1 newFeedback] eqn:Hc.
  assert (Hs1 : s1 = fst (createFeedback s fb)) by now rewrite Hc.
  assert (Hnf : newFeedback = snd (createFeedback s fb)) by now rewrite Hc.
  assert (Hget : getCandidate s1 (if_candidateId fb) = None).
  { rewrite Hs1. exact Hnone. }
  rewrite Hget. split; [reflexivity|]. split.
  - rewrite Hs1, Hnf. unfold getFeedback. simpl. apply map_get_set_eq.
  - now rewrite Hs1.
Qed.

(** The store that the handler leaves does not depend on [thrown]. *)
Lemma postFeedback_store s body thrown :
  fst (postFeedback s body thrown)
  = match insertFeedbackSchema_parse body with
    | Some feedbackData => fst (recordFeedback s feedbackData)
    | None => s
    end.
Proof.
  unfold postFeedback. destruct (insertFeedbackSchema_parse body); [|reflexivity].
  destruct (recordFeedback s i). now destruct thrown.
Qed.

(** ** Feedback bodies that arrive as JSON *)

Lemma js_get_JSON props key v :
  isJSON (JObj props) = true -> js_get props key = Some v -> isJSON v = true.
Proof.
  cbn [isJSON]. induction props as [|[k x] props IH]; cbn [js_get forallb];
    [discriminate|].
  intros H. apply andb_prop in H. destruct H as [Hx Hrest].
  destruct (String.eqb k key); [|now apply IH].
  now intros [= <-].
Qed.

(** The schema accepts a body only with a [Date] object under
    [createdAt]. *)
Lemma insertFeedbackSchema_parse_Date body feedbackData :
  insertFeedbackSchema_parse body = Some feedbackData ->
  exists props,
    body = JObj props
    /\ js_get props "createdAt" = Some (JDate (if_createdAt feedbackData)).
Proof.
  destruct body as [| | | | | |items|props]; try discriminate.
  unfold insertFeedbackSchema_parse. intros H. exists props.
  split; [reflexivity|].
  destruct (zInteger (js_get props "candidateId")); [|discriminate].
  destruct (zInteger (js_get props "panelId")); [|discriminate].
  destruct (zString (js_get props "round")); [|discriminate].
  destruct (zString (js_get props "technicalSkills")); [|discriminate].
  destruct (zString (js_get props "communication")); [|discriminate].
  destruct (zString (js_get props "detailedFeedback")); [|discriminate].
  destruct (zString (js_get props "decision")); [|discriminate].
  destruct (zOptional (zNullable zString) (js_get props "nextRound"));
    [|discriminate].
  destruct (js_get props "createdAt") as [[| | | | |ms| |]|];
    try discriminate.
  cbn [zDate] in H. now injection H as <-.
Qed.

Lemma insertFeedbackSchema_rejects_JSON body :
  isJSON body = true -> insertFeedbackSchema_parse body = None.
Proof.
  intros HJ. destruct (insertFeedbackSchema_parse body) as [d|] eqn:E;
    [|reflexivity].
  destruct (insertFeedbackSchema_parse_Date body d E) as (props & -> & Hd).
  pose proof (js_get_JSON props "createdAt" _ HJ Hd) as Hv. discriminate Hv.
Qed.

Lemma postFeedback_rejects_JSON s body thrown :
  isJSON body = true ->
  postFeedback s body thrown = (s, Rejected 400 "Invalid feedback data").
Proof.
  intros HJ. unfold postFeedback.
  now rewrite insertFeedbackSchema_rejects_JSON.
Qed.

(** C1 fails on the handler at every body that arrives as JSON.  The
    insert schema requires [createdAt] to be a [Date] object, which JSON
    text does not carry: the handler answers 400 before it stores the
    feedback, and every candidate keeps its status, its round and its
    assigned panel, whatever the decision. *)
Theorem feedback_rejected_before_transition :
  forall s body thrown,
    isJSON body = true ->
    let '(s', r) := postFeedback s body thrown in
    r = Rejected 400 "Invalid feedback data"
    /\ forall id, getCandidate s' id = getCandidate s id.
Proof.
  intros s body thrown HJ. rewrite (postFeedback_rejects_JSON s body thrown HJ).
  now split.
Qed.

Lemma feedback_rejected_before_transition_witness :
  let '(s', r) :=
    postFeedback oneRegistration (postedFeedback 1 "next" (JStr "screening"))
      false in
  r = Rejected 400 "Invalid feedback data"
  /\ forall id, getCandidate s' id = getCandidate oneRegistration id.
Proof.
  exact (feedback_rejected_before_transition oneRegistration
           (postedFeedback 1 "next" (JStr "screening")) false eq_refl).
Defined.

(** C9 fails on the handler at every body that arrives as JSON, for the
    same reason: the feedback of an unknown candidate is not created and
    the answer is 400, not 201; the store is left as it was. *)
Theorem feedback_unknown_candidate_rejected :
  forall s body thrown,
    isJSON body = true ->
    let '(s', r) := postFeedback s body thrown in
    s' = s
    /\ r = Rejected 400 "Invalid feedback data"
    /\ (forall newFeedback, r <> Accepted (Json 201 newFeedback))
    /\ getFeedback s' (feedbackCurrentId s) = getFeedback s (feedbackCurrentId s).
Proof.
  intros s body thrown HJ. rewrite (postFeedback_rejects_JSON s body thrown HJ).
  repeat apply conj; try reflexivity. intros newFeedback. discriminate.
Qed.

Lemma feedback_unknown_candidate_rejected_witness :
  let '(s', r) :=
    postFeedback oneRegistration (postedFeedback 7 "reject" JNull) false in
  s' = oneRegistration
  /\ r = Rejected 400 "Invalid feedback data"
  /\ (forall newFeedback, r <> Accepted (Json 201 newFeedback))
  /\ getFeedback s' (feedbackCurrentId oneRegistration)
     = getFeedback oneRegistration (feedbackCurrentId oneRegistration).
Proof.
  exact (feedback_unknown_candidate_rejected oneRegistration
           (postedFeedback 7 "reject" JNull) false eq_refl).
Defined.

(** ** Partial updates *)

Lemma nullish_idem {A : Type} (o : option A) (x : A) :
  nullish o (nullish o x) = nullish o x.
Proof. now destruct o. Qed.

Lemma nullish_absent {A : Type} (o : option A) (x : A) :
  present o = false -> nullish o x = x.
Proof. destruct o; [discriminate | reflexivity]. Qed.

Lemma mergeUser_idem e p : mergeUser (mergeUser e p) p = mergeUser e p.
Proof. unfold mergeUser; simpl. now rewrite !nullish_idem. Qed.

Lemma mergeCandidate_idem e p :
  mergeCandidate (mergeCandidate e p) p = mergeCandidate e p.
Proof. unfold mergeCandidate; simpl. now rewrite !nullish_idem. Qed.

Lemma mergePanel_idem e p : mergePanel (mergePanel e p) p = mergePanel e p.
Proof. unfold mergePanel; simpl. now rewrite !nullish_idem. Qed.

Lemma mergeRoom_idem e p : mergeRoom (mergeRoom e p) p = mergeRoom e p.
Proof. unfold mergeRoom; simpl. now rewrite !nullish_idem. Qed.

Lemma mergeRolePermission_idem now e p :
  mergeRolePermission now (mergeRolePermission now e p) p
  = mergeRolePermission now e p.
Proof. unfold mergeRolePermission; simpl. now rewrite !nullish_idem. Qed.

Lemma mergeUser_frame e p f :
  userUpdates f p = false -> userField f (mergeUser e p) = userField f e.
Proof. destruct f; simpl; intros H; now rewrite (nullish_absent _ _ H). Qed.

Lemma mergeCandidate_frame e p f :
  candidateUpdates f p = false ->
  candidateField f (mergeCandidate e p) = candidateField f e.
Proof. destruct f; simpl; intros H; now rewrite (nullish_absent _ _ H). Qed.

Lemma mergePanel_frame e p f :
  panelUpdates f p = false -> panelField f (mergePanel e p) = panelField f e.
Proof. destruct f; simpl; intros H; now rewrite (nullish_absent _ _ H). Qed.

Lemma mergeRoom_frame e p f :
  roomUpdates f p = false -> roomField f (mergeRoom e p) = roomField f e.
Proof. destruct f; simpl; intros H; now rewrite (nullish_absent _ _ H). Qed.

Lemma mergeRolePermission_frame now e p f :
  f <> RPUpdatedAt -> rolePermissionUpdates f p = false ->
  rolePermissionField f (mergeRolePermission now e p) = rolePermissionField f e.
Proof.
  destruct f; simpl; intros Hf H; try now rewrite (nullish_absent _ _ H).
  now contradiction Hf.
Qed.

(** C7, as the store implements it.  For users, candidates, panels and
    rooms, [update] on an existing id stores and returns the merged
    entity, every property absent from the partial keeps its value, and
    applying the same update again returns the same entity.  For role
    permissions the same holds for every property other than [updatedAt],
    which every update sets to the current time; a repeated update
    returns the same entity when the clock reads the same. *)
Theorem update_frame_and_idempotence :
  (forall s id p e,
     getUser s id = Some e ->
     exists e',
       snd (updateUser s id p) = Some e'
       /\ getUser (fst (updateUser s id p)) id = Some e'
       /\ (forall f, userUpdates f p = false -> userField f e' = userField f e)
       /\ snd (updateUser (fst (updateUser s id p)) id p) = Some e')
  /\ (forall s id p e,
        getCandidate s id = Some e ->
        exists e',
          snd (updateCandidate s id p) = Some e'
          /\ getCandidate (fst (updateCandidate s id p)) id = Some e'
          /\ (forall f, candidateUpdates f p = false ->
                        candidateField f e' = candidateField f e)
          /\ snd (updateCandidate (fst (updateCandidate s id p)) id p) = Some e')
  /\ (forall s id p e,
        getPanel s id = Some e ->
        exists e',
          snd (updatePanel s id p) = Some e'
          /\ getPanel (fst (updatePanel s id p)) id = Some e'
          /\ (forall f, panelUpdates f p = false -> panelField f e' = panelField f e)
          /\ snd (updatePanel (fst (updatePanel s id p)) id p) = Some e')
  /\ (forall s id p e,
        getRoom s id = Some e ->
        exists e',
          snd (updateRoom s id p) = Some e'
          /\ getRoom (fst (updateRoom s id p)) id = Some e'
          /\ (forall f, roomUpdates f p = false -> roomField f e' = roomField f e)
          /\ snd (updateRoom (fst (updateRoom s id p)) id p) = Some e')
  /\ (forall now s id p e,
        getRolePermission s id = Some e ->
        exists e',
          snd (updateRolePermission now s id p) = Some e'
          /\ getRolePermission (fst (updateRolePermission now s id p)) id = Some e'
          /\ (forall f, f <> RPUpdatedAt -> rolePermissionUpdates f p = false ->
                        rolePermissionField f e' = rolePermissionField f e)
          /\ rp_updatedAt e' = now
          /\ snd (updateRolePermission now
                    (fst (updateRolePermission now s id p)) id p) = Some e').
Proof.
  repeat apply conj.
  - intros s id p e H. unfold getUser, updateUser in *. rewrite H. simpl.
    eexists; repeat apply conj; try reflexivity.
    + apply map_get_set_eq.
    + intros f. apply mergeUser_frame.
    + rewrite map_get_set_eq. simpl. now rewrite mergeUser_idem.
  - intros s id p e H. unfold getCandidate, updateCandidate in *. rewrite H. simpl.
    eexists; repeat apply conj; try reflexivity.
    + apply map_get_set_eq.
    + intros f. apply mergeCandidate_frame.
    + rewrite map_get_set_eq. simpl. now rewrite mergeCandidate_idem.
  - intros s id p e H. unfold getPanel, updatePanel in *. rewrite H. simpl.
    eexists; repeat apply conj; try reflexivity.
    + apply map_get_set_eq.
    + intros f. apply mergePanel_frame.
    + rewrite map_get_set_eq. simpl. now rewrite mergePanel_idem.
  - intros s id p e H. unfold getRoom, updateRoom in *. rewrite H. simpl.
    eexists; repeat apply conj; try reflexivity.
    + apply map_get_set_eq.
    + intros f. apply mergeRoom_frame.
    + rewrite map_get_set_eq. simpl. now rewrite mergeRoom_idem.
  - intros now s id p e H.
    unfold getRolePermission, updateRolePermission in *. rewrite H. simpl.
    eexists; repeat apply conj; try reflexivity.
    + apply map_get_set_eq.
    + intros f. apply mergeRolePermission_frame.
    + rewrite map_get_set_eq. simpl. now rewrite mergeRolePermission_idem.
Qed.

Lemma update_frame_and_idempotence_witness :
  exists e',
    snd (updateCandidate oneRegistration 1
           (feedbackUpdates "rejected" None)) = Some e'
    /\ getCandidate (fst (updateCandidate oneRegistration 1
                            (feedbackUpdates "rejected" None))) 1 = Some e'
    /\ (forall f, candidateUpdates f (feedbackUpdates "rejected" None) = false ->
                  candidateField f e'
                  = candidateField f
                      asha)
    /\ snd (updateCandidate
              (fst (updateCandidate oneRegistration 1
                      (feedbackUpdates "rejected" None))) 1
              (feedbackUpdates "rejected" None)) = Some e'.
Proof.
  apply (proj1 (proj2 update_frame_and_idempotence) oneRegistration 1
           (feedbackUpdates "rejected" None) asha).
  vm_compute. reflexivity.
Defined.

(** C7 as stated fails for role permissions: the empty update changes
    [updatedAt], a property that the partial does not name. *)
Lemma rolePermission_update_touches_updatedAt :
  ~ (forall now s id p e f,
       getRolePermission s id = Some e ->
       rolePermissionUpdates f p = false ->
       forall e', snd (updateRolePermission now s id p) = Some e' ->
                  rolePermissionField f e' = rolePermissionField f e).
Proof.
  intros H.
  assert (He : getRolePermission (newMemStorage 0) 1 = Some adminPermission)
    by (vm_compute; reflexivity).
  assert (He' : snd (updateRolePermission 5 (newMemStorage 0) 1
                       noRolePermissionUpdates)
                = Some (mergeRolePermission 5 adminPermission
                          noRolePermissionUpdates))
    by (vm_compute; reflexivity).
  specialize (H 5 (newMemStorage 0) 1 noRolePermissionUpdates adminPermission
                RPUpdatedAt He eq_refl _ He').
  discriminate H.
Qed.

(** ** What the user handlers send *)

Lemma obj_get_omit key o : obj_get (omit key o) key = None.
Proof.
  induction o as [|[k v] o IH]; simpl; [reflexivity|].
  destruct (String.eqb k key) eqn:E; simpl; [exact IH|].
  now rewrite E.
Qed.

Lemma safeUser_hides user : present (obj_get (safeUser user) "password") = false.
Proof. unfold safeUser. now rewrite obj_get_omit. Qed.

Lemma userObject_password user :
  obj_get (userObject user) "password" = Some (VStr (u_password user)).
Proof. reflexivity. Qed.

(** C10.  No answer of login, list-users, get-user, create-user and
    update-user has a [password] property: not the user objects of the
    success paths, not the messages of the error paths, and not the
    answers of create-user to a body that its schema rejects (400, whose
    properties are [message] and [errors]) or when the broadcast throws
    (500).  The stored user keeps the submitted password as plain
    text. *)
Theorem user_responses_hide_password :
  (forall s body, exposesPassword (snd (postLogin s body)) = false)
  /\ (forall s, exposesPassword (snd (getUsersRoute s)) = false)
  /\ (forall s id, exposesPassword (snd (getUserRoute s id)) = false)
  /\ (forall now s body thrown,
        let '(s', (status, payload)) := postUserRoute now s body thrown in
        exposesPassword payload = false
        /\ match insertUserSchema_parse body with
           | None => status = 400 /\ s' = s
           | Some userData =>
               status = (if thrown then 500 else 201)
               /\ exists user,
                    getUser s' (userCurrentId s) = Some user
                    /\ u_password user = iu_password userData
                    /\ obj_get (userObject user) "password"
                       = Some (VStr (iu_password userData))
           end)
  /\ (forall s id userUpdates,
        exposesPassword (snd (snd (patchUser s id userUpdates))) = false).
Proof.
  repeat apply conj.
  - intros s body. unfold postLogin.
    destruct (missing (lb_username body) || missing (lb_password body));
      [reflexivity|].
    destruct (getUserByUsername s _) as [user|]; [|reflexivity].
    now destruct (negb _).
  - intros s. unfold getUsersRoute. cbn [snd exposesPassword].
    induction (getUsers s) as [|user l IH]; cbn [map existsb]; [reflexivity|].
    now rewrite safeUser_hides, IH.
  - intros s id. unfold getUserRoute.
    destruct (getUser s id); cbn [snd exposesPassword];
      [apply safeUser_hides | reflexivity].
  - intros now s body thrown. unfold postUserRoute.
    destruct (insertUserSchema_parse body) as [userData|];
      [|split; [reflexivity | now split]].
    unfold postUser. cbn [createUser].
    assert (Hstored :
      exists user,
        getUser
          (with_users (with_userCurrentId s (userCurrentId s + 1))
             (map_set (users (with_userCurrentId s (userCurrentId s + 1)))
                (userCurrentId s)
                (snd (createUser now s userData))))
          (userCurrentId s) = Some user
        /\ u_password user = iu_password userData
        /\ obj_get (userObject user) "password"
           = Some (VStr (iu_password userData))).
    { eexists. unfold getUser. cbn [users with_users].
      rewrite map_get_set_eq. split; [reflexivity|]. split; reflexivity. }
    destruct thrown; (split; [|split; [reflexivity | exact Hstored]]).
    + reflexivity.
    + cbn [exposesPassword]. apply safeUser_hides.
  - intros s id userUpdates. unfold patchUser, updateUser.
    destruct (map_get (users s) id); cbn [snd exposesPassword];
      [apply safeUser_hides | reflexivity].
Qed.

(** ** Assigning a panel to a room that does not exist *)

(** The storage method checks both identifiers before it writes. *)
Lemma assignPanelToRoom_not_found s roomId panelId :
  getRoom s roomId = None \/ getPanel s panelId = None ->
  assignPanelToRoom s roomId panelId = (s, None).
Proof.
  unfold getRoom, getPanel, assignPanelToRoom. intros [H|H].
  - now rewrite H.
  - rewrite H. now destruct (map_get (rooms s) roomId).
Qed.

(** C3 fails on the handler.  On a fresh server panel 1 is assigned to
    room 1 and there is no room 99; assigning panel 1 to room 99 answers
    404, but only after the handler has detached the panel from room 1,
    cleared that room's occupied flag and emptied the panel's room
    number. *)
Theorem assign_panel_unknown_room_mutates :
  let s := newMemStorage 0 in
  let '(s', response) := postAssignPanel s 99 1 in
  getRoom s 99 = None
  /\ response = Message 404 "Room or panel not found"
  /\ option_map r_assignedPanels (getRoom s 1) = Some (Some [1])
  /\ option_map r_isOccupied (getRoom s 1) = Some true
  /\ option_map p_roomNo (getPanel s 1) = Some "101"
  /\ option_map r_assignedPanels (getRoom s' 1) = Some (Some [])
  /\ option_map r_isOccupied (getRoom s' 1) = Some false
  /\ option_map p_roomNo (getPanel s' 1) = Some EmptyString.
Proof. vm_compute. repeat split. Qed.

(** ** Identifiers *)

Lemma call_currentId_mono c s k :
  currentId k s <= currentId k (fst (call c s)).
Proof.
  destruct c; simpl; repeat (progress unfold_storage; break_all);
    destruct k; simpl; lia.
Qed.

Lemma call_created c s k id :
  snd (call c s) = Some (k, id) ->
  id = currentId k s /\ currentId k (fst (call c s)) = id + 1.
Proof.
  destruct c; simpl; try discriminate; intros [= <- <-]; simpl; auto.
Qed.

Lemma createdIds_lower k calls :
  forall s id, In id (createdIds k calls s) -> currentId k s <= id.
Proof.
  induction calls as [|c rest IH]; intros s id; simpl; [tauto|].
  pose proof (call_currentId_mono c s k) as Hmono.
  pose proof (call_created c s) as Hcr.
  destruct (call c s) as [s' r]; simpl in *.
  destruct r as [[k' id']|].
  - destruct (Hcr k' id' eq_refl) as [-> Hnext].
    destruct (Kind_eqb k' k) eqn:E.
    + assert (k' = k) as -> by (destruct k', k; simpl in E; congruence).
      intros [<-|Hin]; [lia|]. apply IH in Hin. lia.
    + intros Hin. apply IH in Hin. lia.
  - intros Hin. apply IH in Hin. lia.
Qed.

(** C6.  For every entity kind and every sequence of storage calls
    (creates, updates and deletes of any kind), the identifiers returned
    by the [create] calls of that kind are strictly increasing: each is
    greater than all the ones returned before it, so none is handed out
    twice, also after a delete. *)
Theorem created_ids_strictly_increasing :
  forall k calls s,
    StronglySorted Z.lt (createdIds k calls s)
    /\ NoDup (createdIds k calls s).
Proof.
  intros k calls.
  assert (Hsorted : forall s, StronglySorted Z.lt (createdIds k calls s)).
  { induction calls as [|c rest IH]; intros s; simpl; [constructor|].
    pose proof (call_created c s) as Hcr.
    destruct (call c s) as [s' r] eqn:Hcall; simpl in *.
    destruct r as [[k' id']|]; [|apply IH].
    destruct (Kind_eqb k' k) eqn:E; [|apply IH].
    assert (k' = k) as -> by (destruct k', k; simpl in E; congruence).
    destruct (Hcr k id' eq_refl) as [-> Hnext].
    constructor; [apply IH|].
    apply Forall_forall. intros x Hx.
    apply createdIds_lower in Hx. lia. }
  intros s. split; [apply Hsorted|].
  specialize (Hsorted s).
  induction Hsorted as [|x l Hl IHl Hx]; constructor; [|exact IHl].
  intros Hin. rewrite Forall_forall in Hx. specialize (Hx x Hin). lia.
Qed.

(** ** Sorting by a key, stably *)

Section SortFacts.
Context {A : Type} (compare : A -> A -> Z) (key : A -> Z).
Hypothesis compare_key : forall a b, compare a b = key a - key b.

Lemma insertSorted_Forall (P : A -> Prop) x l :
  P x -> Forall P l -> Forall P (insertSorted compare x l).
Proof.
  intros Hx Hl. induction Hl as [|y l Hy Hl IH]; simpl.
  - now constructor.
  - destruct (Z.leb _ _); repeat constructor; assumption.
Qed.

Lemma sort_Forall (P : A -> Prop) l : Forall P l -> Forall P (sort compare l).
Proof.
  induction 1 as [|x l Hx Hl IH]; simpl; [constructor|].
  now apply insertSorted_Forall.
Qed.

Lemma insertSorted_length x l :
  List.length (insertSorted compare x l) = S (List.length l).
Proof.
  induction l as [|y l IH]; simpl; [reflexivity|].
  destruct (Z.leb _ _); simpl; [reflexivity | now rewrite IH].
Qed.

Lemma sort_length l : List.length (sort compare l) = List.length l.
Proof.
  induction l as [|x l IH]; simpl; [reflexivity|].
  now rewrite insertSorted_length, IH.
Qed.

(** [x] stops inside [l] or in front of [r] when nothing in [r] is smaller. *)
Lemma insertSorted_app_left x l r :
  Forall (fun y => key x <= key y) r ->
  insertSorted compare x (l ++ r) = insertSorted compare x l ++ r.
Proof.
  intros Hr. induction l as [|y l IH]; simpl.
  - destruct Hr as [|z r Hz Hr]; simpl; [reflexivity|].
    rewrite compare_key.
    destruct (Z.leb_spec (key x - key z) 0); [reflexivity | lia].
  - destruct (Z.leb _ _); simpl; [reflexivity | now rewrite IH].
Qed.

(** [x] passes all of [l] when everything in [l] is strictly smaller. *)
Lemma insertSorted_app_right x l r :
  Forall (fun y => key y < key x) l ->
  insertSorted compare x (l ++ r) = l ++ insertSorted compare x r.
Proof.
  induction 1 as [|y l Hy Hl IH]; simpl; [reflexivity|].
  rewrite compare_key.
  destruct (Z.leb_spec (key x - key y) 0); [lia | now rewrite IH].
Qed.

(** A list whose keys are all equal is left as it is. *)
Lemma sort_same_key k l :
  Forall (fun y => key y = k) l -> sort compare l = l.
Proof.
  induction 1 as [|x l Hx Hl IH]; simpl; [reflexivity|].
  rewrite IH. destruct Hl as [|y l Hy Hl]; simpl; [reflexivity|].
  rewrite compare_key.
  destruct (Z.leb_spec (key x - key y) 0); [reflexivity | lia].
Qed.

Lemma Forall_filter (f : A -> bool) l : Forall (fun y => f y = true) (filter f l).
Proof. apply Forall_forall. intros y Hy. now apply filter_In in Hy. Qed.

(** The sorted list is the smaller keys, then the equal keys in their
    original order, then the larger keys. *)
Lemma sort_partition k l :
  sort compare l
  = sort compare (filter (fun y => Z.ltb (key y) k) l)
    ++ filter (fun y => Z.eqb (key y) k) l
    ++ sort compare (filter (fun y => Z.ltb k (key y)) l).
Proof.
  induction l as [|x l IH]; simpl; [reflexivity|].
  rewrite IH at 1.
  set (L := filter (fun y => Z.ltb (key y) k) l).
  set (E := filter (fun y => Z.eqb (key y) k) l).
  set (G := filter (fun y => Z.ltb k (key y)) l).
  assert (HL : Forall (fun y => key y < k) (sort compare L)).
  { apply sort_Forall. eapply Forall_impl; [|apply Forall_filter].
    simpl. intros y Hy. now apply Z.ltb_lt. }
  assert (HE : Forall (fun y => key y = k) E).
  { eapply Forall_impl; [|apply Forall_filter].
    simpl. intros y Hy. now apply Z.eqb_eq. }
  assert (HG : Forall (fun y => k < key y) (sort compare G)).
  { apply sort_Forall. eapply Forall_impl; [|apply Forall_filter].
    simpl. intros y Hy. now apply Z.ltb_lt. }
  destruct (Z.ltb_spec (key x) k) as [Hlt|Hge].
  - replace (Z.eqb (key x) k) with false by (symmetry; apply Z.eqb_neq; lia).
    replace (Z.ltb k (key x)) with false by (symmetry; apply Z.ltb_ge; lia).
    simpl. apply insertSorted_app_left.
    apply Forall_app. split.
    + eapply Forall_impl; [|exact HE]. simpl. intros; lia.
    + eapply Forall_impl; [|exact HG]. simpl. intros; lia.
  - destruct (Z.eqb_spec (key x) k) as [Heq|Hne].
    + replace (Z.ltb k (key x)) with false by (symmetry; apply Z.ltb_ge; lia).
      rewrite insertSorted_app_right
        by (eapply Forall_impl; [|exact HL]; simpl; intros; lia).
      f_equal.
      rewrite insertSorted_app_left
        by (eapply Forall_impl; [|exact HG]; simpl; intros; lia).
      f_equal. destruct HE as [|y E' Hy HE']; simpl; [reflexivity|].
      rewrite compare_key.
      destruct (Z.leb_spec (key x - key y) 0); [reflexivity | lia].
    + replace (Z.ltb k (key x)) with true by (symmetry; apply Z.ltb_lt; lia).
      simpl.
      rewrite insertSorted_app_right
        by (eapply Forall_impl; [|exact HL]; simpl; intros; lia).
      f_equal.
      apply insertSorted_app_right.
      eapply Forall_impl; [|exact HE]. simpl. intros; lia.
Qed.
End SortFacts.

(** ** Index helpers *)

Lemma findIndex_nonneg {A : Type} (f : A -> bool) l :
  findIndex f l = -1 \/ 0 <= findIndex f l.
Proof.
  induction l as [|x l IH]; simpl; [now left|].
  destruct (f x); [right; lia|].
  destruct (Z.eqb_spec (findIndex f l) (-1)); [now left | right; lia].
Qed.

Lemma findIndex_app_first {A : Type} (f : A -> bool) l x r :
  Forall (fun y => f y = false) l -> f x = true ->
  findIndex f (l ++ x :: r) = Z.of_nat (List.length l).
Proof.
  intros Hl Hx. induction Hl as [|y l Hy Hl IH].
  - simpl. now rewrite Hx.
  - change (findIndex f ((y :: l) ++ x :: r))
      with (if f y then 0
            else let i := findIndex f (l ++ x :: r) in
                 if Z.eqb i (-1) then -1 else i + 1).
    rewrite Hy, IH. cbv zeta.
    change (List.length (y :: l)) with (S (List.length l)).
    destruct (Z.eqb_spec (Z.of_nat (List.length l)) (-1)); lia.
Qed.

Lemma filterIndexFrom_all {A : Type} (n : Z) (l : list A) :
  forall i, i + Z.of_nat (List.length l) <= n ->
  filterIndexFrom (fun index => Z.ltb index n) i l = l.
Proof.
  induction l as [|x l IH]; intros i Hi; simpl in *; [reflexivity|].
  destruct (Z.ltb_spec i n); [|lia]. f_equal. apply IH. lia.
Qed.

Lemma filterIndexFrom_none {A : Type} (n : Z) (l : list A) :
  forall i, n <= i -> filterIndexFrom (fun index => Z.ltb index n) i l = [].
Proof.
  induction l as [|x l IH]; intros i Hi; simpl; [reflexivity|].
  destruct (Z.ltb_spec i n); [lia|]. apply IH. lia.
Qed.

Lemma filterIndexFrom_app {A : Type} (f : Z -> bool) (l r : list A) :
  forall i,
    filterIndexFrom f i (l ++ r)
    = filterIndexFrom f i l ++ filterIndexFrom f (i + Z.of_nat (List.length l)) r.
Proof.
  induction l as [|x l IH]; intros i.
  - simpl. now rewrite Z.add_0_r.
  - change (filterIndexFrom f i ((x :: l) ++ r))
      with (if f i then x :: filterIndexFrom f (i + 1) (l ++ r)
            else filterIndexFrom f (i + 1) (l ++ r)).
    change (filterIndexFrom f i (x :: l))
      with (if f i then x :: filterIndexFrom f (i + 1) l
            else filterIndexFrom f (i + 1) l).
    rewrite IH.
    change (List.length (x :: l)) with (S (List.length l)).
    replace (i + 1 + Z.of_nat (List.length l))
      with (i + Z.of_nat (S (List.length l))) by lia.
    now destruct (f i).
Qed.

Lemma filterIndex_prefix {A : Type} (l r : list A) :
  filterIndex (fun index => Z.ltb index (Z.of_nat (List.length l))) (l ++ r) = l.
Proof.
  unfold filterIndex. rewrite filterIndexFrom_app.
  rewrite filterIndexFrom_all by lia.
  rewrite filterIndexFrom_none by lia.
  apply app_nil_r.
Qed.

(** ** Queue position *)

Lemma filter_filter_and {A : Type} (f g : A -> bool) l :
  filter f (filter g l) = filter (fun x => g x && f x) l.
Proof.
  induction l as [|x l IH]; simpl; [reflexivity|].
  destruct (g x); simpl; [|exact IH].
  destruct (f x); now rewrite IH.
Qed.

Lemma sameRoundWaiting_self candidate :
  c_status candidate = "registered" \/ c_status candidate = "in_queue" ->
  sameRoundWaiting candidate candidate = true.
Proof.
  unfold sameRoundWaiting. rewrite String.eqb_refl.
  intros [-> | ->]; reflexivity.
Qed.

(** The sorted waiting list around the candidate itself. *)
Lemma sorted_waiting_split candidate before after :
  sameRoundWaiting candidate candidate = true ->
  sort byTimestamp
    (filter (sameRoundWaiting candidate) (before ++ candidate :: after))
  = (sort byTimestamp (filter (strictlyEarlier candidate) (before ++ after))
     ++ filter (sameInstant candidate) before)
    ++ candidate
       :: (filter (sameInstant candidate) after
           ++ sort byTimestamp
                (filter (fun y => Z.ltb (c_timestamp candidate) (c_timestamp y))
                   (filter (sameRoundWaiting candidate)
                      (before ++ candidate :: after)))).
Proof.
  intros Hself.
  rewrite (sort_partition byTimestamp c_timestamp (fun _ _ => eq_refl)
             (c_timestamp candidate)) at 1.
  rewrite <- app_assoc. f_equal.
  - f_equal. rewrite filter_filter_and. rewrite !filter_app. simpl.
    rewrite Hself, Z.ltb_irrefl. reflexivity.
  - rewrite filter_filter_and. rewrite filter_app. simpl.
    rewrite Hself, Z.eqb_refl. simpl. rewrite <- app_assoc. reflexivity.
Qed.

(** C2, as the effect computes it.  For a candidate of the collection
    whose status is registered or in_queue and whose e-mail no other
    waiting candidate of its round shares, the queue position is 1 plus
    the number of same-round waiting candidates registered strictly
    earlier, plus the number of those registered at the same instant that
    precede it in the collection; the candidates ahead are the strictly
    earlier ones in ascending (stable) timestamp order, followed by the
    same-instant ones that precede it, in collection order. *)
Theorem queue_position_stable :
  forall candidate before after st,
    c_status candidate = "registered" \/ c_status candidate = "in_queue" ->
    (forall c, In c (before ++ after) ->
               sameRoundWaiting candidate c = true ->
               c_email c <> c_email candidate) ->
    let q := queueEffect (Some candidate) (before ++ candidate :: after) st in
    queuePosition q
    = 1 + Z.of_nat (List.length
                      (filter (strictlyEarlier candidate) (before ++ after)))
      + Z.of_nat (List.length (filter (sameInstant candidate) before))
    /\ candidatesAhead q
       = sort byTimestamp (filter (strictlyEarlier candidate) (before ++ after))
         ++ filter (sameInstant candidate) before.
Proof.
  intros candidate before after st Hstatus Hemail.
  pose proof (sameRoundWaiting_self candidate Hstatus) as Hself.
  unfold queueEffect.
  replace (Nat.ltb 0 (List.length (before ++ candidate :: after))) with true
    by (symmetry; apply Nat.ltb_lt; rewrite length_app; simpl; lia).
  rewrite (sorted_waiting_split candidate before after Hself).
  set (ahead := sort byTimestamp
                  (filter (strictlyEarlier candidate) (before ++ after))
                ++ filter (sameInstant candidate) before).
  set (behind := filter (sameInstant candidate) after ++ _).
  assert (Hahead : Forall (fun y => String.eqb (c_email y) (c_email candidate)
                                    = false) ahead).
  { assert (Hall : forall (f : Candidate -> bool) l,
               (forall y, f y = true -> sameRoundWaiting candidate y = true) ->
               incl l (before ++ after) ->
               Forall (fun y => String.eqb (c_email y) (c_email candidate) = false)
                 (filter f l)).
    { intros f l Hf Hincl. apply Forall_forall. intros y Hy.
      apply filter_In in Hy. destruct Hy as [Hy Hfy].
      apply String.eqb_neq. apply Hemail; auto. }
    unfold ahead. apply Forall_app. split.
    - apply sort_Forall. apply Hall; [|apply incl_refl].
      unfold strictlyEarlier. intros y Hy.
      now apply andb_true_iff in Hy.
    - apply Hall; [|apply incl_appl, incl_refl].
      unfold sameInstant. intros y Hy. now apply andb_true_iff in Hy. }
  rewrite (findIndex_app_first _ ahead candidate behind Hahead)
    by apply String.eqb_refl.
  cbn [queuePosition candidatesAhead]. split.
  - replace (Z.eqb (Z.of_nat (List.length ahead)) (-1)) with false
      by (symmetry; apply Z.eqb_neq; lia).
    simpl negb. cbv iota. unfold ahead.
    rewrite length_app, (sort_length byTimestamp). lia.
  - apply filterIndex_prefix.
Qed.

Lemma queue_position_stable_witness :
  let q := queueEffect (Some queueC) ([queueA; queueB] ++ queueC :: [])
             initialQueueState in
  queuePosition q = 3 /\ candidatesAhead q = [queueB; queueA].
Proof.
  apply (queue_position_stable queueC [queueA; queueB] [] initialQueueState).
  - right. reflexivity.
  - intros c [<-|[<-|[]]] _; discriminate.
Defined.

(** C2 as stated fails: with two waiting candidates registered at the same
    instant, the later one in the collection is behind the earlier one,
    so its position is one more than the strictly-earlier count and the
    candidates ahead include one that is not strictly earlier. *)
Lemma queue_position_counts_ties :
  ~ (forall candidate allCandidates st,
       In candidate allCandidates ->
       let q := queueEffect (Some candidate) allCandidates st in
       queuePosition q = specifiedPosition candidate allCandidates
       /\ candidatesAhead q
          = sort byTimestamp (filter (strictlyEarlier candidate) allCandidates)).
Proof.
  intros H.
  destruct (H queueC [queueA; queueB; queueC] initialQueueState) as [Hpos _].
  - simpl. tauto.
  - vm_compute in Hpos. discriminate Hpos.
Qed.

(** ** Serial numbers *)

Lemma zeros_append_length n s :
  String.length (zeros n ++ s) = (n + String.length s)%nat.
Proof. induction n as [|n IH]; simpl; [reflexivity | now rewrite IH]. Qed.

Lemma padStart_length n s : (n <= String.length (padStart n s))%nat.
Proof. unfold padStart. rewrite zeros_append_length. lia. Qed.

Lemma parseDecimal_zeros n s : parseDecimal (zeros n ++ s) = parseDecimal s.
Proof.
  unfold parseDecimal. induction n as [|n IH]; simpl; [reflexivity|].
  destruct (NilEmpty.uint_of_string (zeros n ++ s)) as [d|];
    destruct (NilEmpty.uint_of_string s) as [d'|]; simpl in *;
    try discriminate; try reflexivity.
  injection IH as IH. f_equal. exact IH.
Qed.

Lemma parseDecimal_toString n : parseDecimal (toString n) = Some n.
Proof.
  unfold parseDecimal, toString. rewrite NilEmpty.usu. simpl.
  now rewrite DecimalNat.Unsigned.of_to.
Qed.

Lemma parseDecimal_padStart k n : parseDecimal (padStart k (toString n)) = Some n.
Proof. unfold padStart. now rewrite parseDecimal_zeros, parseDecimal_toString. Qed.

Lemma serialDigits_serialNoFor count :
  serialDigits (serialNoFor count) = padStart 3 (toString (count + 1)).
Proof. reflexivity. Qed.

Lemma serialNoFor_inj a b : serialNoFor a = serialNoFor b -> a = b.
Proof.
  intros H. apply (f_equal serialDigits) in H.
  rewrite !serialDigits_serialNoFor in H.
  apply (f_equal parseDecimal) in H.
  rewrite !parseDecimal_padStart in H. injection H as H. lia.
Qed.

(** ** Candidates along a run of requests *)

Lemma map_values_length {V : Type} (m : JsMap V) :
  List.length (map_values m) = List.length m.
Proof. apply length_map. Qed.

Lemma fresh_not_has s :
  candidateIdsFresh s -> map_has (candidates s) (candidateCurrentId s) = false.
Proof.
  intros Hfresh. unfold map_has.
  destruct (map_get (candidates s) (candidateCurrentId s)) eqn:E; [|reflexivity].
  apply map_get_In in E. apply (in_map fst) in E. simpl in E.
  apply Hfresh in E. lia.
Qed.

Lemma createCandidate_count s d :
  candidateIdsFresh s ->
  candidateIdsFresh (fst (createCandidate s d))
  /\ List.length (candidates (fst (createCandidate s d)))
     = S (List.length (candidates s)).
Proof.
  intros Hfresh. pose proof (fresh_not_has s Hfresh) as Hhas.
  unfold createCandidate; simpl. split.
  - unfold candidateIdsFresh; simpl. intros id.
    rewrite map_keys_set, Hhas. rewrite in_app_iff. simpl.
    intros [Hin|[<-|[]]]; [apply Hfresh in Hin|]; lia.
  - now rewrite map_set_length, Hhas.
Qed.

Lemma updateCandidate_count s id p :
  candidateIdsFresh s ->
  candidateIdsFresh (fst (updateCandidate s id p))
  /\ List.length (candidates (fst (updateCandidate s id p)))
     = List.length (candidates s).
Proof.
  intros Hfresh. unfold updateCandidate.
  destruct (map_get (candidates s) id) eqn:E; simpl; [|now split].
  assert (Hhas : map_has (candidates s) id = true) by (unfold map_has; now rewrite E).
  split.
  - unfold candidateIdsFresh; simpl. intros k.
    rewrite map_keys_set, Hhas. apply Hfresh.
  - now rewrite map_set_length, Hhas.
Qed.

Lemma sameCandidates_refl s : sameCandidates s s.
Proof. now split. Qed.

Lemma sameCandidates_trans s1 s2 s3 :
  sameCandidates s1 s2 -> sameCandidates s2 s3 -> sameCandidates s1 s3.
Proof. intros [H1 H2] [H3 H4]. split; congruence. Qed.

Lemma updatePanel_sameCandidates s id p :
  sameCandidates s (fst (updatePanel s id p)).
Proof. unfold updatePanel. destruct (map_get _ _); now split. Qed.

Lemma removePanelFromRoom_sameCandidates s roomId panelId :
  sameCandidates s (fst (removePanelFromRoom s roomId panelId)).
Proof.
  unfold removePanelFromRoom.
  destruct (map_get (rooms s) roomId); [|apply sameCandidates_refl].
  destruct (negb _); [apply sameCandidates_refl|]. cbn [fst].
  match goal with
  | |- sameCandidates s (match ?x with _ => _ end) => destruct x
  end; [|now split].
  destruct (String.eqb _ _); [|now split].
  eapply sameCandidates_trans; [|apply updatePanel_sameCandidates]. now split.
Qed.

Lemma assignPanelToRoom_sameCandidates s roomId panelId :
  sameCandidates s (fst (assignPanelToRoom s roomId panelId)).
Proof.
  unfold assignPanelToRoom.
  destruct (map_get (rooms s) roomId); [|apply sameCandidates_refl].
  destruct (map_get (panels s) panelId); [|apply sameCandidates_refl].
  destruct (includes _ _); [apply sameCandidates_refl|].
  match goal with
  | |- context [updatePanel ?s0 ?i ?q] =>
      pose proof (updatePanel_sameCandidates s0 i q) as H;
      destruct (updatePanel s0 i q)
  end.
  cbn [fst] in *. eapply sameCandidates_trans; [|exact H]. now split.
Qed.

Lemma detach_sameCandidates panelId l :
  forall s, sameCandidates s (fold_left (detachFrom panelId) l s).
Proof.
  induction l as [|room l IH]; intros s; simpl; [apply sameCandidates_refl|].
  eapply sameCandidates_trans; [|apply IH].
  apply removePanelFromRoom_sameCandidates.
Qed.

Lemma postAssignPanel_sameCandidates s roomId panelId :
  sameCandidates s (fst (postAssignPanel s roomId panelId)).
Proof.
  unfold postAssignPanel.
  set (s1 := fold_left _ _ s).
  assert (H1 : sameCandidates s s1) by apply detach_sameCandidates.
  set (s2 := match getPanel s1 panelId with Some _ => _ | None => s1 end).
  assert (H2 : sameCandidates s1 s2).
  { unfold s2. destruct (getPanel s1 panelId); [|apply sameCandidates_refl].
    destruct (getRoom s1 roomId); [|apply sameCandidates_refl].
    apply updatePanel_sameCandidates. }
  pose proof (assignPanelToRoom_sameCandidates s2 roomId panelId) as H3.
  destruct (assignPanelToRoom s2 roomId panelId) as [s3 [r|]]; cbn [fst] in *;
    eapply sameCandidates_trans; eauto using sameCandidates_trans.
Qed.

Lemma postRemovePanel_sameCandidates s roomId panelId :
  sameCandidates s (fst (postRemovePanel s roomId panelId)).
Proof.
  unfold postRemovePanel.
  set (s1 := match getPanel s panelId with Some _ => _ | None => s end).
  assert (H1 : sameCandidates s s1).
  { unfold s1. destruct (getPanel s panelId); [|apply sameCandidates_refl].
    apply updatePanel_sameCandidates. }
  pose proof (removePanelFromRoom_sameCandidates s1 roomId panelId) as H2.
  destruct (removePanelFromRoom s1 roomId panelId) as [s2 [r|]]; cbn [fst] in *;
    eapply sameCandidates_trans; eauto.
Qed.

Lemma sameCandidates_count s s' :
  sameCandidates s s' ->
  candidateIdsFresh s ->
  candidateIdsFresh s'
  /\ (List.length (candidates s) <= List.length (candidates s'))%nat.
Proof.
  intros [Hc Hn] Hfresh. unfold candidateIdsFresh. rewrite Hc, Hn.
  split; [exact Hfresh | lia].
Qed.

Lemma syncOne_count now s candidateData :
  candidateIdsFresh s ->
  candidateIdsFresh (syncOne now s candidateData)
  /\ (List.length (candidates s)
      <= List.length (candidates (syncOne now s candidateData)))%nat.
Proof.
  intros Hfresh. unfold syncOne.
  destruct (getCandidateByEmail s (sc_email candidateData)).
  - destruct (updateCandidate_count s (c_id c)
                (mkPartialCandidate None None (Some (sc_name candidateData)) None
                   (Some (sc_position candidateData)) None
                   (ifTruthy (sc_status candidateData))
                   (ifTruthy (sc_currentRound candidateData)) None None None)
                Hfresh) as [H1 H2].
    split; [exact H1 | lia].
  - match goal with
    | |- context [createCandidate s ?d] =>
        destruct (createCandidate_count s d Hfresh) as [H1 H2]
    end.
    split; [exact H1 | lia].
Qed.

Lemma sync_count now l :
  forall s,
    candidateIdsFresh s ->
    candidateIdsFresh (fold_left (syncOne now) l s)
    /\ (List.length (candidates s)
        <= List.length (candidates (fold_left (syncOne now) l s)))%nat.
Proof.
  induction l as [|x l IH]; intros s Hfresh; simpl; [split; [assumption|lia]|].
  destruct (syncOne_count now s x Hfresh) as [H1 H2].
  destruct (IH _ H1) as [H3 H4]. split; [exact H3 | lia].
Qed.

Lemma handle_count now req s :
  candidateIdsFresh s ->
  candidateIdsFresh (handle now req s)
  /\ (List.length (candidates s)
      <= List.length (candidates (handle now req s)))%nat.
Proof.
  intros Hfresh.
  assert (Hsame : forall s', sameCandidates s s' ->
            candidateIdsFresh s'
            /\ (List.length (candidates s) <= List.length (candidates s'))%nat).
  { intros s' H. now apply sameCandidates_count. }
  destruct req; cbn [handle].
  - destruct (createCandidate_count s d Hfresh) as [H1 H2].
    unfold postCandidate. destruct (createCandidate s d); cbn [fst] in *.
    split; [exact H1 | lia].
  - destruct (updateCandidate_count s id p Hfresh) as [H1 H2].
    unfold patchCandidate.
    destruct (updateCandidate s id p) as [s' [c|]]; cbn [fst] in *;
      (split; [exact H1 | lia]).
  - apply Hsame. unfold postPanel, createPanel. now split.
  - apply Hsame. unfold patchPanel.
    pose proof (updatePanel_sameCandidates s id p) as H.
    destruct (updatePanel s id p) as [s' [c|]]; exact H.
  - rewrite postFeedback_store.
    destruct (insertFeedbackSchema_parse body) as [d|];
      [|split; [exact Hfresh | lia]].
    unfold recordFeedback.
    assert (H1 : sameCandidates s (fst (createFeedback s d))) by now split.
    destruct (createFeedback s d) as [s1 newFeedback]; cbn [fst] in *.
    destruct (sameCandidates_count _ _ H1 Hfresh) as [Hf1 Hl1].
    destruct (getCandidate s1 (if_candidateId d)); cbn [fst];
      [|split; [exact Hf1 | lia]].
    match goal with
    | |- context [match ?e with pair _ _ => _ end] =>
        destruct e as [status currentRound]
    end.
    destruct (updateCandidate_count s1 (c_id c)
                (feedbackUpdates status currentRound) Hf1) as [H2 H3].
    split; [exact H2 | lia].
  - unfold postWebhook.
    match goal with
    | |- context [createCandidate s ?d] =>
        destruct (createCandidate_count s d Hfresh) as [H1 H2];
        destruct (createCandidate s d)
    end.
    cbn [fst] in *. split; [exact H1 | lia].
  - unfold postControl.
    destruct (String.eqb (cb_action b) "sync").
    + destruct (cb_candidates b); cbn [fst];
        [apply sync_count; exact Hfresh | split; [exact Hfresh | lia]].
    + destruct (String.eqb (cb_action b) "init"); cbn [fst];
        (split; [exact Hfresh | lia]).
  - unfold postManual.
    destruct (missing (mb_name b) || missing (mb_email b)
              || missing (mb_position b)); cbn [fst];
      [split; [exact Hfresh | lia]|].
    match goal with
    | |- context [createCandidate s ?d] =>
        destruct (createCandidate_count s d Hfresh) as [H1 H2];
        destruct (createCandidate s d)
    end.
    cbn [fst] in *. split; [exact H1 | lia].
  - apply Hsame. unfold postRoom, createRoom. now split.
  - apply Hsame. unfold patchRoom, updateRoom. destruct (map_get _ _); now split.
  - apply Hsame. apply postAssignPanel_sameCandidates.
  - apply Hsame. apply postRemovePanel_sameCandidates.
  - apply Hsame. unfold postCandidateFeedback, createCandidateFeedback. now split.
  - apply Hsame. unfold postUser, createUser. now split.
  - apply Hsame. unfold patchUser, updateUser. destruct (map_get _ _); now split.
  - apply Hsame. unfold deleteUserRoute, deleteUser, map_delete.
    destruct (map_has _ _); now split.
  - apply Hsame. unfold postRolePermission, createRolePermission. now split.
  - apply Hsame. unfold patchRolePermission, updateRolePermission.
    destruct (map_get _ _); now split.
  - apply Hsame. unfold deleteRolePermissionRoute, deleteRolePermission, map_delete.
    destruct (map_has _ _); now split.
Qed.

Lemma registeredSerial_shape now req s :
  candidateIdsFresh s ->
  registeredSerial now req s = []
  \/ (registeredSerial now req s = [serialNoFor (List.length (candidates s))]
      /\ (List.length (candidates s)
          < List.length (candidates (handle now req s)))%nat).
Proof.
  intros Hfresh. destruct req; cbn [registeredSerial]; try (now left).
  - right. cbn [handle]. unfold postWebhook.
    match goal with
    | |- context [createCandidate s ?d] =>
        destruct (createCandidate_count s d Hfresh) as [H1 H2]
    end.
    unfold getCandidates in *. rewrite map_values_length in *.
    split; [reflexivity|].
    match goal with
    | |- context [createCandidate s ?d] => destruct (createCandidate s d)
    end.
    cbn [fst] in *. lia.
  - cbn [handle]. unfold postManual.
    destruct (missing (mb_name b) || missing (mb_email b)
              || missing (mb_position b)); [now left|].
    right.
    match goal with
    | |- context [createCandidate s ?d] =>
        destruct (createCandidate_count s d Hfresh) as [H1 H2]
    end.
    unfold getCandidates in *. rewrite map_values_length in *.
    split; [reflexivity|].
    match goal with
    | |- context [createCandidate s ?d] => destruct (createCandidate s d)
    end.
    cbn [fst] in *. lia.
Qed.

Lemma registeredSerials_lower reqs :
  forall s serialNo,
    candidateIdsFresh s ->
    In serialNo (registeredSerials reqs s) ->
    exists n, serialNo = serialNoFor n /\ (List.length (candidates s) <= n)%nat.
Proof.
  induction reqs as [|[now req] rest IH]; intros s serialNo Hfresh Hin;
    simpl in Hin; [contradiction|].
  destruct (handle_count now req s Hfresh) as [Hf' Hle].
  apply in_app_or in Hin. destruct Hin as [Hin|Hin].
  - destruct (registeredSerial_shape now req s Hfresh) as [E|[E _]];
      rewrite E in Hin; simpl in Hin; [contradiction|].
    destruct Hin as [<-|[]]. eexists; split; [reflexivity | lia].
  - destruct (IH _ _ Hf' Hin) as (n & -> & Hn).
    exists n. split; [reflexivity | lia].
Qed.

Lemma registeredSerials_NoDup reqs :
  forall s, candidateIdsFresh s -> NoDup (registeredSerials reqs s).
Proof.
  induction reqs as [|[now req] rest IH]; intros s Hfresh; simpl;
    [constructor|].
  destruct (handle_count now req s Hfresh) as [Hf' Hle].
  destruct (registeredSerial_shape now req s Hfresh) as [E|[E Hlt]];
    rewrite E; simpl; [now apply IH|].
  constructor; [|now apply IH].
  intros Hin.
  destruct (registeredSerials_lower rest _ _ Hf' Hin) as (n & Heq & Hn).
  apply serialNoFor_inj in Heq. lia.
Qed.

Lemma newMemStorage_fresh now : candidateIdsFresh (newMemStorage now).
Proof. intros id Hin. cbn in Hin. contradiction. Qed.

Lemma serve_fresh reqs :
  forall s, candidateIdsFresh s -> candidateIdsFresh (serve reqs s).
Proof.
  induction reqs as [|[now req] rest IH]; intros s Hfresh; [exact Hfresh|].
  cbn [serve]. apply IH. now apply handle_count.
Qed.

Lemma registeredWith_created s name email position timestamp :
  registeredWith (List.length (getCandidates s))
    (snd (createCandidate s
            (registeredCandidate (serialNoFor (List.length (getCandidates s)))
               name email position timestamp "registered" "gd"
               (qrCodeUrlFor (serialNoFor (List.length (getCandidates s))))))).
Proof.
  unfold registeredWith. cbn [createCandidate snd registeredCandidate c_serialNo
    c_qrCodeUrl c_status c_currentRound ic_serialNo ic_qrCodeUrl ic_status
    ic_currentRound orNull].
  repeat apply conj; try reflexivity.
  - rewrite serialDigits_serialNoFor. apply padStart_length.
  - rewrite serialDigits_serialNoFor. apply parseDecimal_padStart.
Qed.

(** C8.  The webhook, and manual creation when name, e-mail and position
    are given, answer 201 with a new stored candidate whose serial number
    is "WD-" followed by the candidate count plus one, zero-padded to at
    least three digits, whose QR-code URL is built from that serial
    number, whose status is "registered" and whose round is "gd".  Along
    any sequence of requests, from a store whose candidate keys are below
    the candidate counter, and so from every store that a fresh server
    can reach, the serial numbers handed out by these two handlers are
    pairwise distinct. *)
Theorem registration_serials :
  (forall s body,
     exists c,
       snd (postWebhook s body) = Json 201 c
       /\ getCandidate (fst (postWebhook s body)) (c_id c) = Some c
       /\ registeredWith (List.length (getCandidates s)) c)
  /\ (forall now s body,
        missing (mb_name body) = false ->
        missing (mb_email body) = false ->
        missing (mb_position body) = false ->
        exists c,
          snd (postManual now s body) = Json 201 c
          /\ getCandidate (fst (postManual now s body)) (c_id c) = Some c
          /\ registeredWith (List.length (getCandidates s)) c)
  /\ (forall s reqs,
        candidateIdsFresh s -> NoDup (registeredSerials reqs s))
  /\ (forall now earlier reqs,
        NoDup (registeredSerials reqs (serve earlier (newMemStorage now)))).
Proof.
  repeat apply conj.
  - intros s body. unfold postWebhook.
    pose proof (registeredWith_created s (wb_name body) (wb_email body)
                  (wb_position body) (wb_timestamp body)) as Hreg.
    destruct (createCandidate s _) as [s' c] eqn:Hc.
    exists c. cbn [fst snd] in *. split; [reflexivity|]. split; [|exact Hreg].
    unfold createCandidate in Hc. injection Hc as <- <-.
    unfold getCandidate. cbn. apply map_get_set_eq.
  - intros now s body Hn He Hp. unfold postManual. rewrite Hn, He, Hp.
    cbn [orb].
    pose proof (registeredWith_created s (nullish (mb_name body) EmptyString)
                  (nullish (mb_email body) EmptyString)
                  (nullish (mb_position body) EmptyString) now) as Hreg.
    destruct (createCandidate s _) as [s' c] eqn:Hc.
    exists c. cbn [fst snd] in *. split; [reflexivity|]. split; [|exact Hreg].
    unfold createCandidate in Hc. injection Hc as <- <-.
    unfold getCandidate. cbn. apply map_get_set_eq.
  - intros s reqs Hfresh. now apply registeredSerials_NoDup.
  - intros now earlier reqs. apply registeredSerials_NoDup.
    apply serve_fresh, newMemStorage_fresh.
Qed.

Lemma registration_serials_witness :
  NoDup (registeredSerials twoRegistrations (newMemStorage 0)).
Proof.
  apply (proj1 (proj2 (proj2 registration_serials)) (newMemStorage 0)
           twoRegistrations).
  intros id Hin. vm_compute in Hin. contradiction.
Defined.

(** ** Rooms under the assignment methods *)

Lemma includes_In l x : includes l x = true <-> In x l.
Proof.
  unfold includes. rewrite existsb_exists. split.
  - intros (y & Hy & E). apply Z.eqb_eq in E. now subst.
  - intros H. exists x. split; [exact H | apply Z.eqb_refl].
Qed.

Lemma includes_not_In l x : includes l x = false <-> ~ In x l.
Proof.
  rewrite <- includes_In. destruct (includes l x); split; congruence.
Qed.

Lemma filter_out_In panelId l x :
  In x (filter (fun id => negb (Z.eqb id panelId)) l) <-> In x l /\ x <> panelId.
Proof.
  rewrite filter_In. rewrite negb_true_iff, Z.eqb_neq. tauto.
Qed.

Lemma detached_id panelId room : r_id (detached panelId room) = r_id room.
Proof. unfold detached. now destruct (includes _ _). Qed.

Lemma detached_panels panelId room :
  panelsOf (detached panelId room)
  = filter (fun id => negb (Z.eqb id panelId)) (panelsOf room).
Proof.
  unfold detached. destruct (includes (panelsOf room) panelId) eqn:E.
  - reflexivity.
  - symmetry. apply forallb_filter_id. apply forallb_forall. intros x Hx.
    apply negb_true_iff, Z.eqb_neq. intros ->.
    apply includes_not_In in E. contradiction.
Qed.

Lemma detached_not_In panelId room : ~ In panelId (panelsOf (detached panelId room)).
Proof. rewrite detached_panels, filter_out_In. tauto. Qed.

Lemma detached_idem panelId room :
  detached panelId (detached panelId room) = detached panelId room.
Proof.
  unfold detached at 1.
  replace (includes (panelsOf (detached panelId room)) panelId) with false;
    [reflexivity|].
  symmetry. apply includes_not_In, detached_not_In.
Qed.

Lemma detached_occupancy panelId room :
  occupancyConsistent room -> occupancyConsistent (detached panelId room).
Proof.
  unfold detached. destruct (includes _ _); [|tauto].
  intros _. reflexivity.
Qed.

Lemma updatePanel_rooms s id p : rooms (fst (updatePanel s id p)) = rooms s.
Proof. unfold updatePanel. now destruct (map_get _ _). Qed.

Lemma removePanelFromRoom_rooms s roomId panelId :
  rooms (fst (removePanelFromRoom s roomId panelId))
  = match map_get (rooms s) roomId with
    | Some room =>
        if includes (panelsOf room) panelId
        then map_set (rooms s) roomId (detached panelId room)
        else rooms s
    | None => rooms s
    end.
Proof.
  unfold removePanelFromRoom, detached, panelsOf.
  destruct (map_get (rooms s) roomId) as [room|]; [|reflexivity].
  destruct (includes _ _); [|reflexivity]. cbn [negb fst].
  match goal with
  | |- rooms (match ?x with _ => _ end) = _ => destruct x
  end; [|reflexivity].
  destruct (String.eqb _ _); [|reflexivity].
  now rewrite updatePanel_rooms.
Qed.

Lemma removePanelFromRoom_getRoom s roomId panelId id :
  getRoom (fst (removePanelFromRoom s roomId panelId)) id
  = if Z.eqb roomId id then option_map (detached panelId) (getRoom s id)
    else getRoom s id.
Proof.
  unfold getRoom. rewrite removePanelFromRoom_rooms.
  destruct (Z.eqb_spec roomId id) as [->|Hne].
  - destruct (map_get (rooms s) id) as [room|] eqn:E; [|exact E].
    cbn [option_map].
    destruct (includes (panelsOf room) panelId) eqn:Hin.
    + apply map_get_set_eq.
    + rewrite E. unfold detached. now rewrite Hin.
  - destruct (map_get (rooms s) roomId) as [room|]; [|reflexivity].
    destruct (includes _ _); [|reflexivity].
    now apply map_get_set_neq.
Qed.

Lemma map_set_keys_present {V : Type} (m : JsMap V) k v v' :
  map_get m k = Some v' -> map_keys (map_set m k v) = map_keys m.
Proof.
  intros H. rewrite map_keys_set. unfold map_has. now rewrite H.
Qed.

Lemma removePanelFromRoom_keys s roomId panelId :
  map_keys (rooms (fst (removePanelFromRoom s roomId panelId)))
  = map_keys (rooms s).
Proof.
  rewrite removePanelFromRoom_rooms.
  destruct (map_get (rooms s) roomId) as [room|] eqn:E; [|reflexivity].
  destruct (includes _ _); [|reflexivity].
  eapply map_set_keys_present; eassumption.
Qed.

Lemma detach_getRoom panelId l :
  forall s id,
    getRoom (fold_left (detachFrom panelId) l s) id
    = if visits l id then option_map (detached panelId) (getRoom s id)
      else getRoom s id.
Proof.
  induction l as [|room l IH]; intros s id; [reflexivity|].
  cbn [fold_left visits existsb]. rewrite IH.
  change (detachFrom panelId s room)
    with (fst (removePanelFromRoom s (r_id room) panelId)).
  rewrite removePanelFromRoom_getRoom.
  destruct (Z.eqb (r_id room) id); cbn [orb].
  - destruct (visits l id); [|reflexivity].
    destruct (getRoom s id); cbn [option_map]; [|reflexivity].
    now rewrite detached_idem.
  - reflexivity.
Qed.

Lemma detach_keys panelId l :
  forall s,
    map_keys (rooms (fold_left (detachFrom panelId) l s)) = map_keys (rooms s).
Proof.
  induction l as [|room l IH]; intros s; [reflexivity|].
  cbn [fold_left]. rewrite IH. unfold detachFrom.
  apply removePanelFromRoom_keys.
Qed.

Lemma assignPanelToRoom_rooms s roomId panelId :
  rooms (fst (assignPanelToRoom s roomId panelId))
  = match getRoom s roomId, getPanel s panelId with
    | Some room, Some _ =>
        if includes (panelsOf room) panelId then rooms s
        else map_set (rooms s) roomId
               (withAssignment room (panelsOf room ++ [panelId]) true)
    | _, _ => rooms s
    end.
Proof.
  unfold assignPanelToRoom, getRoom, getPanel, panelsOf.
  destruct (map_get (rooms s) roomId) as [room|]; [|reflexivity].
  destruct (map_get (panels s) panelId) as [panel|]; [|reflexivity].
  destruct (includes _ _); [reflexivity|].
  match goal with
  | |- context [updatePanel ?s0 ?i ?q] =>
      pose proof (updatePanel_rooms s0 i q) as H;
      destruct (updatePanel s0 i q)
  end.
  exact H.
Qed.

Lemma updatePanel_present s id p k :
  present (getPanel (fst (updatePanel s id p)) k) = present (getPanel s k).
Proof.
  unfold updatePanel, getPanel.
  destruct (map_get (panels s) id) eqn:E; [|reflexivity].
  cbn [fst panels with_panels]. rewrite map_get_set.
  destruct (Z.eqb_spec id k) as [<-|]; [now rewrite E | reflexivity].
Qed.

Lemma removePanelFromRoom_present s roomId panelId k :
  present (getPanel (fst (removePanelFromRoom s roomId panelId)) k)
  = present (getPanel s k).
Proof.
  unfold removePanelFromRoom.
  destruct (map_get (rooms s) roomId); [|reflexivity].
  destruct (negb _); [reflexivity|]. cbn [fst].
  match goal with
  | |- present (getPanel (match ?x with _ => _ end) k) = _ => destruct x
  end; [|reflexivity].
  destruct (String.eqb _ _); [|reflexivity].
  now rewrite updatePanel_present.
Qed.

Lemma detach_present panelId l :
  forall s k,
    present (getPanel (fold_left (detachFrom panelId) l s) k)
    = present (getPanel s k).
Proof.
  induction l as [|room l IH]; intros s k; [reflexivity|].
  cbn [fold_left]. rewrite IH. apply removePanelFromRoom_present.
Qed.

Lemma visits_target s roomId panelId :
  visits (panelAssignedRooms s roomId panelId) roomId = false.
Proof.
  unfold visits, panelAssignedRooms.
  destruct (existsb _ _) eqn:E; [|reflexivity].
  apply existsb_exists in E. destruct E as (room & Hin & Hid).
  apply filter_In in Hin. destruct Hin as [_ Hel].
  unfold assignedElsewhere in Hel.
  destruct (r_assignedPanels room); [|discriminate].
  apply andb_true_iff in Hel. destruct Hel as [_ Hne].
  now rewrite Hid in Hne.
Qed.

Lemma visits_listing s roomId panelId id room :
  getRoom s id = Some room -> r_id room = id -> id <> roomId ->
  In panelId (panelsOf room) ->
  visits (panelAssignedRooms s roomId panelId) id = true.
Proof.
  intros Hget Hid Hne Hin. unfold visits, panelAssignedRooms.
  apply existsb_exists. exists room. split; [|rewrite Hid; apply Z.eqb_refl].
  apply filter_In. split; [now apply map_get_value in Hget|].
  unfold assignedElsewhere. unfold panelsOf in Hin.
  destruct (r_assignedPanels room) as [l|]; [|contradiction].
  apply andb_true_iff. split; [now apply includes_In|].
  apply negb_true_iff, Z.eqb_neq. congruence.
Qed.

(** Every room after the assign handler, read from the rooms before it. *)
Lemma postAssignPanel_getRoom s roomId panelId id :
  getRoom (fst (postAssignPanel s roomId panelId)) id
  = let kept :=
      if visits (panelAssignedRooms s roomId panelId) id
      then option_map (detached panelId) (getRoom s id)
      else getRoom s id in
    if Z.eqb roomId id && present (getPanel s panelId)
    then option_map (attached panelId) (getRoom s id)
    else kept.
Proof.
  unfold postAssignPanel. fold (panelAssignedRooms s roomId panelId).
  set (l := panelAssignedRooms s roomId panelId).
  set (s1 := fold_left (detachFrom panelId) l s).
  set (s2 := match getPanel s1 panelId with Some _ => _ | None => s1 end).
  assert (Hrooms : rooms s2 = rooms s1).
  { unfold s2. destruct (getPanel s1 panelId); [|reflexivity].
    destruct (getRoom s1 roomId); [|reflexivity]. apply updatePanel_rooms. }
  assert (Hpanel : present (getPanel s2 panelId) = present (getPanel s panelId)).
  { assert (H1 : present (getPanel s1 panelId) = present (getPanel s panelId))
      by apply detach_present.
    unfold s2. destruct (getPanel s1 panelId) eqn:E1.
    - destruct (getRoom s1 roomId).
      + rewrite updatePanel_present, E1. exact H1.
      + rewrite E1. exact H1.
    - rewrite E1. exact H1. }
  assert (Hget1 : forall k, getRoom s2 k
                            = if visits l k
                              then option_map (detached panelId) (getRoom s k)
                              else getRoom s k).
  { intros k. unfold getRoom at 1. rewrite Hrooms. apply detach_getRoom. }
  assert (Hfst : fst (match assignPanelToRoom s2 roomId panelId with
                      | (s0, None) => (s0, Message 404 "Room or panel not found")
                      | (s0, Some updatedRoom) => (s0, Json 200 updatedRoom)
                      end) = fst (assignPanelToRoom s2 roomId panelId)).
  { now destruct (assignPanelToRoom s2 roomId panelId) as [s0 [r|]]. }
  rewrite Hfst. unfold getRoom at 1. rewrite assignPanelToRoom_rooms.
  pose proof (Hget1 roomId) as HB. unfold l in HB at 1.
  rewrite visits_target in HB. rewrite HB.
  cbv zeta. fold l.
  destruct (Z.eqb_spec roomId id) as [->|Hne]; cbn [andb].
  - destruct (getRoom s id) as [room|] eqn:Eroom.
    + destruct (getPanel s2 panelId) eqn:E2; rewrite <- Hpanel; cbn [present].
      * cbn [option_map]. unfold attached.
        destruct (includes (panelsOf room) panelId).
        -- fold (getRoom s2 id). rewrite HB. reflexivity.
        -- apply map_get_set_eq.
      * fold (getRoom s2 id). rewrite Hget1. unfold l.
        now rewrite visits_target.
    + fold (getRoom s2 id). rewrite HB.
      now destruct (present (getPanel s panelId)), (visits l id).
  - assert (Hkeep : map_get (rooms s2) id
                    = if visits l id
                      then option_map (detached panelId) (getRoom s id)
                      else getRoom s id) by apply Hget1.
    destruct (getRoom s roomId) as [room|]; [|exact Hkeep].
    destruct (getPanel s2 panelId); [|exact Hkeep].
    destruct (includes _ _); [exact Hkeep|].
    rewrite map_get_set_neq by exact Hne. exact Hkeep.
Qed.

(** C4, as the handler implements it.  When room A, stored under its own
    id, lists panel P, and P is assigned to a different existing room B,
    the panel existing too: A's list afterwards is its old list without P,
    A's occupied flag is true iff that list is non-empty, and B lists P.
    If B did not list P before, P is appended to B's list and B's occupied
    flag is true; if B listed P already, B is left exactly as it was. *)
Theorem reassign_panel :
  forall s roomA roomB panelId rA rB panel,
    roomA <> roomB ->
    getRoom s roomA = Some rA ->
    r_id rA = roomA ->
    getRoom s roomB = Some rB ->
    getPanel s panelId = Some panel ->
    In panelId (panelsOf rA) ->
    let s' := fst (postAssignPanel s roomB panelId) in
    exists rA' rB',
      getRoom s' roomA = Some rA'
      /\ getRoom s' roomB = Some rB'
      /\ ~ In panelId (panelsOf rA')
      /\ panelsOf rA' = filter (fun id => negb (Z.eqb id panelId)) (panelsOf rA)
      /\ r_isOccupied rA' = Nat.ltb 0 (List.length (panelsOf rA'))
      /\ In panelId (panelsOf rB')
      /\ (~ In panelId (panelsOf rB) ->
          panelsOf rB' = panelsOf rB ++ [panelId] /\ r_isOccupied rB' = true)
      /\ (In panelId (panelsOf rB) -> rB' = rB).
Proof.
  intros s roomA roomB panelId rA rB panel Hne HA HidA HB HP HinA s'.
  exists (detached panelId rA), (attached panelId rB).
  unfold s'. rewrite !postAssignPanel_getRoom. cbv zeta.
  rewrite HP, HA, HB. cbn [present]. rewrite Z.eqb_refl.
  replace (Z.eqb roomB roomA) with false
    by (symmetry; apply Z.eqb_neq; congruence).
  cbn [andb option_map].
  rewrite (visits_listing s roomB panelId roomA rA HA HidA Hne HinA).
  repeat apply conj; try reflexivity.
  - apply detached_not_In.
  - apply detached_panels.
  - unfold detached. apply includes_In in HinA. now rewrite HinA.
  - unfold attached. destruct (includes (panelsOf rB) panelId) eqn:E.
    + now apply includes_In.
    + unfold panelsOf at 1. cbn. apply in_or_app. right. now left.
  - intros Hnot. apply includes_not_In in Hnot. unfold attached.
    rewrite Hnot. now split.
  - intros Hin. apply includes_In in Hin. unfold attached. now rewrite Hin.
Qed.

Lemma reassign_panel_witness :
  let s' := fst (postAssignPanel (newMemStorage 0) 2 1) in
  exists rA' rB',
    getRoom s' 1 = Some rA'
    /\ getRoom s' 2 = Some rB'
    /\ ~ In 1 (panelsOf rA')
    /\ panelsOf rA' = []
    /\ r_isOccupied rA' = Nat.ltb 0 (List.length (panelsOf rA'))
    /\ In 1 (panelsOf rB')
    /\ (~ In 1 [] -> panelsOf rB' = [1] /\ r_isOccupied rB' = true)
    /\ (In 1 [] -> rB' = room102).
Proof.
  apply (reassign_panel (newMemStorage 0) 1 2 1 room101 room102 panel1).
  - discriminate.
  - reflexivity.
  - reflexivity.
  - reflexivity.
  - reflexivity.
  - simpl. tauto.
Defined.

(** C4 as stated fails: when room B lists the panel already and is marked
    unoccupied, the storage method returns B unchanged, so B's occupied
    flag is still false after the assignment. *)
Lemma reassign_panel_already_listed :
  ~ (forall s roomA roomB panelId rA rB panel,
       roomA <> roomB ->
       getRoom s roomA = Some rA ->
       r_id rA = roomA ->
       getRoom s roomB = Some rB ->
       getPanel s panelId = Some panel ->
       In panelId (panelsOf rA) ->
       let s' := fst (postAssignPanel s roomB panelId) in
       exists rA' rB',
         getRoom s' roomA = Some rA'
         /\ getRoom s' roomB = Some rB'
         /\ ~ In panelId (panelsOf rA')
         /\ r_isOccupied rA' = Nat.ltb 0 (List.length (panelsOf rA'))
         /\ In panelId (panelsOf rB')
         /\ r_isOccupied rB' = true).
Proof.
  intros H.
  assert (HA : getRoom listedTwice 1 = Some room101) by (vm_compute; reflexivity).
  assert (HB : getRoom listedTwice 2
               = Some (mkRoom 2 "102" 3 "1st" "HR" false (Some [1])))
    by (vm_compute; reflexivity).
  assert (HP : getPanel listedTwice 1 = Some panel1) by (vm_compute; reflexivity).
  destruct (H listedTwice 1 2 1 _ _ _ ltac:(discriminate) HA eq_refl HB HP
              ltac:(simpl; tauto))
    as (rA' & rB' & _ & HB' & _ & _ & _ & Hocc).
  vm_compute in HB'. injection HB' as <-. discriminate Hocc.
Qed.

(** ** The room invariant *)

Lemma attached_id panelId room : r_id (attached panelId room) = r_id room.
Proof. unfold attached. now destruct (includes _ _). Qed.

Lemma attached_occupancy panelId room :
  occupancyConsistent room -> occupancyConsistent (attached panelId room).
Proof.
  unfold attached. destruct (includes _ _); [tauto|].
  intros _. unfold occupancyConsistent.
  change (panelsOf (withAssignment room (panelsOf room ++ [panelId]) true))
    with (panelsOf room ++ [panelId]).
  change (r_isOccupied (withAssignment room (panelsOf room ++ [panelId]) true))
    with true.
  symmetry. apply Nat.ltb_lt. rewrite length_app. simpl. lia.
Qed.

Lemma attached_panels panelId room x :
  In x (panelsOf (attached panelId room)) -> x <> panelId -> In x (panelsOf room).
Proof.
  unfold attached. destruct (includes _ _); [tauto|].
  unfold panelsOf at 1. cbn. intros Hin Hne.
  apply in_app_or in Hin. destruct Hin as [Hin|[<-|[]]]; [exact Hin | congruence].
Qed.

Lemma detached_panels_In panelId room x :
  In x (panelsOf (detached panelId room)) -> In x (panelsOf room).
Proof. rewrite detached_panels, filter_out_In. tauto. Qed.

Lemma roomInvariant_rooms s s' :
  rooms s' = rooms s -> roomInvariant s -> roomInvariant s'.
Proof.
  unfold roomInvariant, roomsWellFormed, panelsExclusive, getRoom.
  now intros ->.
Qed.

Lemma postAssignPanel_keys s roomId panelId :
  map_keys (rooms (fst (postAssignPanel s roomId panelId))) = map_keys (rooms s).
Proof.
  unfold postAssignPanel. fold (panelAssignedRooms s roomId panelId).
  set (l := panelAssignedRooms s roomId panelId).
  set (s1 := fold_left (detachFrom panelId) l s).
  set (s2 := match getPanel s1 panelId with Some _ => _ | None => s1 end).
  assert (Hrooms : rooms s2 = rooms s1).
  { unfold s2. destruct (getPanel s1 panelId); [|reflexivity].
    destruct (getRoom s1 roomId); [|reflexivity]. apply updatePanel_rooms. }
  assert (Hkeys : map_keys (rooms s2) = map_keys (rooms s)).
  { rewrite Hrooms. apply detach_keys. }
  replace (fst (match assignPanelToRoom s2 roomId panelId with
                | (s0, None) => (s0, Message 404 "Room or panel not found")
                | (s0, Some updatedRoom) => (s0, Json 200 updatedRoom)
                end))
    with (fst (assignPanelToRoom s2 roomId panelId))
    by now destruct (assignPanelToRoom s2 roomId panelId) as [s0 [r|]].
  rewrite assignPanelToRoom_rooms.
  destruct (getRoom s2 roomId) as [room|] eqn:E; [|exact Hkeys].
  destruct (getPanel s2 panelId); [|exact Hkeys].
  destruct (includes _ _); [exact Hkeys|].
  rewrite <- Hkeys. eapply map_set_keys_present. exact E.
Qed.

(** After the assign handler only the target room can list the panel. *)
Lemma postAssignPanel_only_target s roomId panelId id room' :
  roomsWellFormed s ->
  getRoom (fst (postAssignPanel s roomId panelId)) id = Some room' ->
  In panelId (panelsOf room') ->
  id = roomId.
Proof.
  intros [_ Hid] Hget Hin.
  destruct (Z.eq_dec id roomId) as [|Hne]; [assumption|exfalso].
  rewrite postAssignPanel_getRoom in Hget. cbv zeta in Hget.
  replace (Z.eqb roomId id) with false in Hget
    by (symmetry; apply Z.eqb_neq; congruence).
  cbn [andb] in Hget.
  destruct (visits (panelAssignedRooms s roomId panelId) id) eqn:Ev.
  - destruct (getRoom s id) as [room|]; [|discriminate].
    injection Hget as <-. now apply detached_not_In in Hin.
  - rewrite (visits_listing s roomId panelId id room' Hget (Hid _ _ Hget) Hne Hin)
      in Ev.
    discriminate.
Qed.

(** Each room after the assign handler comes from the room stored under
    the same id before it, with the same id and a consistent flag, and
    lists no panel other than [panelId] that the old room did not list. *)
Lemma postAssignPanel_origin s roomId panelId id room' :
  getRoom (fst (postAssignPanel s roomId panelId)) id = Some room' ->
  exists room,
    getRoom s id = Some room
    /\ r_id room' = r_id room
    /\ (occupancyConsistent room -> occupancyConsistent room')
    /\ (forall x, In x (panelsOf room') -> x <> panelId -> In x (panelsOf room)).
Proof.
  rewrite postAssignPanel_getRoom. cbv zeta.
  destruct (getRoom s id) as [room|]; cbn [option_map].
  - intros Hget. exists room. split; [reflexivity|].
    destruct (Z.eqb roomId id && present (getPanel s panelId)).
    + injection Hget as <-. split; [apply attached_id|].
      split; [apply attached_occupancy | apply attached_panels].
    + destruct (visits _ id); injection Hget as <-.
      * split; [apply detached_id|]. split; [apply detached_occupancy|].
        intros x Hx _. now apply detached_panels_In in Hx.
      * repeat split; auto.
  - destruct (Z.eqb roomId id && present (getPanel s panelId));
      [discriminate|].
    now destruct (visits _ id).
Qed.

Lemma postAssignPanel_invariant s roomId panelId :
  roomInvariant s -> roomInvariant (fst (postAssignPanel s roomId panelId)).
Proof.
  intros (Hwf & Hocc & Hex). pose proof Hwf as [Hnd Hid].
  split; [split|split].
  - now rewrite postAssignPanel_keys.
  - intros id room' Hget.
    destruct (postAssignPanel_origin _ _ _ _ _ Hget) as (room & Hr & Hi & _).
    rewrite Hi. now apply Hid.
  - intros id room' Hget.
    destruct (postAssignPanel_origin _ _ _ _ _ Hget) as (room & Hr & _ & Ho & _).
    apply Ho. eapply Hocc. exact Hr.
  - intros id1 id2 room1 room2 x H1 H2 Hin1 Hin2.
    destruct (Z.eq_dec x panelId) as [->|Hx].
    + rewrite (postAssignPanel_only_target _ _ _ _ _ Hwf H1 Hin1).
      now rewrite (postAssignPanel_only_target _ _ _ _ _ Hwf H2 Hin2).
    + destruct (postAssignPanel_origin _ _ _ _ _ H1) as (r1 & Hr1 & _ & _ & Hp1).
      destruct (postAssignPanel_origin _ _ _ _ _ H2) as (r2 & Hr2 & _ & _ & Hp2).
      eapply Hex; eauto.
Qed.

Lemma postRemovePanel_getRoom s roomId panelId id :
  getRoom (fst (postRemovePanel s roomId panelId)) id
  = if Z.eqb roomId id then option_map (detached panelId) (getRoom s id)
    else getRoom s id.
Proof.
  unfold postRemovePanel.
  set (s1 := match getPanel s panelId with Some _ => _ | None => s end).
  assert (Hrooms : rooms s1 = rooms s).
  { unfold s1. destruct (getPanel s panelId); [|reflexivity].
    apply updatePanel_rooms. }
  replace (fst (match removePanelFromRoom s1 roomId panelId with
                | (s0, None) => (s0, Message 404 "Room or panel not found")
                | (s0, Some updatedRoom) => (s0, Json 200 updatedRoom)
                end))
    with (fst (removePanelFromRoom s1 roomId panelId))
    by now destruct (removePanelFromRoom s1 roomId panelId) as [s0 [r|]].
  rewrite removePanelFromRoom_getRoom. unfold getRoom. now rewrite Hrooms.
Qed.

Lemma postRemovePanel_keys s roomId panelId :
  map_keys (rooms (fst (postRemovePanel s roomId panelId))) = map_keys (rooms s).
Proof.
  unfold postRemovePanel.
  set (s1 := match getPanel s panelId with Some _ => _ | None => s end).
  assert (Hrooms : rooms s1 = rooms s).
  { unfold s1. destruct (getPanel s panelId); [|reflexivity].
    apply updatePanel_rooms. }
  replace (fst (match removePanelFromRoom s1 roomId panelId with
                | (s0, None) => (s0, Message 404 "Room or panel not found")
                | (s0, Some updatedRoom) => (s0, Json 200 updatedRoom)
                end))
    with (fst (removePanelFromRoom s1 roomId panelId))
    by now destruct (removePanelFromRoom s1 roomId panelId) as [s0 [r|]].
  rewrite removePanelFromRoom_keys. now rewrite Hrooms.
Qed.

Lemma postRemovePanel_origin s roomId panelId id room' :
  getRoom (fst (postRemovePanel s roomId panelId)) id = Some room' ->
  exists room,
    getRoom s id = Some room
    /\ r_id room' = r_id room
    /\ (occupancyConsistent room -> occupancyConsistent room')
    /\ (forall x, In x (panelsOf room') -> In x (panelsOf room)).
Proof.
  rewrite postRemovePanel_getRoom.
  destruct (getRoom s id) as [room|]; cbn [option_map];
    [|now destruct (Z.eqb roomId id)].
  intros Hget. exists room. split; [reflexivity|].
  destruct (Z.eqb roomId id); injection Hget as <-.
  - split; [apply detached_id|]. split; [apply detached_occupancy|].
    intros x. apply detached_panels_In.
  - repeat split; auto.
Qed.

Lemma postRemovePanel_invariant s roomId panelId :
  roomInvariant s -> roomInvariant (fst (postRemovePanel s roomId panelId)).
Proof.
  intros (Hwf & Hocc & Hex). pose proof Hwf as [Hnd Hid].
  split; [split|split].
  - now rewrite postRemovePanel_keys.
  - intros id room' Hget.
    destruct (postRemovePanel_origin _ _ _ _ _ Hget) as (room & Hr & Hi & _).
    rewrite Hi. now apply Hid.
  - intros id room' Hget.
    destruct (postRemovePanel_origin _ _ _ _ _ Hget) as (room & Hr & _ & Ho & _).
    apply Ho. eapply Hocc. exact Hr.
  - intros id1 id2 room1 room2 x H1 H2 Hin1 Hin2.
    destruct (postRemovePanel_origin _ _ _ _ _ H1) as (r1 & Hr1 & _ & _ & Hp1).
    destruct (postRemovePanel_origin _ _ _ _ _ H2) as (r2 & Hr2 & _ & _ & Hp2).
    eapply Hex; eauto.
Qed.

Lemma roomInvariant_origin s s' :
  roomInvariant s ->
  NoDup (map_keys (rooms s')) ->
  (forall id room',
     getRoom s' id = Some room' ->
     (r_id room' = id /\ occupancyConsistent room' /\ panelsOf room' = [])
     \/ exists room,
          getRoom s id = Some room
          /\ r_id room' = r_id room
          /\ (occupancyConsistent room -> occupancyConsistent room')
          /\ (forall x, In x (panelsOf room') -> In x (panelsOf room))) ->
  roomInvariant s'.
Proof.
  intros ((Hnd & Hid) & Hocc & Hex) Hnd' Horigin.
  split; [split|split].
  - exact Hnd'.
  - intros id room' Hget.
    destruct (Horigin _ _ Hget) as [(Hi & _)|(room & Hr & Hi & _)];
      [exact Hi|].
    rewrite Hi. now apply Hid.
  - intros id room' Hget.
    destruct (Horigin _ _ Hget) as [(_ & Ho & _)|(room & Hr & _ & Ho & _)];
      [exact Ho|].
    apply Ho. eapply Hocc. exact Hr.
  - intros id1 id2 room1 room2 x H1 H2 Hin1 Hin2.
    destruct (Horigin _ _ H1) as [(_ & _ & He)|(r1 & Hr1 & _ & _ & Hp1)];
      [rewrite He in Hin1; contradiction|].
    destruct (Horigin _ _ H2) as [(_ & _ & He)|(r2 & Hr2 & _ & _ & Hp2)];
      [rewrite He in Hin2; contradiction|].
    eapply Hex; eauto.
Qed.

Lemma postRoom_invariant s d :
  keepsBookkeeping (ReqPostRoom d) = true ->
  roomInvariant s -> roomInvariant (fst (postRoom s d)).
Proof.
  intros Hkeep Hinv. cbn [keepsBookkeeping] in Hkeep.
  apply andb_true_iff in Hkeep. destruct Hkeep as [Hocc Hpanels].
  apply negb_true_iff in Hocc.
  destruct (nullish (orNull (ir_assignedPanels d)) []) eqn:Hl; [|discriminate].
  apply (roomInvariant_origin s); [exact Hinv | |].
  - unfold postRoom, createRoom. cbn. apply map_set_NoDup. apply Hinv.
  - intros id room'. unfold postRoom, createRoom, getRoom. cbn.
    rewrite map_get_set, Hocc, Hl.
    destruct (Z.eqb_spec (roomCurrentId s) id) as [<-|Hne].
    + intros [= <-]. left. repeat split.
    + intros Hget. right. exists room'. repeat split; auto.
Qed.

Lemma patchRoom_invariant s id p :
  keepsBookkeeping (ReqPatchRoom id p) = true ->
  roomInvariant s -> roomInvariant (fst (patchRoom s id p)).
Proof.
  intros Hkeep Hinv. cbn [keepsBookkeeping] in Hkeep.
  apply andb_true_iff in Hkeep. destruct Hkeep as [Hkeep Hpanels].
  apply andb_true_iff in Hkeep. destruct Hkeep as [Hid Hocc].
  apply negb_true_iff in Hid, Hocc, Hpanels.
  unfold patchRoom, updateRoom.
  destruct (map_get (rooms s) id) as [existing|] eqn:E; cbn [fst];
    [|exact Hinv].
  apply (roomInvariant_origin s); [exact Hinv | |].
  - cbn. apply map_set_NoDup. apply Hinv.
  - intros k room'. unfold getRoom. cbn. rewrite map_get_set.
    destruct (Z.eqb_spec id k) as [<-|Hne].
    + intros [= <-]. right. exists existing. split; [exact E|].
      unfold mergeRoom, occupancyConsistent, panelsOf. cbn.
      rewrite (nullish_absent _ _ Hid), (nullish_absent _ _ Hocc),
        (nullish_absent _ _ Hpanels).
      repeat split; auto.
    + intros Hget. right. exists room'. repeat split; auto.
Qed.

Lemma updateCandidate_rooms s id p : rooms (fst (updateCandidate s id p)) = rooms s.
Proof. unfold updateCandidate. now destruct (map_get _ _). Qed.

Lemma syncOne_rooms now s candidateData :
  rooms (syncOne now s candidateData) = rooms s.
Proof.
  unfold syncOne. destruct (getCandidateByEmail s _); [|reflexivity].
  apply updateCandidate_rooms.
Qed.

Lemma sync_rooms now l : forall s, rooms (fold_left (syncOne now) l s) = rooms s.
Proof.
  induction l as [|x l IH]; intros s; [reflexivity|].
  cbn [fold_left]. rewrite IH. apply syncOne_rooms.
Qed.

Lemma handle_rooms now req s :
  writesRooms req = false -> rooms (handle now req s) = rooms s.
Proof.
  destruct req; cbn [writesRooms handle]; try discriminate; intros _.
  - reflexivity.
  - unfold patchCandidate.
    pose proof (updateCandidate_rooms s id p) as H.
    now destruct (updateCandidate s id p) as [s' [c|]].
  - reflexivity.
  - unfold patchPanel.
    pose proof (updatePanel_rooms s id p) as H.
    now destruct (updatePanel s id p) as [s' [c|]].
  - rewrite postFeedback_store.
    destruct (insertFeedbackSchema_parse body) as [d|]; [|reflexivity].
    unfold recordFeedback.
    destruct (createFeedback s d) as [s1 newFeedback] eqn:Hc.
    assert (H1 : rooms s1 = rooms s).
    { replace s1 with (fst (createFeedback s d)) by now rewrite Hc.
      reflexivity. }
    cbn [fst]. destruct (getCandidate s1 (if_candidateId d)); [|exact H1].
    match goal with
    | |- context [match ?e with pair _ _ => _ end] =>
        destruct e as [status currentRound]
    end.
    now rewrite updateCandidate_rooms.
  - reflexivity.
  - unfold postControl.
    destruct (String.eqb (cb_action b) "sync").
    + destruct (cb_candidates b); cbn [fst]; [apply sync_rooms | reflexivity].
    + now destruct (String.eqb (cb_action b) "init").
  - unfold postManual.
    now destruct (missing (mb_name b) || missing (mb_email b)
                  || missing (mb_position b)).
  - reflexivity.
  - reflexivity.
  - unfold patchUser, updateUser. now destruct (map_get _ _).
  - unfold deleteUserRoute, deleteUser, map_delete. now destruct (map_has _ _).
  - reflexivity.
  - unfold patchRolePermission, updateRolePermission. now destruct (map_get _ _).
  - unfold deleteRolePermissionRoute, deleteRolePermission, map_delete.
    now destruct (map_has _ _).
Qed.

Lemma handle_invariant now req s :
  keepsBookkeeping req = true ->
  roomInvariant s -> roomInvariant (handle now req s).
Proof.
  intros Hkeep Hinv.
  destruct (writesRooms req) eqn:Hw.
  - destruct req; try discriminate Hw; cbn [handle].
    + now apply postRoom_invariant.
    + now apply patchRoom_invariant.
    + now apply postAssignPanel_invariant.
    + now apply postRemovePanel_invariant.
  - eapply roomInvariant_rooms; [|exact Hinv]. now apply handle_rooms.
Qed.

Lemma newMemStorage_rooms now :
  rooms (newMemStorage now) = [(1, room101); (2, room102); (3, room201)].
Proof. reflexivity. Qed.

Lemma newMemStorage_room now id room :
  getRoom (newMemStorage now) id = Some room ->
  (id, room) = (1, room101) \/ (id, room) = (2, room102)
  \/ (id, room) = (3, room201).
Proof.
  intros H. apply map_get_In in H. rewrite newMemStorage_rooms in H.
  simpl in H. intuition congruence.
Qed.

Lemma newMemStorage_invariant now : roomInvariant (newMemStorage now).
Proof.
  split; [split|split].
  - rewrite newMemStorage_rooms. cbn [map_keys map fst].
    repeat constructor; simpl; intuition discriminate.
  - intros id room H.
    destruct (newMemStorage_room now id room H) as [E|[E|E]];
      injection E as -> ->; reflexivity.
  - intros id room H.
    destruct (newMemStorage_room now id room H) as [E|[E|E]];
      injection E as -> ->; reflexivity.
  - intros id1 id2 room1 room2 x H1 H2.
    destruct (newMemStorage_room now id1 room1 H1) as [E1|[E1|E1]];
      injection E1 as -> ->;
      destruct (newMemStorage_room now id2 room2 H2) as [E2|[E2|E2]];
      injection E2 as -> ->; cbn; tauto.
Qed.

(** C5, as the server maintains it.  A fresh server satisfies the room
    invariant (each room is stored once, under its own id, its occupied
    flag says whether its panel list is non-empty, and no panel is listed
    by two rooms), and every request preserves it, assign-panel and
    remove-panel included, provided room creation supplies no panels and
    no occupied flag set, and room updates do not name [id], [isOccupied]
    or [assignedPanels]. *)
Theorem room_invariant_preserved :
  (forall now, roomInvariant (newMemStorage now))
  /\ (forall now req s,
        keepsBookkeeping req = true ->
        roomInvariant s -> roomInvariant (handle now req s))
  /\ (forall reqs now,
        forallb (fun r => keepsBookkeeping (snd r)) reqs = true ->
        roomInvariant (serve reqs (newMemStorage now))).
Proof.
  split; [exact newMemStorage_invariant|].
  split; [exact handle_invariant|].
  intros reqs now. generalize (newMemStorage_invariant now).
  generalize (newMemStorage now) as s.
  induction reqs as [|[t req] rest IH]; intros s Hinv Hall; [exact Hinv|].
  cbn [forallb snd] in Hall. apply andb_true_iff in Hall.
  destruct Hall as [Hreq Hrest].
  cbn [serve]. apply IH; [|exact Hrest]. now apply handle_invariant.
Qed.

Lemma room_invariant_preserved_witness :
  roomInvariant (serve roomTraffic (newMemStorage 0)).
Proof.
  apply (proj2 (proj2 room_invariant_preserved) roomTraffic 0).
  reflexivity.
Defined.

(** C5 as stated fails: room creation stores the occupied flag it is
    given, so one [POST /api/rooms] on a fresh server yields a room that
    is marked occupied and lists no panel. *)
Lemma room_invariant_broken_by_create :
  ~ (forall now reqs, roomInvariant (serve reqs (newMemStorage now))).
Proof.
  intros H. destruct (H 0 [(1, occupiedEmptyRoom)]) as (_ & Hocc & _).
  specialize (Hocc 4 (mkRoom 4 "301" 4 "3rd" "General" true (Some [])) eq_refl).
  discriminate Hocc.
Qed.

(** * Further properties of the store and the handlers *)

(** ** Create, then read *)

(** X1.  For users, candidates, panels and feedback, [create] returns an
    entity whose id is the kind's counter, stores it under that id,
    advances the counter by one and leaves every other id of the kind
    reading as before. *)
Theorem create_then_get :
  (forall now s d,
     let '(s', e) := createUser now s d in
     u_id e = userCurrentId s /\ userCurrentId s' = userCurrentId s + 1
     /\ getUser s' (u_id e) = Some e
     /\ forall id, id <> u_id e -> getUser s' id = getUser s id)
  /\ (forall s d,
        let '(s', e) := createCandidate s d in
        c_id e = candidateCurrentId s
        /\ candidateCurrentId s' = candidateCurrentId s + 1
        /\ getCandidate s' (c_id e) = Some e
        /\ forall id, id <> c_id e -> getCandidate s' id = getCandidate s id)
  /\ (forall s d,
        let '(s', e) := createPanel s d in
        p_id e = panelCurrentId s /\ panelCurrentId s' = panelCurrentId s + 1
        /\ getPanel s' (p_id e) = Some e
        /\ forall id, id <> p_id e -> getPanel s' id = getPanel s id)
  /\ (forall s d,
        let '(s', e) := createFeedback s d in
        f_id e = feedbackCurrentId s
        /\ feedbackCurrentId s' = feedbackCurrentId s + 1
        /\ getFeedback s' (f_id e) = Some e
        /\ forall id, id <> f_id e -> getFeedback s' id = getFeedback s id).
Proof.
  repeat apply conj; intros;
    cbv beta iota zeta delta
      [createUser createCandidate createPanel createFeedback];
    unfold getUser, getCandidate, getPanel, getFeedback; cbn;
    (repeat apply conj; try reflexivity;
     [apply map_get_set_eq | intros id Hne; apply map_get_set_neq; congruence]).
Qed.

(** X19.  The same for rooms, candidate feedback and role permissions:
    [create] returns an entity whose id is the kind's counter, stores it
    under that id, advances the counter by one and leaves every other id
    of the kind reading as before. *)
Theorem create_then_get_rooms :
  (forall s d,
        let '(s', e) := createRoom s d in
        r_id e = roomCurrentId s /\ roomCurrentId s' = roomCurrentId s + 1
        /\ getRoom s' (r_id e) = Some e
        /\ forall id, id <> r_id e -> getRoom s' id = getRoom s id)
  /\ (forall now s d,
        let '(s', e) := createCandidateFeedback now s d in
        cf_id e = candidateFeedbackCurrentId s
        /\ candidateFeedbackCurrentId s' = candidateFeedbackCurrentId s + 1
        /\ getCandidateFeedback s' (cf_id e) = Some e
        /\ forall id, id <> cf_id e ->
                      getCandidateFeedback s' id = getCandidateFeedback s id)
  /\ (forall now s d,
        let '(s', e) := createRolePermission now s d in
        rp_id e = rolePermissionCurrentId s
        /\ rolePermissionCurrentId s' = rolePermissionCurrentId s + 1
        /\ getRolePermission s' (rp_id e) = Some e
        /\ forall id, id <> rp_id e ->
                      getRolePermission s' id = getRolePermission s id).
Proof.
  repeat apply conj; intros;
    cbv beta iota zeta delta
      [createRoom createCandidateFeedback createRolePermission];
    unfold getRoom, getCandidateFeedback, getRolePermission; cbn;
    (repeat apply conj; try reflexivity;
     [apply map_get_set_eq | intros id Hne; apply map_get_set_neq; congruence]).
Qed.

(** ** Delete *)

Lemma map_delete_get {V : Type} (m : JsMap V) k k' :
  map_get (fst (map_delete m k)) k'
  = if Z.eqb k k' then None else map_get m k'.
Proof.
  unfold map_delete. cbn [fst].
  induction m as [|[k0 v0] m IH]; cbn [filter fst map_get negb].
  - now destruct (Z.eqb k k').
  - destruct (Z.eqb_spec k0 k) as [->|Hk]; cbn [negb].
    + rewrite IH. destruct (Z.eqb_spec k k'); reflexivity.
    + cbn [map_get]. rewrite IH.
      destruct (Z.eqb_spec k0 k') as [->|]; [|reflexivity].
      destruct (Z.eqb_spec k k'); [congruence | reflexivity].
Qed.

(** X2.  Deleting a user or a role permission reports whether the id was
    stored; afterwards the id reads as absent, every other id reads as
    before, the counter is untouched and a second delete reports false.
    The handlers answer 200 when the id was stored and 404 otherwise. *)
Theorem delete_then_get :
  (forall s id,
     let '(s', found) := deleteUser s id in
     found = present (getUser s id)
     /\ getUser s' id = None
     /\ (forall id', id' <> id -> getUser s' id' = getUser s id')
     /\ userCurrentId s' = userCurrentId s
     /\ snd (deleteUser s' id) = false
     /\ payloadStatus (snd (deleteUserRoute s id))
        = if present (getUser s id) then 200 else 404)
  /\ (forall s id,
        let '(s', found) := deleteRolePermission s id in
        found = present (getRolePermission s id)
        /\ getRolePermission s' id = None
        /\ (forall id', id' <> id ->
                        getRolePermission s' id' = getRolePermission s id')
        /\ rolePermissionCurrentId s' = rolePermissionCurrentId s
        /\ snd (deleteRolePermission s' id) = false
        /\ responseStatus (snd (deleteRolePermissionRoute s id))
           = if present (getRolePermission s id) then 200 else 404).
Proof.
  split; intros s id.
  - unfold deleteUserRoute, deleteUser, getUser.
    pose proof (map_delete_get (users s) id) as Hget.
    destruct (map_delete (users s) id) as [m found] eqn:Hd.
    assert (Hfound : found = present (map_get (users s) id)).
    { unfold map_delete in Hd. injection Hd as _ <-. unfold map_has, present.
      now destruct (map_get (users s) id). }
    cbn [fst snd users with_users userCurrentId] in *.
    repeat apply conj.
    + exact Hfound.
    + rewrite Hget. now rewrite Z.eqb_refl.
    + intros id' Hne. rewrite Hget.
      destruct (Z.eqb_spec id id'); [congruence | reflexivity].
    + reflexivity.
    + unfold map_delete, map_has. cbn [snd].
      specialize (Hget id). rewrite Z.eqb_refl in Hget. now rewrite Hget.
    + rewrite Hfound. now destruct (present _).
  - unfold deleteRolePermissionRoute, deleteRolePermission, getRolePermission.
    pose proof (map_delete_get (rolePermissions s) id) as Hget.
    destruct (map_delete (rolePermissions s) id) as [m found] eqn:Hd.
    assert (Hfound : found = present (map_get (rolePermissions s) id)).
    { unfold map_delete in Hd. injection Hd as _ <-. unfold map_has, present.
      now destruct (map_get (rolePermissions s) id). }
    cbn [fst snd rolePermissions with_rolePermissions rolePermissionCurrentId] in *.
    repeat apply conj.
    + exact Hfound.
    + rewrite Hget. now rewrite Z.eqb_refl.
    + intros id' Hne. rewrite Hget.
      destruct (Z.eqb_spec id id'); [congruence | reflexivity].
    + reflexivity.
    + unfold map_delete, map_has. cbn [snd].
      specialize (Hget id). rewrite Z.eqb_refl in Hget. now rewrite Hget.
    + rewrite Hfound. now destruct (present _).
Qed.

(** ** Updates by id *)



(** ** Panels under the assignment methods *)

Lemma updatePanel_getPanel s id p k :
  getPanel (fst (updatePanel s id p)) k
  = if Z.eqb id k then option_map (fun e => mergePanel e p) (getPanel s k)
    else getPanel s k.
Proof.
  unfold updatePanel, getPanel.
  destruct (map_get (panels s) id) eqn:E; cbn [fst panels with_panels].
  - rewrite map_get_set.
    destruct (Z.eqb_spec id k) as [<-|]; [now rewrite E | reflexivity].
  - destruct (Z.eqb_spec id k) as [<-|]; [now rewrite E | reflexivity].
Qed.

Lemma withRoomNo_twice x y panel :
  withRoomNo y (withRoomNo x panel) = withRoomNo y panel.
Proof. reflexivity. Qed.

Lemma withRoomNo_same panel : withRoomNo (p_roomNo panel) panel = panel.
Proof. now destruct panel. Qed.

Lemma removePanelFromRoom_getPanel s roomId panelId k :
  getPanel (fst (removePanelFromRoom s roomId panelId)) k
  = match getRoom s roomId with
    | Some room =>
        if includes (panelsOf room) panelId && Z.eqb panelId k
        then option_map (released room) (getPanel s k)
        else getPanel s k
    | None => getPanel s k
    end.
Proof.
  unfold removePanelFromRoom, getRoom, panelsOf.
  destruct (map_get (rooms s) roomId) as [room|]; [|reflexivity].
  destruct (includes _ _); cbn [negb andb fst]; [|reflexivity].
  match goal with
  | |- getPanel (match map_get (panels ?s0) _ with _ => _ end) k = _ =>
      change (panels s0) with (panels s); set (s1 := s0)
  end.
  assert (Hs1 : forall j, getPanel s1 j = getPanel s j) by reflexivity.
  destruct (map_get (panels s) panelId) as [panel|] eqn:E.
  - destruct (String.eqb (p_roomNo panel) (r_roomNumber room)) eqn:Eno.
    + rewrite updatePanel_getPanel, Hs1.
      destruct (Z.eqb_spec panelId k) as [<-|]; [|reflexivity].
      unfold getPanel. rewrite E. cbn [option_map]. unfold released.
      now rewrite Eno.
    + rewrite Hs1. destruct (Z.eqb_spec panelId k) as [<-|]; [|reflexivity].
      unfold getPanel. rewrite E. cbn [option_map]. unfold released.
      now rewrite Eno.
  - rewrite Hs1. destruct (Z.eqb_spec panelId k) as [<-|]; [|reflexivity].
    unfold getPanel. now rewrite E.
Qed.

Lemma assignPanelToRoom_getPanel s roomId panelId k :
  getPanel (fst (assignPanelToRoom s roomId panelId)) k
  = match getRoom s roomId, getPanel s panelId with
    | Some room, Some _ =>
        if negb (includes (panelsOf room) panelId) && Z.eqb panelId k
        then option_map (withRoomNo (r_roomNumber room)) (getPanel s k)
        else getPanel s k
    | _, _ => getPanel s k
    end.
Proof.
  unfold assignPanelToRoom, getRoom, panelsOf.
  destruct (map_get (rooms s) roomId) as [room|]; [|reflexivity].
  unfold getPanel at 2.
  destruct (map_get (panels s) panelId) as [panel|] eqn:E; [|reflexivity].
  destruct (includes _ _); cbn [negb andb]; [reflexivity|].
  match goal with
  | |- context [updatePanel ?s0 ?i ?q] =>
      pose proof (updatePanel_getPanel s0 i q k) as H;
      destruct (updatePanel s0 i q)
  end.
  cbn [fst] in *. rewrite H. reflexivity.
Qed.

Lemma assignPanelToRoom_result s roomId panelId :
  snd (assignPanelToRoom s roomId panelId)
  = match getRoom s roomId, getPanel s panelId with
    | Some room, Some _ => Some (attached panelId room)
    | _, _ => None
    end.
Proof.
  unfold assignPanelToRoom, getRoom, getPanel, attached, panelsOf.
  destruct (map_get (rooms s) roomId) as [room|]; [|reflexivity].
  destruct (map_get (panels s) panelId) as [panel|]; [|reflexivity].
  destruct (includes _ _); [reflexivity|].
  now destruct (updatePanel _ _ _).
Qed.

Lemma removePanelFromRoom_result s roomId panelId :
  snd (removePanelFromRoom s roomId panelId)
  = option_map (detached panelId) (getRoom s roomId).
Proof.
  unfold removePanelFromRoom, getRoom, detached, panelsOf.
  destruct (map_get (rooms s) roomId) as [room|]; [|reflexivity].
  cbn [option_map]. now destruct (includes _ _).
Qed.

Lemma assignPanelToRoom_getRoom s roomId panelId id :
  getRoom (fst (assignPanelToRoom s roomId panelId)) id
  = match getRoom s roomId, getPanel s panelId with
    | Some room, Some _ =>
        if Z.eqb roomId id then Some (attached panelId room) else getRoom s id
    | _, _ => getRoom s id
    end.
Proof.
  unfold getRoom at 1. rewrite assignPanelToRoom_rooms.
  destruct (getRoom s roomId) as [room|] eqn:E; [|reflexivity].
  destruct (getPanel s panelId); [|reflexivity].
  unfold attached. destruct (includes (panelsOf room) panelId).
  - destruct (Z.eqb_spec roomId id) as [<-|]; [exact E | reflexivity].
  - apply map_get_set.
Qed.

Lemma filter_out_last panelId l :
  ~ In panelId l ->
  filter (fun id => negb (Z.eqb id panelId)) (l ++ [panelId]) = l.
Proof.
  intros Hnot. rewrite filter_app. cbn. rewrite Z.eqb_refl. cbn.
  rewrite app_nil_r. apply forallb_filter_id. apply forallb_forall.
  intros x Hx. apply negb_true_iff, Z.eqb_neq. congruence.
Qed.

(** X4.  On the storage object, assigning a panel to a room that does not
    list it appends it, marks the room occupied and writes the room's
    number to the panel; removing it again gives the room its old list
    back with the occupied flag recomputed from it (false for a room that
    listed nothing) and empties the panel's room number; no other room
    and no other panel is touched. *)
Theorem assign_then_remove :
  forall s roomId panelId room panel,
    getRoom s roomId = Some room ->
    getPanel s panelId = Some panel ->
    ~ In panelId (panelsOf room) ->
    let s1 := fst (assignPanelToRoom s roomId panelId) in
    let s2 := fst (removePanelFromRoom s1 roomId panelId) in
    getRoom s1 roomId
    = Some (withAssignment room (panelsOf room ++ [panelId]) true)
    /\ getPanel s1 panelId = Some (withRoomNo (r_roomNumber room) panel)
    /\ getRoom s2 roomId
       = Some (withAssignment room (panelsOf room)
                 (Nat.ltb 0 (List.length (panelsOf room))))
    /\ getPanel s2 panelId = Some (withRoomNo EmptyString panel)
    /\ (forall id, id <> roomId -> getRoom s2 id = getRoom s id)
    /\ (forall id, id <> panelId -> getPanel s2 id = getPanel s id).
Proof.
  intros s roomId panelId room panel Hroom Hpanel Hnot s1 s2.
  pose proof Hnot as Hinc. apply includes_not_In in Hinc.
  assert (H1 : getRoom s1 roomId
               = Some (withAssignment room (panelsOf room ++ [panelId]) true)).
  { unfold s1. rewrite assignPanelToRoom_getRoom, Hroom, Hpanel, Z.eqb_refl.
    unfold attached. now rewrite Hinc. }
  assert (H2 : getPanel s1 panelId = Some (withRoomNo (r_roomNumber room) panel)).
  { unfold s1. rewrite assignPanelToRoom_getPanel, Hroom, Hpanel, Hinc.
    now rewrite Z.eqb_refl. }
  assert (Hin1 : includes (panelsOf room ++ [panelId]) panelId = true).
  { apply includes_In, in_or_app. right. now left. }
  repeat apply conj.
  - exact H1.
  - exact H2.
  - unfold s2. rewrite removePanelFromRoom_getRoom, Z.eqb_refl, H1.
    cbn [option_map]. unfold detached.
    change (panelsOf (withAssignment room (panelsOf room ++ [panelId]) true))
      with (panelsOf room ++ [panelId]).
    rewrite Hin1. cbv zeta. now rewrite (filter_out_last _ _ Hnot).
  - unfold s2. rewrite removePanelFromRoom_getPanel, H1.
    change (panelsOf (withAssignment room (panelsOf room ++ [panelId]) true))
      with (panelsOf room ++ [panelId]).
    rewrite Hin1, Z.eqb_refl, H2. cbn [andb option_map]. unfold released.
    change (p_roomNo (withRoomNo (r_roomNumber room) panel))
      with (r_roomNumber room).
    change (r_roomNumber
              (withAssignment room (panelsOf room ++ [panelId]) true))
      with (r_roomNumber room).
    now rewrite String.eqb_refl.
  - intros id Hne. unfold s2, s1.
    rewrite removePanelFromRoom_getRoom, assignPanelToRoom_getRoom.
    rewrite Hroom, Hpanel.
    now replace (Z.eqb roomId id) with false
      by (symmetry; apply Z.eqb_neq; congruence).
  - intros id Hne. unfold s2.
    rewrite removePanelFromRoom_getPanel. fold s1. rewrite H1.
    replace (Z.eqb panelId id) with false
      by (symmetry; apply Z.eqb_neq; congruence).
    rewrite andb_false_r. unfold s1.
    rewrite assignPanelToRoom_getPanel, Hroom, Hpanel.
    replace (Z.eqb panelId id) with false
      by (symmetry; apply Z.eqb_neq; congruence).
    now rewrite andb_false_r.
Qed.

Lemma assign_then_remove_witness :
  let s1 := fst (assignPanelToRoom (newMemStorage 0) 2 1) in
  let s2 := fst (removePanelFromRoom s1 2 1) in
  getRoom s1 2 = Some (withAssignment room102 [1] true)
  /\ getPanel s1 1 = Some (withRoomNo "102" panel1)
  /\ getRoom s2 2 = Some (withAssignment room102 [] false)
  /\ getPanel s2 1 = Some (withRoomNo EmptyString panel1)
  /\ (forall id, id <> 2 -> getRoom s2 id = getRoom (newMemStorage 0) id)
  /\ (forall id, id <> 1 -> getPanel s2 id = getPanel (newMemStorage 0) id).
Proof.
  apply (assign_then_remove (newMemStorage 0) 2 1 room102 panel1).
  - reflexivity.
  - reflexivity.
  - simpl. tauto.
Defined.

Lemma released_shape room panel :
  exists x, released room panel = withRoomNo x panel.
Proof.
  unfold released. destruct (String.eqb _ _).
  - now exists EmptyString.
  - exists (p_roomNo panel). symmetry. apply withRoomNo_same.
Qed.

Lemma removePanelFromRoom_panel_other s roomId panelId k :
  k <> panelId ->
  getPanel (fst (removePanelFromRoom s roomId panelId)) k = getPanel s k.
Proof.
  intros Hne. rewrite removePanelFromRoom_getPanel.
  destruct (getRoom s roomId); [|reflexivity].
  replace (Z.eqb panelId k) with false
    by (symmetry; apply Z.eqb_neq; congruence).
  now rewrite andb_false_r.
Qed.

Lemma removePanelFromRoom_panel_shape s roomId panelId panel x0 :
  getPanel s panelId = Some (withRoomNo x0 panel) ->
  exists x,
    getPanel (fst (removePanelFromRoom s roomId panelId)) panelId
    = Some (withRoomNo x panel).
Proof.
  intros H. rewrite removePanelFromRoom_getPanel, H.
  destruct (getRoom s roomId) as [room|]; [|now exists x0].
  destruct (includes _ _ && _); [|now exists x0].
  cbn [option_map].
  destruct (released_shape room (withRoomNo x0 panel)) as (x & ->).
  now exists x.
Qed.

Lemma detach_panel_other panelId l :
  forall s k,
    k <> panelId ->
    getPanel (fold_left (detachFrom panelId) l s) k = getPanel s k.
Proof.
  induction l as [|room l IH]; intros s k Hne; [reflexivity|].
  cbn [fold_left]. rewrite IH by exact Hne.
  now apply removePanelFromRoom_panel_other.
Qed.

Lemma detach_panel_shape panelId l :
  forall s panel x0,
    getPanel s panelId = Some (withRoomNo x0 panel) ->
    exists x,
      getPanel (fold_left (detachFrom panelId) l s) panelId
      = Some (withRoomNo x panel).
Proof.
  induction l as [|room l IH]; intros s panel x0 H; [now exists x0|].
  cbn [fold_left].
  destruct (removePanelFromRoom_panel_shape s (r_id room) panelId panel x0 H)
    as (x1 & H1).
  exact (IH _ panel x1 H1).
Qed.

Lemma postAssignPanel_steps s roomId panelId :
  postAssignPanel s roomId panelId
  = match assignPanelToRoom (afterRoomNo s roomId panelId) roomId panelId with
    | (s', None) => (s', Message 404 "Room or panel not found")
    | (s', Some updatedRoom) => (s', Json 200 updatedRoom)
    end.
Proof. reflexivity. Qed.

Lemma afterDetach_target s roomId panelId :
  getRoom (afterDetach s roomId panelId) roomId = getRoom s roomId.
Proof.
  unfold afterDetach. rewrite detach_getRoom. now rewrite visits_target.
Qed.

Lemma afterRoomNo_rooms s roomId panelId :
  rooms (afterRoomNo s roomId panelId) = rooms (afterDetach s roomId panelId).
Proof.
  unfold afterRoomNo. cbv zeta.
  destruct (getPanel _ panelId); [|reflexivity].
  destruct (getRoom _ roomId); [|reflexivity]. apply updatePanel_rooms.
Qed.

Lemma afterRoomNo_target s roomId panelId :
  getRoom (afterRoomNo s roomId panelId) roomId = getRoom s roomId.
Proof.
  unfold getRoom at 1. rewrite afterRoomNo_rooms. apply afterDetach_target.
Qed.

Lemma afterRoomNo_panel_other s roomId panelId k :
  k <> panelId -> getPanel (afterRoomNo s roomId panelId) k = getPanel s k.
Proof.
  intros Hne. unfold afterRoomNo. cbv zeta.
  assert (H1 : getPanel (afterDetach s roomId panelId) k = getPanel s k)
    by now apply detach_panel_other.
  destruct (getPanel _ panelId); [|exact H1].
  destruct (getRoom _ roomId); [|exact H1].
  rewrite updatePanel_getPanel.
  now replace (Z.eqb panelId k) with false
    by (symmetry; apply Z.eqb_neq; congruence).
Qed.

Lemma afterRoomNo_panel s roomId panelId :
  getPanel (afterRoomNo s roomId panelId) panelId
  = match getPanel s panelId, getRoom s roomId with
    | Some panel, Some room => Some (withRoomNo (r_roomNumber room) panel)
    | Some panel, None => getPanel (afterDetach s roomId panelId) panelId
    | None, _ => None
    end.
Proof.
  unfold afterRoomNo. cbv zeta. rewrite afterDetach_target.
  destruct (getPanel s panelId) as [panel|] eqn:E.
  - destruct (detach_panel_shape panelId (panelAssignedRooms s roomId panelId)
                s panel (p_roomNo panel)) as (x & Hx).
    { now rewrite withRoomNo_same. }
    fold (afterDetach s roomId panelId) in Hx. rewrite Hx.
    destruct (getRoom s roomId) as [room|]; [|exact Hx].
    rewrite updatePanel_getPanel, Z.eqb_refl, Hx. reflexivity.
  - assert (Hnone : getPanel (afterDetach s roomId panelId) panelId = None).
    { pose proof (detach_present panelId (panelAssignedRooms s roomId panelId)
                    s panelId) as Hp.
      fold (afterDetach s roomId panelId) in Hp. rewrite E in Hp.
      now destruct (getPanel (afterDetach s roomId panelId) panelId). }
    now rewrite Hnone.
Qed.

Lemma postAssignPanel_effect :
  forall s roomId panelId,
    let '(s', r) := postAssignPanel s roomId panelId in
    match getRoom s roomId, getPanel s panelId with
    | Some room, Some panel =>
        r = Json 200 (attached panelId room)
        /\ getRoom s' roomId = Some (attached panelId room)
        /\ In panelId (panelsOf (attached panelId room))
        /\ getPanel s' panelId = Some (withRoomNo (r_roomNumber room) panel)
    | _, _ => r = Message 404 "Room or panel not found"
    end
    /\ forall k, k <> panelId -> getPanel s' k = getPanel s k.
Proof.
  intros s roomId panelId. rewrite postAssignPanel_steps.
  set (s2 := afterRoomNo s roomId panelId).
  assert (HB : getRoom s2 roomId = getRoom s roomId)
    by apply afterRoomNo_target.
  assert (HP : getPanel s2 panelId = _) by apply afterRoomNo_panel.
  pose proof (assignPanelToRoom_result s2 roomId panelId) as Hres.
  pose proof (assignPanelToRoom_getRoom s2 roomId panelId roomId) as Hroom.
  assert (Hpan : forall k,
             getPanel (fst (assignPanelToRoom s2 roomId panelId)) k = _)
    by (intros k; apply assignPanelToRoom_getPanel).
  rewrite HB in Hres, Hroom. rewrite Z.eqb_refl in Hroom.
  assert (Hother : forall k, k <> panelId ->
             getPanel (fst (assignPanelToRoom s2 roomId panelId)) k
             = getPanel s k).
  { intros k Hne. rewrite Hpan.
    assert (Hk : getPanel s2 k = getPanel s k)
      by now apply afterRoomNo_panel_other.
    replace (Z.eqb panelId k) with false
      by (symmetry; apply Z.eqb_neq; congruence).
    destruct (getRoom s2 roomId); [|exact Hk].
    destruct (getPanel s2 panelId); [|exact Hk].
    now rewrite andb_false_r. }
  specialize (Hpan panelId). rewrite HB, Z.eqb_refl in Hpan.
  rewrite HP in Hres, Hroom, Hpan.
  destruct (assignPanelToRoom s2 roomId panelId) as [s' res]. cbn [fst snd] in *.
  destruct (getRoom s roomId) as [room|] eqn:Eroom;
    [|subst res; now split].
  destruct (getPanel s panelId) as [panel|] eqn:Epanel;
    [|subst res; now split].
  subst res. cbv beta iota. split; [|exact Hother].
  repeat apply conj; [reflexivity | exact Hroom | |].
  - unfold attached. destruct (includes (panelsOf room) panelId) eqn:E.
    + now apply includes_In.
    + unfold panelsOf at 1. cbn. apply in_or_app. right. now left.
  - rewrite Hpan. now destruct (includes _ _).
Qed.

(** X6.  The assign-panel handler answers 200 exactly when both the room
    and the panel exist.  Then the body is the target room as stored
    afterwards, that room lists the panel, and the panel's room number is
    the target room's number with its other fields as before.  In every
    case the other panels are untouched. *)
Theorem assign_panel_outcome :
  forall s roomId panelId,
    let '(s', r) := postAssignPanel s roomId panelId in
    match getRoom s roomId, getPanel s panelId with
    | Some room, Some panel =>
        r = Json 200 (attached panelId room)
        /\ getRoom s' roomId = Some (attached panelId room)
        /\ In panelId (panelsOf (attached panelId room))
        /\ getPanel s' panelId = Some (withRoomNo (r_roomNumber room) panel)
    | _, _ => r = Message 404 "Room or panel not found"
    end
    /\ forall k, k <> panelId -> getPanel s' k = getPanel s k.
Proof. exact postAssignPanel_effect. Qed.

Lemma released_cleared room panel :
  released room (withRoomNo EmptyString panel) = withRoomNo EmptyString panel.
Proof. unfold released. now destruct (String.eqb _ _). Qed.

(** X5.  The remove-panel handler answers 404 exactly when the room does
    not exist, and otherwise 200 with the room as stored afterwards, which
    does not list the panel.  Whatever it answers, and whether or not the
    room listed the panel, it has emptied the room number of the panel if
    the panel exists; the other panels are untouched. *)
Theorem remove_panel_outcome :
  forall s roomId panelId,
    let '(s', r) := postRemovePanel s roomId panelId in
    r = match getRoom s roomId with
        | Some room => Json 200 (detached panelId room)
        | None => Message 404 "Room or panel not found"
        end
    /\ getRoom s' roomId = option_map (detached panelId) (getRoom s roomId)
    /\ (forall room', getRoom s' roomId = Some room' ->
                      ~ In panelId (panelsOf room'))
    /\ getPanel s' panelId
       = option_map (withRoomNo EmptyString) (getPanel s panelId)
    /\ (forall k, k <> panelId -> getPanel s' k = getPanel s k).
Proof.
  intros s roomId panelId.
  pose proof (postRemovePanel_getRoom s roomId panelId roomId) as Hroom.
  rewrite Z.eqb_refl in Hroom.
  unfold postRemovePanel in *.
  set (s1 := match getPanel s panelId with
             | Some _ => fst (updatePanel s panelId (onlyRoomNo EmptyString))
             | None => s
             end) in *.
  assert (Hrooms : getRoom s1 roomId = getRoom s roomId).
  { unfold s1. destruct (getPanel s panelId); [|reflexivity].
    unfold getRoom. now rewrite updatePanel_rooms. }
  assert (Hp1 : getPanel s1 panelId
                = option_map (withRoomNo EmptyString) (getPanel s panelId)).
  { unfold s1. destruct (getPanel s panelId) as [panel|] eqn:E.
    - now rewrite updatePanel_getPanel, Z.eqb_refl, E.
    - exact E. }
  assert (Hk1 : forall k, k <> panelId -> getPanel s1 k = getPanel s k).
  { intros k Hne. unfold s1. destruct (getPanel s panelId); [|reflexivity].
    rewrite updatePanel_getPanel.
    now replace (Z.eqb panelId k) with false
      by (symmetry; apply Z.eqb_neq; congruence). }
  pose proof (removePanelFromRoom_result s1 roomId panelId) as Hres.
  pose proof (removePanelFromRoom_getPanel s1 roomId panelId panelId) as Hpan.
  pose proof (fun k Hne =>
                removePanelFromRoom_panel_other s1 roomId panelId k Hne) as Hoth.
  rewrite Hrooms in Hres, Hpan. rewrite Z.eqb_refl, Hp1 in Hpan.
  destruct (removePanelFromRoom s1 roomId panelId) as [s' res].
  cbn [fst snd] in *. subst res.
  assert (Hpanel : getPanel s' panelId
                   = option_map (withRoomNo EmptyString) (getPanel s panelId)).
  { rewrite Hpan. destruct (getRoom s roomId) as [room|]; [|reflexivity].
    destruct (includes _ _ && true); [|reflexivity].
    destruct (getPanel s panelId); cbn [option_map]; [|reflexivity].
    now rewrite released_cleared. }
  assert (Hothers : forall k, k <> panelId -> getPanel s' k = getPanel s k).
  { intros k Hne. rewrite Hoth by exact Hne. now apply Hk1. }
  destruct (getRoom s roomId) as [room|]; cbn [option_map] in *.
  - repeat apply conj; auto.
    intros room' Hget. cbn [fst] in Hroom. rewrite Hroom in Hget.
    injection Hget as <-. apply detached_not_In.
  - cbn [fst] in Hroom. repeat apply conj; auto.
    intros room' Hget. congruence.
Qed.

(** ** Assigning twice *)

Lemma map_set_same {V : Type} (m : JsMap V) k v :
  map_get m k = Some v -> map_set m k v = m.
Proof.
  induction m as [|[k' v'] m IH]; simpl; [discriminate|].
  destruct (Z.eqb_spec k' k) as [->|Hne].
  - now intros [= ->].
  - intros H. now rewrite IH.
Qed.

Lemma with_panels_same s : with_panels s (panels s) = s.
Proof. now destruct s. Qed.

Lemma updatePanel_same s panelId panel :
  getPanel s panelId = Some panel ->
  fst (updatePanel s panelId (onlyRoomNo (p_roomNo panel))) = s.
Proof.
  unfold getPanel, updatePanel. intros H. rewrite H. cbn [fst].
  change (mergePanel panel (onlyRoomNo (p_roomNo panel)))
    with (withRoomNo (p_roomNo panel) panel).
  rewrite withRoomNo_same, (map_set_same _ _ _ H). apply with_panels_same.
Qed.

Lemma postAssignPanel_wellFormed s roomId panelId :
  roomsWellFormed s ->
  roomsWellFormed (fst (postAssignPanel s roomId panelId)).
Proof.
  intros [Hnd Hid]. split.
  - now rewrite postAssignPanel_keys.
  - intros id room' Hget.
    destruct (postAssignPanel_origin _ _ _ _ _ Hget) as (room & Hr & Hi & _).
    rewrite Hi. now apply Hid.
Qed.

Lemma value_getRoom s room :
  roomsWellFormed s -> In room (getRooms s) -> getRoom s (r_id room) = Some room.
Proof.
  intros [Hnd Hid] Hin. unfold getRooms, map_values in Hin.
  apply in_map_iff in Hin. destruct Hin as ([id room'] & Heq & Hin).
  cbn in Heq. subst room'.
  pose proof (In_map_get _ _ _ Hnd Hin) as Hget.
  now rewrite (Hid _ _ Hget).
Qed.

(** After the assign handler no room other than the target is a room the
    handler would detach the panel from. *)
Lemma postAssignPanel_settled s roomId panelId :
  roomsWellFormed s ->
  panelAssignedRooms (fst (postAssignPanel s roomId panelId)) roomId panelId = [].
Proof.
  intros Hwf. pose proof (postAssignPanel_wellFormed s roomId panelId Hwf) as Hwf1.
  unfold panelAssignedRooms.
  set (s1 := fst (postAssignPanel s roomId panelId)) in *.
  assert (Hall : forall room, In room (getRooms s1) ->
                              assignedElsewhere roomId panelId room = false).
  { intros room Hin. pose proof (value_getRoom s1 room Hwf1 Hin) as Hget.
    unfold assignedElsewhere.
    destruct (r_assignedPanels room) as [l|] eqn:El; [|reflexivity].
    destruct (includes l panelId) eqn:Einc; [|reflexivity].
    assert (Hlists : In panelId (panelsOf room)).
    { unfold panelsOf. rewrite El. now apply includes_In. }
    rewrite (postAssignPanel_only_target s roomId panelId _ _ Hwf Hget Hlists).
    now rewrite Z.eqb_refl. }
  induction (getRooms s1) as [|room l IH]; [reflexivity|].
  cbn [filter]. rewrite Hall by now left.
  apply IH. intros r Hr. apply Hall. now right.
Qed.

Lemma assignPanelToRoom_present s roomId panelId k :
  present (getPanel (fst (assignPanelToRoom s roomId panelId)) k)
  = present (getPanel s k).
Proof.
  rewrite assignPanelToRoom_getPanel.
  destruct (getRoom s roomId); [|reflexivity].
  destruct (getPanel s panelId); [|reflexivity].
  destruct (negb _ && _); [|reflexivity].
  now destruct (getPanel s k).
Qed.

Lemma afterRoomNo_present s roomId panelId k :
  present (getPanel (afterRoomNo s roomId panelId) k) = present (getPanel s k).
Proof.
  unfold afterRoomNo. cbv zeta.
  assert (H1 : present (getPanel (afterDetach s roomId panelId) k)
               = present (getPanel s k)) by apply detach_present.
  destruct (getPanel _ panelId); [|exact H1].
  destruct (getRoom _ roomId); [|exact H1].
  now rewrite updatePanel_present.
Qed.

Lemma postAssignPanel_present s roomId panelId k :
  present (getPanel (fst (postAssignPanel s roomId panelId)) k)
  = present (getPanel s k).
Proof.
  rewrite postAssignPanel_steps.
  pose proof (assignPanelToRoom_present (afterRoomNo s roomId panelId)
                roomId panelId k) as H.
  rewrite afterRoomNo_present in H.
  now destruct (assignPanelToRoom _ roomId panelId) as [s' [res|]].
Qed.

(** X7.  Assigning the same panel to the same room a second time changes
    nothing and gives the same answer, provided each room is stored once
    and under its own id. *)
Theorem assign_panel_twice :
  forall s roomId panelId,
    roomsWellFormed s ->
    postAssignPanel (fst (postAssignPanel s roomId panelId)) roomId panelId
    = postAssignPanel s roomId panelId.
Proof.
  intros s roomId panelId Hwf.
  pose proof (postAssignPanel_settled s roomId panelId Hwf) as Hnil.
  pose proof (postAssignPanel_effect s roomId panelId) as Heff.
  pose proof (postAssignPanel_getRoom s roomId panelId roomId) as HgetB.
  pose proof (postAssignPanel_present s roomId panelId panelId) as Hpres.
  destruct (postAssignPanel s roomId panelId) as [s1 r] eqn:Hfirst.
  cbn [fst] in *.
  rewrite postAssignPanel_steps. unfold afterRoomNo, afterDetach.
  rewrite Hnil. cbn [fold_left]. cbv zeta in HgetB.
  rewrite Z.eqb_refl in HgetB. cbn [andb] in HgetB.
  destruct Heff as [Hmain _].
  destruct (getRoom s roomId) as [room|] eqn:Eroom.
  - destruct (getPanel s panelId) as [panel|] eqn:Epanel.
    + destruct Hmain as (-> & HB & Hin & HP).
      rewrite HP, HB.
      change (r_roomNumber (attached panelId room)) with
        (p_roomNo (withRoomNo (r_roomNumber (attached panelId room)) panel)).
      replace (r_roomNumber (attached panelId room)) with (r_roomNumber room)
        by (unfold attached; now destruct (includes _ _)).
      rewrite (updatePanel_same s1 panelId _ HP).
      unfold assignPanelToRoom. fold (getRoom s1 roomId). rewrite HB.
      fold (getPanel s1 panelId). rewrite HP.
      fold (panelsOf (attached panelId room)).
      apply includes_In in Hin. now rewrite Hin.
    + subst r. destruct (getPanel s1 panelId) eqn:E1; [discriminate Hpres|].
      now rewrite (assignPanelToRoom_not_found s1 roomId panelId (or_intror E1)).
  - subst r.
    assert (HB : getRoom s1 roomId = None).
    { rewrite HgetB. destruct (present (getPanel s panelId)); [reflexivity|].
      now destruct (visits _ _). }
    rewrite HB.
    destruct (getPanel s1 panelId);
      now rewrite (assignPanelToRoom_not_found s1 roomId panelId (or_introl HB)).
Qed.

Lemma assign_panel_twice_witness :
  postAssignPanel (fst (postAssignPanel (newMemStorage 0) 2 1)) 2 1
  = postAssignPanel (newMemStorage 0) 2 1.
Proof.
  apply (assign_panel_twice (newMemStorage 0) 2 1).
  apply newMemStorage_invariant.
Defined.

(** ** Lookups by a secondary key *)

Lemma find_values_set {V : Type} (f : V -> bool) (m : JsMap V) k v :
  (forall v', In v' (map_values m) -> f v' = false) ->
  f v = true ->
  find f (map_values (map_set m k v)) = Some v.
Proof.
  intros Hold Hv. induction m as [|[k' v'] m IH]; cbn.
  - now rewrite Hv.
  - destruct (Z.eqb k' k); cbn.
    + now rewrite Hv.
    + rewrite (Hold v') by now left.
      apply IH. intros x Hx. apply Hold. now right.
Qed.

Lemma find_none_all {A : Type} (f : A -> bool) l :
  find f l = None -> forall x, In x l -> f x = false.
Proof. intros H x Hx. exact (find_none f l H x Hx). Qed.

(** X8.  After [POST /api/users] with a user name that no stored user has,
    a login with that user name and password answers 200 with the new
    user's id, user name, name, e-mail and role; with any other non-empty
    password it answers 401, and with an empty one 400. *)
Theorem login_after_registration :
  forall now s userData,
    getUserByUsername s (iu_username userData) = None ->
    truthy (iu_username userData) = true ->
    truthy (iu_password userData) = true ->
    let s' := fst (postUser now s userData) in
    postLogin s' (credentials (iu_username userData) (iu_password userData))
    = (200, PObject
              [ ("id", VNum (userCurrentId s));
                ("username", VStr (iu_username userData));
                ("name", VStr (iu_name userData));
                ("email", VStr (iu_email userData));
                ("role", VStr (strOr (iu_role userData) "panel")) ])
    /\ forall password,
         password <> iu_password userData ->
         fst (postLogin s' (credentials (iu_username userData) password))
         = if truthy password then 401 else 400.
Proof.
  intros now s userData Hfree Hu Hp s'.
  assert (Hfind : getUserByUsername s' (iu_username userData)
                  = Some (snd (createUser now s userData))).
  { unfold s', postUser, getUserByUsername. cbn [createUser fst snd users with_users].
    apply find_values_set.
    - intros v' Hv'. exact (find_none_all _ _ Hfree v' Hv').
    - cbn. apply String.eqb_refl. }
  split.
  - unfold postLogin, credentials, missing. cbn [lb_username lb_password nullish].
    rewrite Hu, Hp. cbn [negb orb]. rewrite Hfind.
    cbn [createUser snd u_password u_id u_username u_name u_email u_role].
    now rewrite String.eqb_refl.
  - intros password Hne. unfold postLogin, credentials, missing.
    cbn [lb_username lb_password nullish]. rewrite Hu. cbn [negb orb].
    destruct (truthy password); cbn [negb]; [|reflexivity].
    rewrite Hfind. cbn [createUser snd u_password].
    replace (String.eqb (iu_password userData) password) with false
      by (symmetry; apply String.eqb_neq; congruence).
    reflexivity.
Qed.

Lemma login_after_registration_witness :
  let s' := fst (postUser 5 (newMemStorage 0) newAccount) in
  postLogin s' (credentials "carol" "s3cret")
  = (200, PObject
            [ ("id", VNum 5); ("username", VStr "carol"); ("name", VStr "Carol");
              ("email", VStr "carol@example.com"); ("role", VStr "panel") ])
  /\ forall password,
       password <> "s3cret" ->
       fst (postLogin s' (credentials "carol" password))
       = if truthy password then 401 else 400.
Proof.
  apply (login_after_registration 5 (newMemStorage 0) newAccount);
    reflexivity.
Defined.

(** X9.  After a webhook registration whose e-mail no stored candidate
    has, the lookup by that e-mail returns the new candidate; its serial
    number is looked up to the new candidate too when no stored candidate
    carries it. *)
Theorem registration_lookups :
  forall s body,
    getCandidateByEmail s (wb_email body) = None ->
    let '(s', r) := postWebhook s body in
    exists c,
      r = Json 201 c
      /\ c_email c = wb_email body
      /\ getCandidateByEmail s' (wb_email body) = Some c
      /\ (getCandidateBySerialNo s (c_serialNo c) = None ->
          getCandidateBySerialNo s' (c_serialNo c) = Some c).
Proof.
  intros s body Hfree. unfold postWebhook.
  destruct (createCandidate s _) as [s' c] eqn:Hc.
  unfold createCandidate in Hc. injection Hc as <- <-.
  eexists. split; [reflexivity|]. split; [reflexivity|].
  unfold getCandidateByEmail, getCandidateBySerialNo.
  cbn [candidates with_candidates with_candidateCurrentId].
  split.
  - apply find_values_set.
    + intros v' Hv'. exact (find_none_all _ _ Hfree v' Hv').
    + cbn. apply String.eqb_refl.
  - intros Hserial. apply find_values_set.
    + intros v' Hv'. exact (find_none_all _ _ Hserial v' Hv').
    + cbn. apply String.eqb_refl.
Qed.

Lemma registration_lookups_witness :
  let '(s', r) :=
    postWebhook (newMemStorage 0)
      (mkWebhookBody "Asha" "asha@example.com" "Engineer" 100) in
  exists c,
    r = Json 201 c
    /\ c_email c = "asha@example.com"
    /\ getCandidateByEmail s' "asha@example.com" = Some c
    /\ (getCandidateBySerialNo (newMemStorage 0) (c_serialNo c) = None ->
        getCandidateBySerialNo s' (c_serialNo c) = Some c).
Proof.
  apply (registration_lookups (newMemStorage 0)
           (mkWebhookBody "Asha" "asha@example.com" "Engineer" 100)).
  reflexivity.
Defined.

(** ** What the user payload keeps *)




(** ** Feedback by candidate *)

Lemma map_values_set_fresh {V : Type} (m : JsMap V) k v :
  map_has m k = false -> map_values (map_set m k v) = map_values m ++ [v].
Proof.
  unfold map_has, map_values.
  induction m as [|[k' v'] m IH]; cbn [map_get map_set map app snd];
    [reflexivity|].
  destruct (Z.eqb k' k); [discriminate|].
  intros H. cbn [map snd]. now rewrite IH.
Qed.

Lemma updateCandidate_feedbacks s id p :
  feedbacks (fst (updateCandidate s id p)) = feedbacks s
  /\ feedbackCurrentId (fst (updateCandidate s id p)) = feedbackCurrentId s.
Proof. unfold updateCandidate. destruct (map_get _ _); now split. Qed.

Lemma recordFeedback_feedbacks s fb :
  feedbacks (fst (recordFeedback s fb)) = feedbacks (fst (createFeedback s fb))
  /\ feedbackCurrentId (fst (recordFeedback s fb)) = feedbackCurrentId s + 1
  /\ snd (recordFeedback s fb) = snd (createFeedback s fb).
Proof.
  unfold recordFeedback.
  destruct (createFeedback s fb) as [s1 newFeedback] eqn:Hc.
  assert (Hn : feedbackCurrentId s1 = feedbackCurrentId s + 1).
  { replace s1 with (fst (createFeedback s fb)) by now rewrite Hc.
    reflexivity. }
  cbn [fst snd]. destruct (getCandidate s1 (if_candidateId fb));
    [|now repeat split].
  match goal with
  | |- context [match ?e with pair _ _ => _ end] =>
      destruct e as [status currentRound]
  end.
  destruct (updateCandidate_feedbacks s1 (c_id c)
              (feedbackUpdates status currentRound)) as [-> ->].
  now repeat split.
Qed.

(** X11.  A body that the feedback schema rejects, as it does every body
    that arrives as JSON, is answered 400 and leaves the store as it was.
    For a body that passes, in a store whose feedback keys are below the
    feedback counter, the new record is appended to the list that
    [getFeedbackByCandidate] returns for its candidate id, the lists of
    all other candidate ids are unchanged and the keys stay below the
    counter; the answer is 201 with the record, or 500 when the broadcast
    throws after the record is stored. *)
Theorem feedback_listed_by_candidate :
  forall s body thrown,
    feedbackIdsFresh s ->
    let '(s', r) := postFeedback s body thrown in
    match insertFeedbackSchema_parse body with
    | None => r = Rejected 400 "Invalid feedback data" /\ s' = s
    | Some fb =>
        exists f,
          r = Accepted (if thrown
                        then Message 500 "Failed to create feedback"
                        else Json 201 f)
          /\ f_candidateId f = if_candidateId fb
          /\ (forall candidateId,
                getFeedbackByCandidate s' candidateId
                = getFeedbackByCandidate s candidateId
                  ++ (if Z.eqb (if_candidateId fb) candidateId
                      then [f] else []))
          /\ feedbackIdsFresh s'
    end.
Proof.
  intros s body thrown Hfresh. unfold postFeedback.
  destruct (insertFeedbackSchema_parse body) as [fb|]; [|now split].
  destruct (recordFeedback_feedbacks s fb) as (Hf & Hn & Hr).
  destruct (recordFeedback s fb) as [s1 newFeedback]. cbn [fst snd] in *.
  assert (Hhas : map_has (feedbacks s) (feedbackCurrentId s) = false).
  { unfold map_has.
    destruct (map_get (feedbacks s) (feedbackCurrentId s)) eqn:E; [|reflexivity].
    apply map_get_In in E. apply (in_map fst) in E. cbn in E.
    apply Hfresh in E. lia. }
  assert (Hrest :
    f_candidateId newFeedback = if_candidateId fb
    /\ (forall candidateId,
          getFeedbackByCandidate s1 candidateId
          = getFeedbackByCandidate s candidateId
            ++ (if Z.eqb (if_candidateId fb) candidateId
                then [newFeedback] else []))
    /\ feedbackIdsFresh s1).
  { rewrite Hr. split; [reflexivity|]. split.
    - intros candidateId. unfold getFeedbackByCandidate. rewrite Hf.
      cbn [createFeedback fst snd feedbacks with_feedbacks
           with_feedbackCurrentId].
      rewrite (map_values_set_fresh _ _ _ Hhas), filter_app. reflexivity.
    - intros id. rewrite Hf, Hn.
      cbn [createFeedback fst feedbacks with_feedbacks with_feedbackCurrentId].
      rewrite map_keys_set, Hhas, in_app_iff.
      intros [Hin|[<-|[]]]; [apply Hfresh in Hin|]; lia. }
  destruct thrown; exists newFeedback; (split; [reflexivity | exact Hrest]).
Qed.

Lemma oneRegistration_feedback_fresh : feedbackIdsFresh oneRegistration.
Proof. intros id Hin. vm_compute in Hin. contradiction. Qed.

Lemma feedback_listed_by_candidate_witness :
  let '(s', r) :=
    postFeedback oneRegistration (feedbackBody 1 "hold" JNull (JDate 200))
      false in
  exists f,
    r = Accepted (Json 201 f)
    /\ f_candidateId f = 1
    /\ (forall candidateId,
          getFeedbackByCandidate s' candidateId
          = getFeedbackByCandidate oneRegistration candidateId
            ++ (if Z.eqb 1 candidateId then [f] else []))
    /\ feedbackIdsFresh s'.
Proof.
  exact (feedback_listed_by_candidate oneRegistration
           (feedbackBody 1 "hold" JNull (JDate 200)) false
           oneRegistration_feedback_fresh).
Defined.

(** ** Synchronising with the sheet *)

Section Image.
Context {V B : Type} (f : V -> B).

Lemma image_set_same (m : JsMap V) k v v0 :
  map_get m k = Some v0 -> f v = f v0 ->
  map f (map_values (map_set m k v)) = map f (map_values m).
Proof.
  unfold map_values.
  induction m as [|[k' v'] m IH]; cbn [map_get map_set map snd];
    [discriminate|].
  destruct (Z.eqb k' k).
  - intros [= ->] Hf. cbn [map snd]. now rewrite Hf.
  - intros H Hf. cbn [map snd]. now rewrite IH.
Qed.

Lemma image_set_In (m : JsMap V) k v x :
  In x (map f (map_values (map_set m k v))) ->
  x = f v \/ In x (map f (map_values m)).
Proof.
  unfold map_values.
  induction m as [|[k' v'] m IH]; cbn [map_set map snd].
  - cbn. intuition.
  - destruct (Z.eqb k' k); cbn [map snd In].
    + intuition.
    + intros [H|H]; [now right; left|].
      destruct (IH H); [now left | now right; right].
Qed.

Lemma image_set_NoDup (m : JsMap V) k v :
  NoDup (map f (map_values m)) ->
  ~ In (f v) (map f (map_values m)) ->
  NoDup (map f (map_values (map_set m k v))).
Proof.
  induction m as [|[k' v'] m IH]; intros Hnd Hnot.
  - cbn. constructor; [tauto | constructor].
  - unfold map_values in *. cbn [map_set map snd] in *.
    inversion Hnd as [|? ? Hhead Htail]; subst.
    destruct (Z.eqb k' k); cbn [map snd].
    + constructor; [|exact Htail]. intros Hin. apply Hnot. now right.
    + constructor.
      * intros Hin. apply image_set_In in Hin. destruct Hin as [Heq|Hin].
        -- apply Hnot. left. now symmetry.
        -- now apply Hhead.
      * apply IH; [exact Htail|]. intros Hin. apply Hnot. now right.
Qed.
End Image.

Lemma byEmail_none s email :
  getCandidateByEmail s email = None ->
  ~ In email (map c_email (getCandidates s)).
Proof.
  intros Hnone Hin. apply in_map_iff in Hin. destruct Hin as (c & Hc & Hin).
  pose proof (find_none _ _ Hnone c Hin) as H. cbn in H.
  rewrite Hc, String.eqb_refl in H. discriminate.
Qed.

Lemma byEmail_some s email c :
  getCandidateByEmail s email = Some c ->
  In c (getCandidates s) /\ c_email c = email.
Proof.
  intros H. apply find_some in H. destruct H as [Hin He].
  split; [exact Hin | now apply String.eqb_eq].
Qed.

Lemma byEmail_found s email :
  In email (map c_email (getCandidates s)) ->
  getCandidateByEmail s email <> None.
Proof.
  intros Hin Hnone. exact (byEmail_none s email Hnone Hin).
Qed.

(** An update that does not name [email] leaves the list of e-mails as
    it is. *)
Lemma updateCandidate_emails s id p :
  pc_email p = None ->
  map c_email (getCandidates (fst (updateCandidate s id p)))
  = map c_email (getCandidates s).
Proof.
  intros Hp. unfold updateCandidate, getCandidates.
  destruct (map_get (candidates s) id) as [existing|] eqn:E; [|reflexivity].
  cbn [fst candidates with_candidates].
  apply (image_set_same c_email _ _ _ existing E).
  unfold mergeCandidate. cbn. now rewrite Hp.
Qed.

Lemma syncOne_emailsDistinct now s candidateData :
  emailsDistinct s -> emailsDistinct (syncOne now s candidateData).
Proof.
  unfold emailsDistinct, syncOne. intros Hnd.
  destruct (getCandidateByEmail s (sc_email candidateData)) eqn:E.
  - now rewrite updateCandidate_emails.
  - unfold getCandidates, createCandidate.
    cbn [fst candidates with_candidates with_candidateCurrentId].
    apply image_set_NoDup; [exact Hnd|].
    cbn. now apply byEmail_none.
Qed.

(** X12.  The sync handler keeps e-mail addresses distinct: if no two
    stored candidates share an e-mail before a
    [POST /api/google-sheets/control], none do after it, whatever the
    action and whatever rows the body carries, rows repeating an e-mail
    included. *)
Theorem sync_keeps_emails_distinct :
  forall now s body,
    emailsDistinct s -> emailsDistinct (fst (postControl now s body)).
Proof.
  intros now s body Hd. unfold postControl.
  destruct (String.eqb (cb_action body) "sync").
  - destruct (cb_candidates body) as [l|]; cbn [fst]; [|exact Hd].
    revert s Hd. induction l as [|x l IH]; intros s Hd; [exact Hd|].
    cbn [fold_left]. apply IH. now apply syncOne_emailsDistinct.
  - now destruct (String.eqb (cb_action body) "init").
Qed.

Lemma sync_keeps_emails_distinct_witness :
  emailsDistinct (fst (postControl 9 oneRegistration sheetRows)).
Proof.
  apply (sync_keeps_emails_distinct 9 oneRegistration sheetRows).
  unfold emailsDistinct. vm_compute. repeat constructor. simpl. tauto.
Defined.

Lemma syncOne_known now s candidateData :
  In (sc_email candidateData) (map c_email (getCandidates s)) ->
  map c_email (getCandidates (syncOne now s candidateData))
  = map c_email (getCandidates s)
  /\ List.length (candidates (syncOne now s candidateData))
     = List.length (candidates s)
  /\ candidateCurrentId (syncOne now s candidateData) = candidateCurrentId s.
Proof.
  intros Hin. apply byEmail_found in Hin. unfold syncOne.
  destruct (getCandidateByEmail s (sc_email candidateData)) as [c|];
    [|contradiction].
  split; [now apply updateCandidate_emails|].
  unfold updateCandidate.
  destruct (map_get (candidates s) (c_id c)) eqn:E; cbn; [|now split].
  split; [|reflexivity].
  rewrite map_set_length. unfold map_has. now rewrite E.
Qed.

Lemma syncOne_grows now s candidateData :
  candidateIdsFresh s ->
  incl (map c_email (getCandidates s))
    (map c_email (getCandidates (syncOne now s candidateData)))
  /\ In (sc_email candidateData)
       (map c_email (getCandidates (syncOne now s candidateData))).
Proof.
  intros Hfresh. unfold syncOne.
  destruct (getCandidateByEmail s (sc_email candidateData)) as [c|] eqn:E.
  - rewrite updateCandidate_emails by reflexivity.
    split; [apply incl_refl|].
    apply byEmail_some in E. destruct E as [Hin <-]. now apply in_map.
  - unfold getCandidates, createCandidate.
    cbn [fst candidates with_candidates with_candidateCurrentId].
    rewrite (map_values_set_fresh _ _ _ (fresh_not_has s Hfresh)).
    rewrite map_app. cbn. split.
    + apply incl_appl, incl_refl.
    + apply in_or_app. right. now left.
Qed.

Lemma sync_all_known now l :
  forall s,
    (forall x, In x l -> In (sc_email x) (map c_email (getCandidates s))) ->
    List.length (candidates (fold_left (syncOne now) l s))
    = List.length (candidates s)
    /\ candidateCurrentId (fold_left (syncOne now) l s) = candidateCurrentId s.
Proof.
  induction l as [|x l IH]; intros s Hknown; [now split|].
  cbn [fold_left].
  destruct (syncOne_known now s x (Hknown x (or_introl eq_refl)))
    as (He & Hl & Hn).
  destruct (IH (syncOne now s x)) as [Hl' Hn'].
  { intros y Hy. rewrite He. apply Hknown. now right. }
  split; congruence.
Qed.

Lemma sync_makes_known now l :
  forall s,
    candidateIdsFresh s ->
    incl (map c_email (getCandidates s))
      (map c_email (getCandidates (fold_left (syncOne now) l s)))
    /\ forall x, In x l ->
         In (sc_email x)
           (map c_email (getCandidates (fold_left (syncOne now) l s))).
Proof.
  induction l as [|x l IH]; intros s Hfresh.
  - split; [apply incl_refl | intros x []].
  - cbn [fold_left].
    destruct (syncOne_grows now s x Hfresh) as [Hincl Hx].
    destruct (syncOne_count now s x Hfresh) as [Hfresh' _].
    destruct (IH _ Hfresh') as [Hincl' Hl].
    split.
    + eapply incl_tran; eassumption.
    + intros y [<-|Hy]; [now apply Hincl' | now apply Hl].
Qed.

Lemma oneRegistration_fresh : candidateIdsFresh oneRegistration.
Proof.
  exact (proj1 (handle_count 0
                  (ReqPostWebhook
                     (mkWebhookBody "Asha" "asha@example.com" "Engineer" 100))
                  (newMemStorage 0) (newMemStorage_fresh 0))).
Qed.

(** X13.  Sending the same sync body a second time creates no candidate
    and hands out no id: after the first run every row's e-mail is
    stored, so the second run only updates.  This holds from any store
    whose candidate keys are below the candidate counter. *)
Theorem sync_twice_creates_nothing :
  forall now now' s body,
    candidateIdsFresh s ->
    let s1 := fst (postControl now s body) in
    let s2 := fst (postControl now' s1 body) in
    List.length (getCandidates s2) = List.length (getCandidates s1)
    /\ candidateCurrentId s2 = candidateCurrentId s1
    /\ map c_email (getCandidates s2) = map c_email (getCandidates s1).
Proof.
  intros now now' s body Hfresh. unfold postControl.
  destruct (String.eqb (cb_action body) "sync");
    [|destruct (String.eqb (cb_action body) "init"); now repeat split].
  destruct (cb_candidates body) as [l|]; cbn [fst]; [|now repeat split].
  destruct (sync_makes_known now l s Hfresh) as [_ Hknown].
  set (s1 := fold_left (syncOne now) l s) in *.
  destruct (sync_all_known now' l s1 Hknown) as [Hlen Hn].
  unfold getCandidates. rewrite !map_values_length.
  split; [exact Hlen|]. split; [exact Hn|].
  clear Hlen Hn. revert Hknown. generalize s1. clear.
  induction l as [|x l IH]; intros s Hknown; [reflexivity|].
  cbn [fold_left].
  destruct (syncOne_known now' s x (Hknown x (or_introl eq_refl))) as (He & _).
  unfold getCandidates in *. rewrite IH; [exact He|].
  intros y Hy. rewrite He. apply Hknown. now right.
Qed.

Lemma sync_twice_creates_nothing_witness :
  let s1 := fst (postControl 9 oneRegistration sheetRows) in
  let s2 := fst (postControl 12 s1 sheetRows) in
  List.length (getCandidates s2) = List.length (getCandidates s1)
  /\ candidateCurrentId s2 = candidateCurrentId s1
  /\ map c_email (getCandidates s2) = map c_email (getCandidates s1).
Proof.
  apply (sync_twice_creates_nothing 9 12 oneRegistration sheetRows).
  exact oneRegistration_fresh.
Defined.

(** ** Records are never dropped *)

Lemma keepsRecords_refl s : keepsRecords s s.
Proof. unfold keepsRecords. auto. Qed.

Lemma keepsRecords_trans s1 s2 s3 :
  keepsRecords s1 s2 -> keepsRecords s2 s3 -> keepsRecords s1 s3.
Proof.
  intros (A1 & B1 & C1 & D1) (A2 & B2 & C2 & D2).
  unfold keepsRecords. auto 10.
Qed.

Lemma call_keepsRecords c s : keepsRecords s (fst (call c s)).
Proof. destruct c; cbn [call]; keeps_step @map_get_set. Qed.

Lemma updateCandidate_keeps s id p : keepsRecords s (fst (updateCandidate s id p)).
Proof. exact (call_keepsRecords (CallUpdateCandidate id p) s). Qed.

Lemma createCandidate_keeps s d : keepsRecords s (fst (createCandidate s d)).
Proof. exact (call_keepsRecords (CallCreateCandidate d) s). Qed.

Lemma updatePanel_keeps s id p : keepsRecords s (fst (updatePanel s id p)).
Proof. exact (call_keepsRecords (CallUpdatePanel id p) s). Qed.

Lemma detach_keeps panelId l :
  forall s, keepsRecords s (fold_left (detachFrom panelId) l s).
Proof.
  induction l as [|room l IH]; intros s; [apply keepsRecords_refl|].
  cbn [fold_left]. eapply keepsRecords_trans; [|apply IH].
  exact (call_keepsRecords (CallRemovePanelFromRoom (r_id room) panelId) s).
Qed.

Lemma sync_keeps now l :
  forall s, keepsRecords s (fold_left (syncOne now) l s).
Proof.
  induction l as [|x l IH]; intros s; [apply keepsRecords_refl|].
  cbn [fold_left]. eapply keepsRecords_trans; [|apply IH].
  unfold syncOne. destruct (getCandidateByEmail s _).
  - apply updateCandidate_keeps.
  - apply createCandidate_keeps.
Qed.

Lemma handle_keepsRecords now req s : keepsRecords s (handle now req s).
Proof.
  destruct req; cbn [handle].
  - exact (call_keepsRecords (CallCreateCandidate d) s).
  - unfold patchCandidate.
    pose proof (updateCandidate_keeps s id p) as H.
    now destruct (updateCandidate s id p) as [s' [c|]].
  - exact (call_keepsRecords (CallCreatePanel d) s).
  - unfold patchPanel.
    pose proof (updatePanel_keeps s id p) as H.
    now destruct (updatePanel s id p) as [s' [c|]].
  - rewrite postFeedback_store.
    destruct (insertFeedbackSchema_parse body) as [d|];
      [|apply keepsRecords_refl].
    unfold recordFeedback.
    pose proof (call_keepsRecords (CallCreateFeedback d) s) as H1.
    cbn [call] in H1.
    destruct (createFeedback s d) as [s1 newFeedback]. cbn [fst] in *.
    destruct (getCandidate s1 (if_candidateId d)); [|exact H1].
    match goal with
    | |- context [match ?e with pair _ _ => _ end] =>
        destruct e as [status currentRound]
    end.
    eapply keepsRecords_trans; [exact H1 | apply updateCandidate_keeps].
  - unfold postWebhook.
    match goal with
    | |- context [createCandidate s ?d] =>
        pose proof (createCandidate_keeps s d) as H;
        destruct (createCandidate s d)
    end.
    exact H.
  - unfold postControl.
    destruct (String.eqb (cb_action b) "sync").
    + destruct (cb_candidates b); cbn [fst];
        [apply sync_keeps | apply keepsRecords_refl].
    + destruct (String.eqb (cb_action b) "init"); apply keepsRecords_refl.
  - unfold postManual.
    destruct (missing (mb_name b) || missing (mb_email b)
              || missing (mb_position b)); [apply keepsRecords_refl|].
    match goal with
    | |- context [createCandidate s ?d] =>
        pose proof (createCandidate_keeps s d) as H;
        destruct (createCandidate s d)
    end.
    exact H.
  - exact (call_keepsRecords (CallCreateRoom d) s).
  - unfold patchRoom.
    pose proof (call_keepsRecords (CallUpdateRoom id p) s) as H. cbn [call fst] in H.
    now destruct (updateRoom s id p) as [s' [c|]].
  - rewrite postAssignPanel_steps.
    assert (H2 : keepsRecords s (afterRoomNo s roomId panelId)).
    { unfold afterRoomNo, afterDetach. cbv zeta.
      set (s1 := fold_left _ _ s).
      assert (H1 : keepsRecords s s1) by apply detach_keeps.
      destruct (getPanel s1 panelId); [|exact H1].
      destruct (getRoom s1 roomId); [|exact H1].
      eapply keepsRecords_trans; [exact H1 | apply updatePanel_keeps]. }
    pose proof (call_keepsRecords (CallAssignPanelToRoom roomId panelId)
                  (afterRoomNo s roomId panelId)) as H3.
    cbn [call fst] in H3.
    destruct (assignPanelToRoom _ roomId panelId) as [s' [r|]]; cbn [fst] in *;
      eapply keepsRecords_trans; eassumption.
  - unfold postRemovePanel.
    set (s1 := match getPanel s panelId with Some _ => _ | None => s end).
    assert (H1 : keepsRecords s s1).
    { unfold s1. destruct (getPanel s panelId); [|apply keepsRecords_refl].
      apply updatePanel_keeps. }
    pose proof (call_keepsRecords (CallRemovePanelFromRoom roomId panelId) s1)
      as H2.
    cbn [call fst] in H2.
    destruct (removePanelFromRoom s1 roomId panelId) as [s' [r|]];
      cbn [fst] in *; eapply keepsRecords_trans; eassumption.
  - exact (call_keepsRecords (CallCreateCandidateFeedback now d) s).
  - exact (call_keepsRecords (CallCreateUser now d) s).
  - unfold patchUser.
    pose proof (call_keepsRecords (CallUpdateUser id p) s) as H. cbn [call fst] in H.
    now destruct (updateUser s id p) as [s' [c|]].
  - unfold deleteUserRoute.
    pose proof (call_keepsRecords (CallDeleteUser id) s) as H. cbn [call fst] in H.
    now destruct (deleteUser s id) as [s' [|]].
  - exact (call_keepsRecords (CallCreateRolePermission now d) s).
  - unfold patchRolePermission.
    pose proof (call_keepsRecords (CallUpdateRolePermission now id p) s) as H.
    cbn [call fst] in H.
    now destruct (updateRolePermission now s id p) as [s' [c|]].
  - unfold deleteRolePermissionRoute.
    pose proof (call_keepsRecords (CallDeleteRolePermission id) s) as H.
    cbn [call fst] in H.
    now destruct (deleteRolePermission s id) as [s' [|]].
Qed.

(** X14.  No storage call and no request ever drops a candidate, a panel,
    a room or a feedback record: an id of one of these kinds that is
    stored before a call, a request or any sequence of requests is still
    stored after it. *)
Theorem records_are_never_dropped :
  (forall c s, keepsRecords s (fst (call c s)))
  /\ (forall now req s, keepsRecords s (handle now req s))
  /\ (forall reqs s, keepsRecords s (serve reqs s)).
Proof.
  split; [exact call_keepsRecords|]. split; [exact handle_keepsRecords|].
  induction reqs as [|[now req] rest IH]; intros s; [apply keepsRecords_refl|].
  cbn [serve]. eapply keepsRecords_trans; [apply handle_keepsRecords | apply IH].
Qed.

(** ** Panel lists without repetition *)

Lemma attached_NoDup panelId room :
  NoDup (panelsOf room) -> NoDup (panelsOf (attached panelId room)).
Proof.
  intros Hnd. unfold attached.
  destruct (includes (panelsOf room) panelId) eqn:E; [exact Hnd|].
  change (panelsOf (withAssignment room (panelsOf room ++ [panelId]) true))
    with (panelsOf room ++ [panelId]).
  apply includes_not_In in E.
  apply NoDup_app; [exact Hnd | repeat constructor; simpl; tauto |].
  intros x Hx [<-|[]]. contradiction.
Qed.

Lemma detached_NoDup panelId room :
  NoDup (panelsOf room) -> NoDup (panelsOf (detached panelId room)).
Proof. intros Hnd. rewrite detached_panels. now apply NoDup_filter. Qed.

(** X15.  If no room lists a panel twice, none does after the assign-panel
    handler, after the remove-panel handler, or after the storage methods
    [assignPanelToRoom] and [removePanelFromRoom] called on their own. *)
Theorem panel_lists_stay_distinct :
  forall s roomId panelId,
    panelListsDistinct s ->
    panelListsDistinct (fst (postAssignPanel s roomId panelId))
    /\ panelListsDistinct (fst (postRemovePanel s roomId panelId))
    /\ panelListsDistinct (fst (assignPanelToRoom s roomId panelId))
    /\ panelListsDistinct (fst (removePanelFromRoom s roomId panelId)).
Proof.
  intros s roomId panelId Hd. repeat apply conj; intros id room'.
  - rewrite postAssignPanel_getRoom. cbv zeta.
    destruct (getRoom s id) as [room|] eqn:E; cbn [option_map].
    + specialize (Hd id room E).
      destruct (Z.eqb roomId id && present (getPanel s panelId));
        [|destruct (visits _ id)]; intros [= <-];
        auto using attached_NoDup, detached_NoDup.
    + destruct (Z.eqb roomId id && present (getPanel s panelId));
        [|destruct (visits _ id)]; discriminate.
  - rewrite postRemovePanel_getRoom.
    destruct (getRoom s id) as [room|] eqn:E; cbn [option_map].
    + specialize (Hd id room E).
      destruct (Z.eqb roomId id); intros [= <-]; auto using detached_NoDup.
    + destruct (Z.eqb roomId id); discriminate.
  - rewrite assignPanelToRoom_getRoom.
    destruct (getRoom s roomId) as [room|] eqn:E; [|apply Hd].
    destruct (getPanel s panelId); [|apply Hd].
    destruct (Z.eqb roomId id); [|apply Hd].
    intros [= <-]. apply attached_NoDup. exact (Hd roomId room E).
  - rewrite removePanelFromRoom_getRoom.
    destruct (getRoom s id) as [room|] eqn:E; cbn [option_map].
    + specialize (Hd id room E).
      destruct (Z.eqb roomId id); intros [= <-]; auto using detached_NoDup.
    + destruct (Z.eqb roomId id); discriminate.
Qed.

Lemma newMemStorage_distinct now : panelListsDistinct (newMemStorage now).
Proof.
  intros id room H.
  destruct (newMemStorage_room now id room H) as [E|[E|E]];
    injection E as -> ->; cbn; repeat constructor; simpl; tauto.
Qed.

Lemma panel_lists_stay_distinct_witness :
  panelListsDistinct (fst (postAssignPanel (newMemStorage 0) 2 1))
  /\ panelListsDistinct (fst (postRemovePanel (newMemStorage 0) 2 1))
  /\ panelListsDistinct (fst (assignPanelToRoom (newMemStorage 0) 2 1))
  /\ panelListsDistinct (fst (removePanelFromRoom (newMemStorage 0) 2 1)).
Proof.
  apply (panel_lists_stay_distinct (newMemStorage 0) 2 1).
  apply newMemStorage_distinct.
Defined.

(** ** The sorted waiting list *)

Section SortOrder.
Context {A : Type} (compare : A -> A -> Z) (key : A -> Z).
Hypothesis compare_key : forall a b, compare a b = key a - key b.

Lemma insertSorted_perm x l : Permutation (insertSorted compare x l) (x :: l).
Proof.
  induction l as [|y l IH]; cbn; [reflexivity|].
  destruct (Z.leb _ _); [reflexivity|].
  rewrite IH. apply perm_swap.
Qed.

Lemma sort_perm l : Permutation (sort compare l) l.
Proof.
  induction l as [|x l IH]; cbn; [reflexivity|].
  rewrite insertSorted_perm. now constructor.
Qed.

Lemma insertSorted_sorted x l :
  StronglySorted (fun a b => key a <= key b) l ->
  StronglySorted (fun a b => key a <= key b) (insertSorted compare x l).
Proof.
  induction 1 as [|y l Hl IH Hy]; cbn.
  - repeat constructor.
  - rewrite compare_key. destruct (Z.leb_spec (key x - key y) 0).
    + constructor; [now constructor|].
      constructor; [lia|].
      eapply Forall_impl; [|exact Hy]. cbn. intros; lia.
    + constructor; [exact IH|].
      apply (insertSorted_Forall compare); [lia | exact Hy].
Qed.

Lemma sort_sorted l :
  StronglySorted (fun a b => key a <= key b) (sort compare l).
Proof.
  induction l as [|x l IH]; cbn; [constructor|].
  now apply insertSorted_sorted.
Qed.
End SortOrder.

Lemma firstn_In {A : Type} n (l : list A) x : In x (firstn n l) -> In x l.
Proof.
  intros H. rewrite <- (firstn_skipn n l). apply in_or_app. now left.
Qed.

Lemma firstn_sorted {A : Type} (R : A -> A -> Prop) n l :
  StronglySorted R l -> StronglySorted R (firstn n l).
Proof.
  intros H. revert n. induction H as [|x l Hl IH Hx]; intros [|n]; cbn;
    try constructor.
  - apply IH.
  - apply Forall_forall. intros y Hy. rewrite Forall_forall in Hx.
    apply Hx. eapply firstn_In; exact Hy.
Qed.

Lemma findIndex_none {A : Type} (f : A -> bool) l :
  findIndex f l = -1 <-> forall x, In x l -> f x = false.
Proof.
  induction l as [|x l IH]; cbn [findIndex].
  - split; [intros _ y [] | reflexivity].
  - destruct (f x) eqn:E.
    + split; [discriminate|]. intros H. specialize (H x (or_introl eq_refl)).
      congruence.
    + pose proof (findIndex_nonneg f l) as Hnn.
      destruct (Z.eqb_spec (findIndex f l) (-1)) as [Heq|Hne].
      * split; [|reflexivity]. intros _ y [<-|Hy]; [exact E|].
        now apply IH.
      * split; [lia|]. intros H. exfalso. apply Hne. apply IH.
        intros y Hy. apply H. now right.
Qed.

Lemma findIndex_found {A : Type} (f : A -> bool) l :
  0 <= findIndex f l ->
  exists x,
    nth_error l (Z.to_nat (findIndex f l)) = Some x /\ f x = true
    /\ findIndex f l < Z.of_nat (List.length l).
Proof.
  induction l as [|x l IH]; cbn [findIndex]; [lia|].
  destruct (f x) eqn:E.
  - intros _. exists x. split; [reflexivity|].
    split; [exact E | cbn [List.length]; lia].
  - pose proof (findIndex_nonneg f l) as Hnn.
    destruct (Z.eqb_spec (findIndex f l) (-1)) as [Heq|Hne]; [lia|].
    intros _. destruct IH as (y & Hy & Hfy & Hlt); [lia|].
    exists y. replace (Z.to_nat (findIndex f l + 1))
      with (S (Z.to_nat (findIndex f l))) by lia.
    cbn [nth_error]. split; [exact Hy|].
    split; [exact Hfy | cbn [List.length]; lia].
Qed.

Lemma filterIndex_firstn {A : Type} (n : nat) (l : list A) :
  filterIndex (fun index => Z.ltb index (Z.of_nat n)) l = firstn n l.
Proof.
  destruct (Nat.le_gt_cases (List.length l) n) as [Hle|Hgt].
  - rewrite firstn_all2 by exact Hle. unfold filterIndex.
    apply filterIndexFrom_all. lia.
  - assert (Hlen : List.length (firstn n l) = n) by (apply firstn_length_le; lia).
    pose proof (filterIndex_prefix (firstn n l) (skipn n l)) as H.
    now rewrite firstn_skipn, Hlen in H.
Qed.

(** ** The queue position in general *)

Lemma queueEffect_run candidate allCandidates st :
  allCandidates <> [] ->
  queueEffect (Some candidate) allCandidates st
  = let position :=
      findIndex (fun c => String.eqb (c_email c) (c_email candidate))
        (waitingList candidate allCandidates) in
    mkQueueState (if Z.eqb position (-1) then 0 else position + 1)
      (firstn (Z.to_nat position) (waitingList candidate allCandidates)).
Proof.
  intros Hne. unfold queueEffect, waitingList.
  destruct allCandidates as [|c0 rest]; [contradiction|].
  cbn [List.length Nat.ltb Nat.leb]. cbv zeta.
  set (sorted := sort byTimestamp _).
  set (position := findIndex _ sorted).
  f_equal.
  - now destruct (Z.eqb position (-1)).
  - assert (Hnn : position = -1 \/ 0 <= position) by apply findIndex_nonneg.
    destruct Hnn as [Hm|Hp].
    + rewrite Hm. unfold filterIndex. now rewrite filterIndexFrom_none by lia.
    + rewrite <- (filterIndex_firstn (Z.to_nat position) sorted).
      now rewrite Z2Nat.id by exact Hp.
Qed.

Lemma waitingList_In candidate allCandidates c :
  In c (waitingList candidate allCandidates)
  <-> In c allCandidates /\ sameRoundWaiting candidate c = true.
Proof.
  unfold waitingList. rewrite <- filter_In. split; intros H.
  - eapply Permutation_in; [apply sort_perm | exact H].
  - eapply Permutation_in; [symmetry; apply sort_perm | exact H].
Qed.

Lemma findIndex_first {A : Type} (f : A -> bool) l x :
  In x (firstn (Z.to_nat (findIndex f l)) l) -> f x = false.
Proof.
  induction l as [|y l IH]; cbn [findIndex].
  - now destruct (Z.to_nat (-1)).
  - destruct (f y) eqn:E; [intros []|].
    pose proof (findIndex_nonneg f l) as Hnn.
    destruct (Z.eqb_spec (findIndex f l) (-1)) as [Heq|Hne]; [intros []|].
    replace (Z.to_nat (findIndex f l + 1))
      with (S (Z.to_nat (findIndex f l))) by lia.
    cbn [firstn]. intros [<-|Hin]; [exact E | now apply IH].
Qed.

Lemma sorted_before {A : Type} (R : A -> A -> Prop) l :
  StronglySorted R l ->
  forall i c a, nth_error l i = Some c -> In a (firstn i l) -> R a c.
Proof.
  induction 1 as [|x l Hl IH Hx]; intros [|i] c a Hc Ha; cbn in *;
    try contradiction; try discriminate.
  destruct Ha as [<-|Ha].
  - rewrite Forall_forall in Hx. apply Hx. eapply nth_error_In. exact Hc.
  - eapply IH; eassumption.
Qed.

(** X16.  The queue effect leaves the state alone while it has no
    candidate or an empty collection.  Otherwise the position is 0 exactly
    when no same-round waiting candidate of the collection has the
    candidate's e-mail, it never exceeds the number of same-round waiting
    candidates, and the candidates ahead are the first [position - 1]
    entries of the sorted waiting list, all of them same-round waiting
    candidates of the collection. *)
Theorem queue_position_bounds :
  (forall allCandidates st, queueEffect None allCandidates st = st)
  /\ (forall candidate st, queueEffect (Some candidate) [] st = st)
  /\ (forall candidate allCandidates st,
        allCandidates <> [] ->
        let q := queueEffect (Some candidate) allCandidates st in
        (queuePosition q = 0 <->
         forall c, In c allCandidates ->
                   sameRoundWaiting candidate c = true ->
                   c_email c <> c_email candidate)
        /\ 0 <= queuePosition q
           <= Z.of_nat (List.length
                          (filter (sameRoundWaiting candidate) allCandidates))
        /\ candidatesAhead q
           = firstn (Z.to_nat (queuePosition q - 1))
               (waitingList candidate allCandidates)
        /\ (forall c, In c (candidatesAhead q) ->
                      In c allCandidates
                      /\ sameRoundWaiting candidate c = true)).
Proof.
  split; [reflexivity|]. split; [reflexivity|].
  intros candidate allCandidates st Hne q. unfold q.
  rewrite (queueEffect_run candidate allCandidates st Hne). cbv zeta.
  set (f := fun c => String.eqb (c_email c) (c_email candidate)).
  set (sorted := waitingList candidate allCandidates).
  cbn [queuePosition candidatesAhead].
  pose proof (findIndex_none f sorted) as Hnone.
  pose proof (findIndex_found f sorted) as Hfound.
  destruct (findIndex_nonneg f sorted) as [Hm|Hp].
  - rewrite Hm, Z.eqb_refl. split; [|split; [|split]].
    + split; [|reflexivity]. intros _ c Hin Hw.
      assert (Hs : In c sorted) by now apply waitingList_In.
      apply (proj1 Hnone Hm) in Hs. now apply String.eqb_neq.
    + lia.
    + reflexivity.
    + intros c [].
  - destruct (Hfound Hp) as (x & Hx & Hfx & Hlt).
    replace (Z.eqb (findIndex f sorted) (-1)) with false
      by (symmetry; apply Z.eqb_neq; lia).
    split; [|split; [|split]].
    + split; [lia|]. intros Hall. exfalso.
      apply nth_error_In in Hx. apply waitingList_In in Hx.
      destruct Hx as [Hin Hw]. apply (Hall x Hin Hw).
      now apply String.eqb_eq.
    + assert (Hlen : List.length sorted
                     = List.length
                         (filter (sameRoundWaiting candidate) allCandidates))
        by apply sort_length.
      rewrite Hlen in Hlt. lia.
    + f_equal. lia.
    + intros c Hc. apply firstn_In in Hc. now apply waitingList_In.
Qed.

Lemma queue_position_bounds_witness :
  let q := queueEffect (Some queueD) [queueA; queueB; queueC; queueD]
             initialQueueState in
  (queuePosition q = 0 <->
   forall c, In c [queueA; queueB; queueC; queueD] ->
             sameRoundWaiting queueD c = true ->
             c_email c <> c_email queueD)
  /\ 0 <= queuePosition q
     <= Z.of_nat (List.length
                    (filter (sameRoundWaiting queueD)
                       [queueA; queueB; queueC; queueD]))
  /\ candidatesAhead q
     = firstn (Z.to_nat (queuePosition q - 1))
         (waitingList queueD [queueA; queueB; queueC; queueD])
  /\ (forall c, In c (candidatesAhead q) ->
                In c [queueA; queueB; queueC; queueD]
                /\ sameRoundWaiting queueD c = true).
Proof.
  apply (proj2 (proj2 queue_position_bounds) queueD
           [queueA; queueB; queueC; queueD] initialQueueState).
  discriminate.
Defined.

(** X17.  The candidates ahead are in non-decreasing order of registration
    time.  When the position is positive, the entry of the sorted waiting
    list at that position carries the candidate's e-mail, and everyone
    ahead of it registered no later than it and has another e-mail. *)
Theorem queue_order :
  forall candidate allCandidates st,
    allCandidates <> [] ->
    let q := queueEffect (Some candidate) allCandidates st in
    StronglySorted notLater (candidatesAhead q)
    /\ (0 < queuePosition q ->
        exists own,
          nth_error (waitingList candidate allCandidates)
            (Z.to_nat (queuePosition q - 1)) = Some own
          /\ c_email own = c_email candidate
          /\ In own allCandidates
          /\ sameRoundWaiting candidate own = true
          /\ forall a, In a (candidatesAhead q) ->
                       notLater a own /\ c_email a <> c_email candidate).
Proof.
  intros candidate allCandidates st Hne q. unfold q.
  rewrite (queueEffect_run candidate allCandidates st Hne). cbv zeta.
  set (f := fun c => String.eqb (c_email c) (c_email candidate)).
  set (sorted := waitingList candidate allCandidates).
  cbn [queuePosition candidatesAhead].
  assert (Hsorted : StronglySorted notLater sorted).
  { unfold sorted, waitingList.
    apply (sort_sorted byTimestamp c_timestamp (fun _ _ => eq_refl)). }
  split; [now apply firstn_sorted|].
  pose proof (findIndex_found f sorted) as Hfound.
  destruct (findIndex_nonneg f sorted) as [Hm|Hp].
  - rewrite Hm, Z.eqb_refl. lia.
  - destruct (Hfound Hp) as (x & Hx & Hfx & Hlt).
    replace (Z.eqb (findIndex f sorted) (-1)) with false
      by (symmetry; apply Z.eqb_neq; lia).
    intros _. exists x.
    replace (Z.to_nat (findIndex f sorted + 1 - 1))
      with (Z.to_nat (findIndex f sorted)) by lia.
    split; [exact Hx|]. split; [now apply String.eqb_eq|].
    pose proof (nth_error_In _ _ Hx) as Hin.
    apply waitingList_In in Hin. destruct Hin as [Hin Hw].
    split; [exact Hin|]. split; [exact Hw|].
    intros a Ha. split.
    + eapply sorted_before; eassumption.
    + apply String.eqb_neq. exact (findIndex_first f sorted a Ha).
Qed.

Lemma queue_order_witness :
  let q := queueEffect (Some queueC) [queueA; queueB; queueC; queueD]
             initialQueueState in
  StronglySorted notLater (candidatesAhead q)
  /\ (0 < queuePosition q ->
      exists own,
        nth_error (waitingList queueC [queueA; queueB; queueC; queueD])
          (Z.to_nat (queuePosition q - 1)) = Some own
        /\ c_email own = c_email queueC
        /\ In own [queueA; queueB; queueC; queueD]
        /\ sameRoundWaiting queueC own = true
        /\ forall a, In a (candidatesAhead q) ->
                     notLater a own /\ c_email a <> c_email queueC).
Proof.
  apply (queue_order queueC [queueA; queueB; queueC; queueD] initialQueueState).
  discriminate.
Defined.

(** ** The panel dashboard queue *)

(** X18.  The queue of the panel dashboard holds exactly the candidates of
    the list whose status is in_queue or registered and who are assigned
    to no panel (null or 0) or to the user's panel, each as often as in
    the list, in non-decreasing order of registration time, candidates of
    the same instant keeping their order.  Without a panel for the user,
    a candidate assigned to some panel is never in it. *)
Theorem panel_queue :
  forall userPanel candidates,
    Permutation (queueCandidates userPanel candidates)
      (filter (inPanelQueue userPanel) candidates)
    /\ StronglySorted notLater (queueCandidates userPanel candidates)
    /\ (forall t,
          filter (fun c => Z.eqb (c_timestamp c) t)
            (queueCandidates userPanel candidates)
          = filter (fun c => Z.eqb (c_timestamp c) t)
              (filter (inPanelQueue userPanel) candidates))
    /\ (forall c, In c (queueCandidates userPanel candidates) ->
                  c_status c = "in_queue" \/ c_status c = "registered")
    /\ (forall c n, In c (queueCandidates None candidates) ->
                    c_assignedPanel c = Some n -> n = 0).
Proof.
  intros userPanel candidates. unfold queueCandidates. repeat apply conj.
  - apply sort_perm.
  - apply (sort_sorted byTimestamp c_timestamp (fun _ _ => eq_refl)).
  - intros t.
    set (l := filter (inPanelQueue userPanel) candidates).
    rewrite (sort_partition byTimestamp c_timestamp (fun _ _ => eq_refl) t l).
    rewrite !filter_app.
    assert (Hnone : forall (g : Candidate -> bool) m,
               (forall c, g c = true -> Z.eqb (c_timestamp c) t = false) ->
               filter (fun c => Z.eqb (c_timestamp c) t)
                 (sort byTimestamp (filter g m)) = []).
    { intros g m Hg.
      assert (Hall : Forall (fun c => Z.eqb (c_timestamp c) t = false)
                       (sort byTimestamp (filter g m))).
      { apply sort_Forall. apply Forall_forall. intros c Hc.
        apply filter_In in Hc. now apply Hg. }
      induction Hall as [|c r Hc Hr IH]; cbn; [reflexivity|].
      now rewrite Hc. }
    rewrite (Hnone (fun y => Z.ltb (c_timestamp y) t) l)
      by (intros c Hc; apply Z.ltb_lt in Hc; apply Z.eqb_neq; lia).
    rewrite (Hnone (fun y => Z.ltb t (c_timestamp y)) l)
      by (intros c Hc; apply Z.ltb_lt in Hc; apply Z.eqb_neq; lia).
    rewrite app_nil_r. cbn [app].
    rewrite filter_filter_and. apply filter_ext.
    intros c. now rewrite andb_diag.
  - intros c Hc.
    apply (Permutation_in _ (sort_perm byTimestamp _)) in Hc.
    apply filter_In in Hc. destruct Hc as [_ Hc]. unfold inPanelQueue in Hc.
    apply andb_true_iff in Hc. destruct Hc as [Hs _].
    apply orb_true_iff in Hs.
    destruct Hs as [Hs|Hs]; apply String.eqb_eq in Hs; auto.
  - intros c n Hc Hn.
    apply (Permutation_in _ (sort_perm byTimestamp _)) in Hc.
    apply filter_In in Hc. destruct Hc as [_ Hc]. unfold inPanelQueue in Hc.
    rewrite Hn in Hc. apply andb_true_iff in Hc. destruct Hc as [_ Hc].
    rewrite orb_false_r in Hc. now apply Z.eqb_eq.
Qed.

(** ** Manual registration *)

Lemma createCandidate_appends s d :
  candidateIdsFresh s ->
  getCandidates (fst (createCandidate s d))
  = getCandidates s ++ [snd (createCandidate s d)].
Proof.
  intros Hfresh. unfold createCandidate, getCandidates.
  cbn [fst snd candidates with_candidates with_candidateCurrentId].
  apply map_values_set_fresh. now apply fresh_not_has.
Qed.

(** X21.  Manual registration answers 400 and leaves the store as it was
    when the name, the e-mail or the position is absent or empty.
    Otherwise, in a store whose candidate keys are below the candidate
    counter, it answers 201 with a new candidate that is appended to the
    candidate list, carries the submitted name, e-mail and position, the
    time of the request, status registered, round gd, no panel and no
    room, and the serial number made from the number of candidates stored
    before. *)
Theorem manual_registration :
  forall now s body,
    candidateIdsFresh s ->
    let '(s', r) := postManual now s body in
    match mb_name body, mb_email body, mb_position body with
    | Some name, Some email, Some position =>
        if truthy name && truthy email && truthy position then
          exists c,
            r = Json 201 c
            /\ getCandidates s' = getCandidates s ++ [c]
            /\ c_id c = candidateCurrentId s
            /\ c_name c = name /\ c_email c = email
            /\ c_position c = position
            /\ c_timestamp c = now
            /\ c_status c = "registered" /\ c_currentRound c = "gd"
            /\ c_assignedPanel c = None /\ c_roomNo c = None
            /\ c_serialNo c = serialNoFor (List.length (getCandidates s))
            /\ c_qrCodeUrl c = Some (qrCodeUrlFor (c_serialNo c))
        else r = Message 400 "Name, email, and position are required"
             /\ s' = s
    | _, _, _ => r = Message 400 "Name, email, and position are required"
                 /\ s' = s
    end.
Proof.
  intros now s [[name|] [email|] [position|]] Hfresh;
    unfold postManual; cbn [mb_name mb_email mb_position missing orb];
    try (now split);
    try (destruct (negb (truthy name)); now split);
    try (destruct (negb (truthy name)); cbn [orb]; [now split|];
         destruct (negb (truthy email)); now split).
  destruct (truthy name); cbn [negb orb andb]; [|now split].
  destruct (truthy email); cbn [negb orb andb]; [|now split].
  destruct (truthy position); cbn [negb orb andb]; [|now split].
  cbn [nullish].
  pose proof (createCandidate_appends s
                (registeredCandidate
                   (serialNoFor (List.length (getCandidates s))) name email
                   position now "registered" "gd"
                   (qrCodeUrlFor
                      (serialNoFor (List.length (getCandidates s)))))
                Hfresh) as Happ.
  destruct (createCandidate s _) as [s' c] eqn:Hc.
  cbn [fst snd] in Happ.
  unfold createCandidate in Hc. injection Hc as <- <-.
  eexists. split; [reflexivity|]. split; [exact Happ|].
  cbn. repeat (split; [reflexivity|]). reflexivity.
Qed.

Lemma manual_registration_witness :
  let '(s', r) := postManual 7 (newMemStorage 0) ashaManual in
  exists c,
    r = Json 201 c
    /\ getCandidates s' = getCandidates (newMemStorage 0) ++ [c]
    /\ c_id c = candidateCurrentId (newMemStorage 0)
    /\ c_name c = "Asha" /\ c_email c = "asha@example.com"
    /\ c_position c = "Engineer"
    /\ c_timestamp c = 7
    /\ c_status c = "registered" /\ c_currentRound c = "gd"
    /\ c_assignedPanel c = None /\ c_roomNo c = None
    /\ c_serialNo c
       = serialNoFor (List.length (getCandidates (newMemStorage 0)))
    /\ c_qrCodeUrl c = Some (qrCodeUrlFor (c_serialNo c)).
Proof.
  exact (manual_registration 7 (newMemStorage 0) ashaManual
           (newMemStorage_fresh 0)).
Defined.

(** ** Candidate feedback by candidate *)





